(** * Simple Reminders: the offline-first sync core (app.js) and the
      delivery worker (sw.js), embedded and verified.

    The development follows the two source files.  Part I holds the
    definitions: the reminder record and the JSON text written under the
    [simple_reminders] key, the foreground application as an event-driven
    machine over its global variables, and the service worker's fetch and
    push handlers.  Part II holds the proofs. *)

From Stdlib Require Import ZArith QArith String Ascii List Sorted Lia.
From Stdlib Require Import DecimalString DecimalZ.
From stdpp Require Import base option list gmap strings.

Import ListNotations.
Local Open Scope Z_scope.
Local Open Scope string_scope.
Set Warnings "-register-all".

(* ===================================================================== *)
(** * Part I: definitions *)
(* ===================================================================== *)

(** ** Reminders (app.js, [addReminder] and [saveEdit])

    A reminder is the object literal built by [addReminder]; [modified]
    is absent until [saveEdit] adds it.  [id] is [Date.now()], an integral
    number of milliseconds. *)

Record Reminder := mkReminder {
  id : Z;
  dateTime : string;
  note : string;
  repeat : string;
  created : string;
  modified : option string
}.

#[global] Instance Reminder_eq_dec : EqDecision Reminder.
Proof. solve_decision. Defined.

(** ** JSON values

    What [response.json()] and [event.data.json()] hand back.  A number
    is kept as the literal the text spelled; no arithmetic is done on
    parsed numbers anywhere in the two files. *)

Inductive json :=
| JNull
| JBool (b : bool)
| JNum (literal : string)
| JStr (s : string)
| JArr (items : list json)
| JObj (props : list (string * json)).

(** ** JSON text of the reminder array

    [JSON.stringify(reminders)] on an array of reminder objects, and the
    inverse reading done by [JSON.parse] in [loadLocalReminders].  Strings
    are byte strings (UTF-8); [JSON.stringify] escapes the quote, the
    backslash and the control characters below U+0020 and copies every
    other character. *)

Module Json.

Definition dquote : ascii := "034"%char.
Definition backslash : ascii := "092"%char.

Definition hex_digit (n : N) : ascii :=
  ascii_of_N (if (n <? 10)%N then 48 + n else 87 + n).

Definition hex_value (c : ascii) : option N :=
  let n := N_of_ascii c in
  if ((48 <=? n) && (n <=? 57))%N then Some (n - 48)%N
  else if ((97 <=? n) && (n <=? 102))%N then Some (n - 87)%N
  else if ((65 <=? n) && (n <=? 70))%N then Some (n - 55)%N
  else None.

(** QuoteJSONString, one character. *)
Definition escape_char (c : ascii) : string :=
  let n := N_of_ascii c in
  if (n =? 34)%N then String backslash (String dquote "")
  else if (n =? 92)%N then String backslash (String backslash "")
  else if (n =? 8)%N then "\b"
  else if (n =? 9)%N then "\t"
  else if (n =? 10)%N then "\n"
  else if (n =? 12)%N then "\f"
  else if (n =? 13)%N then "\r"
  else if (n <? 32)%N then
    String backslash (String "u" (String "0" (String "0"
      (String (hex_digit (n / 16)) (String (hex_digit (n mod 16)) "")))))
  else String c "".

(** The printers take the text that follows as an argument, so that a
    value is written in front of what comes after it. *)

Fixpoint escape (s : string) (k : string) : string :=
  match s with
  | EmptyString => k
  | String c s' => escape_char c ++ escape s' k
  end.

Definition quote (s : string) (k : string) : string :=
  String dquote (escape s (String dquote k)).

Definition string_of_Z (z : Z) : string :=
  NilZero.string_of_int (Z.to_int z).

(** The property name with its colon, as it stands in an object. *)
Definition key (name : string) : string := quote name ":".

Definition stringify_reminder (r : Reminder) (k : string) : string :=
  "{" ++ key "id" ++ string_of_Z (id r) ++
  "," ++ key "dateTime" ++ quote (dateTime r) (
  "," ++ key "note" ++ quote (note r) (
  "," ++ key "repeat" ++ quote (repeat r) (
  "," ++ key "created" ++ quote (created r) (
  match modified r with
  | Some m => "," ++ key "modified" ++ quote m (String "}" k)
  | None => String "}" k
  end)))).

Fixpoint stringify_items (rs : list Reminder) (k : string) : string :=
  match rs with
  | [] => String "]" k
  | [r] => stringify_reminder r (String "]" k)
  | r :: rs' => stringify_reminder r (String "," (stringify_items rs' k))
  end.

(** [JSON.stringify(reminders)]. *)
Definition stringify_reminders (rs : list Reminder) (k : string) : string :=
  String "[" (stringify_items rs k).

Definition stringify (rs : list Reminder) : string :=
  stringify_reminders rs "".

(** [JSON.stringify({ reminders })], the body of the sync request. *)
Definition stringify_sync_body (rs : list Reminder) : string :=
  "{" ++ key "reminders" ++ stringify_reminders rs "}".

(** *** Reading the text back *)

Fixpoint strip_prefix (p s : string) : option string :=
  match p with
  | EmptyString => Some s
  | String a p' =>
      match s with
      | String b s' => if Ascii.eqb a b then strip_prefix p' s' else None
      | EmptyString => None
      end
  end.

Definition is_digit (c : ascii) : bool :=
  let n := N_of_ascii c in ((48 <=? n) && (n <=? 57))%N.

Fixpoint span_digits (s : string) : string * string :=
  match s with
  | String c r =>
      if is_digit c
      then let (d, rest) := span_digits r in (String c d, rest)
      else ("", s)
  | EmptyString => ("", "")
  end.

(** An integer literal: an optional minus sign and digits, accepted
    when it is the spelling [JSON.stringify] gives the number (no
    leading zero, no negative zero). *)
Definition parse_number (s : string) : option (Z * string) :=
  let '(sign, s1) :=
    match s with
    | String c r => if Ascii.eqb c "-" then ("-", r) else ("", s)
    | EmptyString => ("", s)
    end in
  let (ds, rest) := span_digits s1 in
  d ← NilZero.int_of_string (sign ++ ds);
  let z := Z.of_int d in
  if String.eqb (string_of_Z z) (sign ++ ds) then Some (z, rest) else None.

Definition unescape_simple (e : ascii) : option ascii :=
  let n := N_of_ascii e in
  if (n =? 34)%N then Some dquote
  else if (n =? 92)%N then Some backslash
  else if (n =? 47)%N then Some "/"%char
  else if (n =? 98)%N then Some "008"%char
  else if (n =? 116)%N then Some "009"%char
  else if (n =? 110)%N then Some "010"%char
  else if (n =? 102)%N then Some "012"%char
  else if (n =? 114)%N then Some "013"%char
  else None.

Definition unescape_hex (h1 h2 h3 h4 : ascii) : option ascii :=
  a ← hex_value h1; b ← hex_value h2; c ← hex_value h3; d ← hex_value h4;
  let code := (((a * 16 + b) * 16 + c) * 16 + d)%N in
  if (code <? 128)%N then Some (ascii_of_N code) else None.

(** The characters of a string literal after its opening quote, up to
    the closing one.  A raw control character is a syntax error. *)
Fixpoint parse_string_body (s : string) : option (string * string) :=
  match s with
  | EmptyString => None
  | String c rest =>
      if Ascii.eqb c dquote then Some ("", rest)
      else if Ascii.eqb c backslash then
        match rest with
        | String e rest1 =>
            if Ascii.eqb e "u" then
              match rest1 with
              | String h1 (String h2 (String h3 (String h4 rest2))) =>
                  x ← unescape_hex h1 h2 h3 h4;
                  '(t, r) ← parse_string_body rest2;
                  Some (String x t, r)
              | _ => None
              end
            else
              x ← unescape_simple e;
              '(t, r) ← parse_string_body rest1;
              Some (String x t, r)
        | EmptyString => None
        end
      else if (N_of_ascii c <? 32)%N then None
      else '(t, r) ← parse_string_body rest; Some (String c t, r)
  end.

Definition parse_string (s : string) : option (string * string) :=
  match s with
  | String c rest => if Ascii.eqb c dquote then parse_string_body rest else None
  | EmptyString => None
  end.

Definition parse_field (name : string) (s : string) : option (string * string) :=
  s1 ← strip_prefix ("," ++ key name) s;
  parse_string s1.

Definition parse_reminder (s : string) : option (Reminder * string) :=
  s1 ← strip_prefix ("{" ++ key "id") s;
  '(i, s2) ← parse_number s1;
  '(dt, s3) ← parse_field "dateTime" s2;
  '(n, s4) ← parse_field "note" s3;
  '(rp, s5) ← parse_field "repeat" s4;
  '(cr, s6) ← parse_field "created" s5;
  match s6 with
  | String "}" rest => Some (mkReminder i dt n rp cr None, rest)
  | _ =>
      '(m, s7) ← parse_field "modified" s6;
      match s7 with
      | String "}" rest => Some (mkReminder i dt n rp cr (Some m), rest)
      | _ => None
      end
  end.

(** The elements of an array after the first bracket; [fuel] bounds
    the number of elements and is the length of the text. *)
Fixpoint parse_items (fuel : nat) (s : string) : option (list Reminder * string) :=
  match fuel with
  | O => None
  | S fuel' =>
      '(r, s1) ← parse_reminder s;
      match s1 with
      | String "," s2 =>
          '(rs, s3) ← parse_items fuel' s2; Some (r :: rs, s3)
      | String "]" s2 => Some ([r], s2)
      | _ => None
      end
  end.

Definition parse_reminders (s : string) : option (list Reminder * string) :=
  match s with
  | String "[" (String "]" rest) => Some ([], rest)
  | String "[" s1 => parse_items (String.length s1) s1
  | _ => None
  end.

(** [JSON.parse(saved)] for the text kept under [simple_reminders]:
    [None] is the [SyntaxError].  The reader accepts the texts
    [JSON.stringify] writes for reminder arrays, which are the only
    ones [saveLocalReminders] stores; other JSON text (blanks between
    tokens, other property orders, other value shapes) is outside the
    typed model of [reminders] and is read as corrupt. *)
Definition parse (s : string) : option (list Reminder) :=
  match parse_reminders s with
  | Some (rs, EmptyString) => Some rs
  | _ => None
  end.

End Json.

(** ** The browser the application runs in

    The two platform functions the modelled code calls and neither file
    defines: [new Date(text).getTime()], where [None] is the [NaN] of an
    invalid date, and [window.atob], where [None] is the exception it
    raises on text that is not base64. *)

Class Browser := {
  Date_parse : string -> option Z;
  atob : string -> option string
}.

(** ** Globals of app.js and the page around them *)

Inductive Permission := granted | denied | default.

#[global] Instance Permission_eq_dec : EqDecision Permission.
Proof. solve_decision. Defined.

(** [updateStatus(message, type)]: the six messages the file passes and
    the class name that goes with them. *)
Inductive StatusType := st_online | st_offline | st_syncing.
Inductive StatusMessage :=
| MsgConnecting        (* Connecting... *)
| MsgConnected         (* Online - Server connected *)
| MsgOffline           (* Offline - Working locally *)
| MsgSyncing           (* Syncing with server... *)
| MsgSynced            (* Online - Synced successfully *)
| MsgSyncFailed.       (* Sync failed - Working offline *)

(** What [notificationStatusEl] shows; [NSHidden] is [display: none]. *)
Inductive NotificationStatus :=
| NSHidden
| NSReady              (* Notifications enabled and ready! *)
| NSBlocked            (* Notifications blocked. Please enable in browser settings. *)
| NSNeedsConnection    (* Connect to server to enable notifications *)
| NSError (message : string).

(** Who is waiting on [connectToServer], and who on [syncWithServer]. *)
Inductive Caller := FromStartup | FromRetryTimer | FromOnlineEvent.
Inductive SyncCaller :=
| AwaitedByConnect (c : Caller)
| AwaitedByVisibility
| NotAwaited.

(** An asynchronous function suspended at one of its [await]s. *)
Inductive Task :=
| TRegister                          (* setupServiceWorker: register(...) *)
| TConnectFetch (c : Caller)         (* connectToServer: fetch(serverUrl) *)
| TConnectJson (c : Caller)          (* connectToServer: response.json() *)
| TSyncFetch (k : SyncCaller)        (* syncWithServer: fetch(.../sync-reminders) *)
| TSyncJson (k : SyncCaller)         (* syncWithServer: response.json() *)
| TPermission                        (* enableNotifications: requestPermission() *)
| TVapidFetch                        (* enableNotifications: fetch(.../vapid-public-key) *)
| TVapidJson                         (* enableNotifications: vapidResponse.json() *)
| TSubscribe                         (* enableNotifications: pushManager.subscribe *)
| TSubscribeFetch                    (* enableNotifications: fetch(.../subscribe) *)
| TSubscribeJson.                    (* enableNotifications: subscribeResponse.json() *)

#[global] Instance Caller_eq_dec : EqDecision Caller.
Proof. solve_decision. Defined.
#[global] Instance SyncCaller_eq_dec : EqDecision SyncCaller.
Proof. solve_decision. Defined.
#[global] Instance Task_eq_dec : EqDecision Task.
Proof. solve_decision. Defined.

(** What the code asks of the world, in the order it asks. *)
Inductive Effect :=
| FxFetch (method url : string) (body : option string)
| FxAlert (message : string)
| FxConfirm (message : string)
| FxRequestPermission
| FxSubscribe (applicationServerKey : string)
| FxRegister (script : string)
| FxUnhandledRejection (message : string).

Record Dom := mkDom {
  statusEl : option (StatusMessage * StatusType);
  notificationSetupShown : bool;
  notificationStatusEl : NotificationStatus;
  enableButtonDisabled : bool;
  enableButtonListens : bool;
  editFormShown : bool
}.

Record State := mkState {
  reminders : list Reminder;
  isOnline : bool;
  editingId : option Z;
  syncInProgress : bool;
  swRegistration : bool;             (* [false] is [null] *)
  notificationsEnabled : bool;
  subscriptionActive : bool;
  localStorage : gmap string string;
  permission : Permission;           (* Notification.permission *)
  dom : Dom;
  pending : list Task;
  effects : list Effect
}.

Definition serverUrl : string := "https://192.168.0.147:3001".

(** The state when the script has been loaded and nothing has run;
    [storage] and [perm] are what the browser kept from earlier visits. *)
Definition initial (storage : gmap string string) (perm : Permission) : State :=
  {| reminders := []; isOnline := false; editingId := None;
     syncInProgress := false; swRegistration := false;
     notificationsEnabled := false; subscriptionActive := false;
     localStorage := storage; permission := perm;
     dom := mkDom None false NSHidden false false false;
     pending := []; effects := [] |}.

Definition set_reminders (v : list Reminder) (s : State) : State :=
  mkState v (isOnline s) (editingId s) (syncInProgress s) (swRegistration s)
    (notificationsEnabled s) (subscriptionActive s) (localStorage s)
    (permission s) (dom s) (pending s) (effects s).
Definition set_isOnline (v : bool) (s : State) : State :=
  mkState (reminders s) v (editingId s) (syncInProgress s) (swRegistration s)
    (notificationsEnabled s) (subscriptionActive s) (localStorage s)
    (permission s) (dom s) (pending s) (effects s).
Definition set_editingId (v : option Z) (s : State) : State :=
  mkState (reminders s) (isOnline s) v (syncInProgress s) (swRegistration s)
    (notificationsEnabled s) (subscriptionActive s) (localStorage s)
    (permission s) (dom s) (pending s) (effects s).
Definition set_syncInProgress (v : bool) (s : State) : State :=
  mkState (reminders s) (isOnline s) (editingId s) v (swRegistration s)
    (notificationsEnabled s) (subscriptionActive s) (localStorage s)
    (permission s) (dom s) (pending s) (effects s).
Definition set_swRegistration (v : bool) (s : State) : State :=
  mkState (reminders s) (isOnline s) (editingId s) (syncInProgress s) v
    (notificationsEnabled s) (subscriptionActive s) (localStorage s)
    (permission s) (dom s) (pending s) (effects s).
Definition set_notificationsEnabled (v : bool) (s : State) : State :=
  mkState (reminders s) (isOnline s) (editingId s) (syncInProgress s)
    (swRegistration s) v (subscriptionActive s) (localStorage s)
    (permission s) (dom s) (pending s) (effects s).
Definition set_subscriptionActive (v : bool) (s : State) : State :=
  mkState (reminders s) (isOnline s) (editingId s) (syncInProgress s)
    (swRegistration s) (notificationsEnabled s) v (localStorage s)
    (permission s) (dom s) (pending s) (effects s).
Definition set_localStorage (v : gmap string string) (s : State) : State :=
  mkState (reminders s) (isOnline s) (editingId s) (syncInProgress s)
    (swRegistration s) (notificationsEnabled s) (subscriptionActive s) v
    (permission s) (dom s) (pending s) (effects s).
Definition set_permission (v : Permission) (s : State) : State :=
  mkState (reminders s) (isOnline s) (editingId s) (syncInProgress s)
    (swRegistration s) (notificationsEnabled s) (subscriptionActive s)
    (localStorage s) v (dom s) (pending s) (effects s).
Definition set_dom (v : Dom) (s : State) : State :=
  mkState (reminders s) (isOnline s) (editingId s) (syncInProgress s)
    (swRegistration s) (notificationsEnabled s) (subscriptionActive s)
    (localStorage s) (permission s) v (pending s) (effects s).
Definition set_pending (v : list Task) (s : State) : State :=
  mkState (reminders s) (isOnline s) (editingId s) (syncInProgress s)
    (swRegistration s) (notificationsEnabled s) (subscriptionActive s)
    (localStorage s) (permission s) (dom s) v (effects s).
Definition set_effects (v : list Effect) (s : State) : State :=
  mkState (reminders s) (isOnline s) (editingId s) (syncInProgress s)
    (swRegistration s) (notificationsEnabled s) (subscriptionActive s)
    (localStorage s) (permission s) (dom s) (pending s) v.

(** ** Statements of app.js: state and exceptions

    A function body is a state transformer that ends normally with a
    value or abruptly with the message of the error thrown. *)

Inductive Result (A : Type) :=
| Val (a : A)
| Throw (message : string).
Arguments Val {A} a.
Arguments Throw {A} message.

Definition M (A : Type) : Type := State -> Result A * State.

Definition ret {A} (a : A) : M A := fun s => (Val a, s).
Definition throw {A} (message : string) : M A := fun s => (Throw message, s).
Definition bind {A B} (m : M A) (f : A -> M B) : M B :=
  fun s => match m s with
           | (Val a, s') => f a s'
           | (Throw e, s') => (Throw e, s')
           end.
Definition gets {A} (f : State -> A) : M A := fun s => (Val (f s), s).
Definition modify (f : State -> State) : M unit := fun s => (Val tt, f s).

Notation "'let*' x ':=' m 'in' k" := (bind m (fun x => k))
  (at level 10, x name, m at level 100, k at level 200).
Notation "m ;; k" := (bind m (fun _ => k))
  (at level 100, k at level 200, right associativity).

(** [try { body } catch (error) { handler }] *)
Definition try_catch {A} (body : M A) (handler : string -> M A) : M A :=
  fun s => match body s with
           | (Throw e, s') => handler e s'
           | r => r
           end.

(** An asynchronous function either ran to its end or stopped at an
    [await], leaving a task behind. *)
Inductive Completion := Done | Suspended.

(** [try { body } finally { final }] around a body that may stop at an
    [await]: the [finally] block waits for the rest of the body. *)
Definition try_finally (body : M Completion) (final : M unit) : M Completion :=
  fun s => match body s with
           | (Val Suspended, s') => (Val Suspended, s')
           | (Val Done, s') => (final ;; ret Done) s'
           | (Throw e, s') => (final ;; throw e) s'
           end.

Definition perform (fx : Effect) : M unit :=
  modify (fun s => set_effects (effects s ++ [fx]) s).

(** [await] on a promise that has not settled. *)
Definition await (t : Task) : M Completion :=
  modify (fun s => set_pending (pending s ++ [t]) s) ;; ret Suspended.

Definition alert (message : string) : M unit := perform (FxAlert message).
Definition confirm (message : string) (answer : bool) : M bool :=
  perform (FxConfirm message) ;; ret answer.
Definition fetch (method url : string) (body : option string) : M unit :=
  perform (FxFetch method url body).

(** A settled promise. *)
Inductive Settled (A : Type) :=
| Fulfilled (a : A)
| Rejected (message : string).
Arguments Fulfilled {A} a.
Arguments Rejected {A} message.

(** [response.ok] *)
Definition response_ok (status : Z) : bool := ((200 <=? status) && (status <=? 299))%Z.

(** ** String helpers standing for the built-ins the code calls *)

(** The ASCII part of what [String.prototype.trim] removes; the other
    Unicode blanks are multi-byte in this representation and are kept. *)
Definition is_space (c : ascii) : bool :=
  let n := N_of_ascii c in (((9 <=? n) && (n <=? 13)) || (n =? 32))%N.

Fixpoint trim_start (s : string) : string :=
  match s with
  | String c r => if is_space c then trim_start r else s
  | EmptyString => ""
  end.

Definition trim (s : string) : string :=
  String.rev (trim_start (String.rev (trim_start s))).

Fixpoint map_string (f : ascii -> ascii) (s : string) : string :=
  match s with
  | String c r => String (f c) (map_string f r)
  | EmptyString => ""
  end.

(** [text.replace(/from/g, to)] for single characters. *)
Definition replace_char (from to : ascii) : string -> string :=
  map_string (fun c => if Ascii.eqb c from then to else c).

Fixpoint repeat_string (s : string) (n : nat) : string :=
  match n with
  | O => ""
  | S n' => s ++ repeat_string s n'
  end.

(** [hay.includes(needle)] *)
Fixpoint includes (needle hay : string) : bool :=
  String.prefix needle hay ||
  match hay with
  | String _ r => includes needle r
  | EmptyString => false
  end.

(** Own property lookup on a parsed object; a later property of the same
    name replaces an earlier one. *)
Fixpoint get_prop (name : string) (props : list (string * json)) : option json :=
  match props with
  | [] => None
  | (k, v) :: rest =>
      match get_prop name rest with
      | Some v' => Some v'
      | None => if String.eqb k name then Some v else None
      end
  end.

(** [value.name] evaluated for its exception only: reading a property
    of [null] throws, of anything else it does not. *)
Definition read_property (value : json) (name : string) : M unit :=
  match value with
  | JNull => throw ("Cannot read properties of null (reading '" ++ name ++ "')")
  | _ => ret tt
  end.

Definition set_statusEl (v : option (StatusMessage * StatusType)) (d : Dom) : Dom :=
  mkDom v (notificationSetupShown d) (notificationStatusEl d)
    (enableButtonDisabled d) (enableButtonListens d) (editFormShown d).
Definition set_notificationSetupShown (v : bool) (d : Dom) : Dom :=
  mkDom (statusEl d) v (notificationStatusEl d)
    (enableButtonDisabled d) (enableButtonListens d) (editFormShown d).
Definition set_notificationStatusEl (v : NotificationStatus) (d : Dom) : Dom :=
  mkDom (statusEl d) (notificationSetupShown d) v
    (enableButtonDisabled d) (enableButtonListens d) (editFormShown d).
Definition set_enableButtonDisabled (v : bool) (d : Dom) : Dom :=
  mkDom (statusEl d) (notificationSetupShown d) (notificationStatusEl d)
    v (enableButtonListens d) (editFormShown d).
Definition set_enableButtonListens (v : bool) (d : Dom) : Dom :=
  mkDom (statusEl d) (notificationSetupShown d) (notificationStatusEl d)
    (enableButtonDisabled d) v (editFormShown d).
Definition set_editFormShown (v : bool) (d : Dom) : Dom :=
  mkDom (statusEl d) (notificationSetupShown d) (notificationStatusEl d)
    (enableButtonDisabled d) (enableButtonListens d) v.

Definition modify_dom (f : Dom -> Dom) : M unit :=
  modify (fun s => set_dom (f (dom s)) s).

(** ** Notification status and setup (app.js, lines 89-231) *)

Definition updateStatus (message : StatusMessage) (type : StatusType) : M unit :=
  modify_dom (set_statusEl (Some (message, type))).

Definition updateNotificationUI : M unit :=
  let* savedState := gets (fun s => localStorage s !! "notifications_enabled") in
  let* perm := gets permission in
  let* online := gets isOnline in
  if bool_decide (perm = granted) && bool_decide (savedState = Some "true") && online then
    modify_dom (set_notificationSetupShown false) ;;
    modify_dom (set_notificationStatusEl NSReady) ;;
    modify (set_notificationsEnabled true)
  else if bool_decide (perm = denied) then
    modify_dom (set_notificationSetupShown false) ;;
    modify_dom (set_notificationStatusEl NSBlocked)
  else if negb online then
    modify_dom (set_notificationSetupShown false) ;;
    modify_dom (set_notificationStatusEl NSNeedsConnection)
  else
    modify_dom (set_notificationSetupShown true) ;;
    modify_dom (set_notificationStatusEl NSHidden) ;;
    modify_dom (set_enableButtonDisabled false).

(** The display [updateNotificationUI] computes, as a function of the
    permission, the saved flag and the connectivity. *)
Definition ui_ready (s : State) : bool :=
  bool_decide (permission s = granted) &&
  bool_decide (localStorage s !! "notifications_enabled" = Some "true") &&
  isOnline s.

Definition ui_dom (s : State) : Dom :=
  if ui_ready s then
    set_notificationStatusEl NSReady (set_notificationSetupShown false (dom s))
  else if bool_decide (permission s = denied) then
    set_notificationStatusEl NSBlocked (set_notificationSetupShown false (dom s))
  else if negb (isOnline s) then
    set_notificationStatusEl NSNeedsConnection (set_notificationSetupShown false (dom s))
  else
    set_enableButtonDisabled false
      (set_notificationStatusEl NSHidden (set_notificationSetupShown true (dom s))).

Definition showNotificationError (message : string) : M unit :=
  modify_dom (set_notificationSetupShown false) ;;
  modify_dom (set_notificationStatusEl (NSError message)).

(** [reminders.findIndex(p)]; [None] is the [-1] of no match. *)
Fixpoint findIndex {A} (p : A -> bool) (l : list A) : option nat :=
  match l with
  | [] => None
  | x :: l' => if p x then Some O else S <$> findIndex p l'
  end.

(** [r.id === editingId], where [editingId] may be [null]. *)
Definition id_is (target : option Z) (r : Reminder) : bool :=
  match target with
  | Some i => (id r =? i)%Z
  | None => false
  end.

(** [(now.getTime() - reminderTime.getTime()) / (1000 * 60 * 60)].  The
    two times are integral milliseconds; the quotient is taken exactly.
    The double division the browser performs is monotone and exact at
    24 * 3600000, and the next integer above that is far more than half
    an ulp away, so the comparison with 24 below is the same. *)
Definition hoursAgo (now reminderTime : Z) : Q :=
  (inject_Z (now - reminderTime) / inject_Z (1000 * 60 * 60))%Q.

Section App.
Context `{Browser}.

(** VAPID key conversion.  The value is the binary string [atob]
    returns, whose characters the loop copies into the array. *)
Definition urlBase64ToUint8Array (base64String : string) : M string :=
  let padding :=
    repeat_string "=" ((4 - String.length base64String mod 4) mod 4)%nat in
  let base64 :=
    replace_char "_" "/" (replace_char "-" "+" (base64String ++ padding)) in
  match atob base64 with
  | Some rawData => ret rawData
  | None => throw "The string to be decoded is not correctly encoded."
  end.

(** *** The local store (lines 233-255) *)

Definition loadLocalReminders : M unit :=
  try_catch
    (let* saved := gets (fun s => localStorage s !! "simple_reminders") in
     match saved with
     | Some text =>
         if String.eqb text "" then ret tt
         else match Json.parse text with
              | Some parsed => modify (set_reminders parsed)
              | None => throw "SyntaxError"
              end
     | None => ret tt
     end)
    (fun _ => modify (set_reminders [])).

(** [localStorage] is a total map here: [setItem] does not fail, and
    the [catch] block, kept as in the source, is not entered. *)
Definition saveLocalReminders : M unit :=
  try_catch
    (modify (fun s =>
       set_localStorage
         (<["simple_reminders" := Json.stringify (reminders s)]> (localStorage s)) s))
    (fun _ => ret tt).

(** [renderReminders] rewrites the list element from [reminders] and
    touches nothing the model keeps. *)
Definition renderReminders : M unit := ret tt.

(** *** Synchronisation (lines 292-326) *)

Definition sync_catch (error : string) : M Completion :=
  updateStatus MsgSyncFailed st_offline ;;
  modify (set_isOnline false) ;;
  updateNotificationUI ;;
  ret Done.

Definition sync_finally : M unit := modify (set_syncInProgress false).

Definition syncWithServer (k : SyncCaller) : M Completion :=
  let* online := gets isOnline in
  let* busy := gets syncInProgress in
  if negb online || busy then ret Done
  else
    try_finally
      (try_catch
         (modify (set_syncInProgress true) ;;
          updateStatus MsgSyncing st_syncing ;;
          let* body := gets (fun s => Json.stringify_sync_body (reminders s)) in
          fetch "POST" (serverUrl ++ "/sync-reminders") (Some body) ;;
          await (TSyncFetch k))
         sync_catch)
      sync_finally.

(** The rest of [syncWithServer] once [fetch] has settled. *)
Definition sync_fetch_settled (k : SyncCaller) (r : Settled Z) : M Completion :=
  try_finally
    (try_catch
       (match r with
        | Rejected e => throw e
        | Fulfilled status =>
            if response_ok status then await (TSyncJson k)
            else throw ("Sync failed: " ++ Json.string_of_Z status)
        end)
       sync_catch)
    sync_finally.

(** ... and once [response.json()] has. *)
Definition sync_json_settled (k : SyncCaller) (r : Settled json) : M Completion :=
  try_finally
    (try_catch
       (match r with
        | Rejected e => throw e
        | Fulfilled result =>
            read_property result "message" ;;
            read_property result "stats" ;;
            updateStatus MsgSynced st_online ;;
            ret Done
        end)
       sync_catch)
    sync_finally.

(** *** Connection probe (lines 257-290) *)

Definition connect_catch (error : string) : M Completion :=
  modify (set_isOnline false) ;;
  updateStatus MsgOffline st_offline ;;
  updateNotificationUI ;;
  ret Done.

Definition connectToServer (c : Caller) : M Completion :=
  try_catch
    (updateStatus MsgConnecting st_offline ;;
     fetch "GET" serverUrl None ;;
     await (TConnectFetch c))
    connect_catch.

Definition connect_fetch_settled (c : Caller) (r : Settled Z) : M Completion :=
  try_catch
    (match r with
     | Rejected e => throw e
     | Fulfilled status =>
         if response_ok status then await (TConnectJson c)
         else throw ("Server returned " ++ Json.string_of_Z status)
     end)
    connect_catch.

Definition connect_json_settled (c : Caller) (r : Settled json) : M Completion :=
  try_catch
    (match r with
     | Rejected e => throw e
     | Fulfilled data =>
         modify (set_isOnline true) ;;
         updateStatus MsgConnected st_online ;;
         read_property data "message" ;;
         updateNotificationUI ;;
         syncWithServer (AwaitedByConnect c)
     end)
    connect_catch.

(** *** Notification setup (lines 89-173) *)

Definition enable_catch (error : string) : M Completion :=
  showNotificationError error ;;
  modify_dom (set_enableButtonDisabled false) ;;
  ret Done.

(** From the permission check on. *)
Definition enable_with_permission (perm : Permission) : M Completion :=
  if negb (bool_decide (perm = granted)) then throw "Notification permission denied"
  else
    let* online := gets isOnline in
    if negb online then throw "Server not connected. Please wait for connection."
    else
      fetch "GET" (serverUrl ++ "/vapid-public-key") None ;;
      await TVapidFetch.

Definition enableNotifications : M Completion :=
  try_catch
    (modify_dom (set_enableButtonDisabled true) ;;
     let* registration := gets swRegistration in
     if negb registration then throw "Service Worker not available"
     else
       let* perm := gets permission in
       if bool_decide (perm = default)
       then perform FxRequestPermission ;; await TPermission
       else enable_with_permission perm)
    enable_catch.

(** [requestPermission()] settled; the browser records the answer. *)
Definition permission_settled (r : Settled Permission) : M Completion :=
  try_catch
    (match r with
     | Rejected e => throw e
     | Fulfilled perm => modify (set_permission perm) ;; enable_with_permission perm
     end)
    enable_catch.

Definition vapid_fetch_settled (r : Settled Z) : M Completion :=
  try_catch
    (match r with
     | Rejected e => throw e
     | Fulfilled status =>
         if response_ok status then await TVapidJson
         else throw ("VAPID endpoint failed: " ++ Json.string_of_Z status)
     end)
    enable_catch.

(** [const { publicKey } = ...]: destructuring [null] throws; a
    missing or [null] key throws at [base64String.length].  A key of
    another JSON type that is not a string is folded into the same
    abort (JavaScript would first turn it into text and hand that to
    [atob]). *)
Definition destructure_publicKey (body : json) : M string :=
  match body with
  | JNull => throw "Cannot destructure property 'publicKey' of null"
  | JObj props =>
      match get_prop "publicKey" props with
      | Some (JStr text) => ret text
      | _ => throw "Cannot read properties of undefined (reading 'length')"
      end
  | _ => throw "Cannot read properties of undefined (reading 'length')"
  end.

Definition vapid_json_settled (r : Settled json) : M Completion :=
  try_catch
    (match r with
     | Rejected e => throw e
     | Fulfilled body =>
         let* publicKey := destructure_publicKey body in
         let* applicationServerKey := urlBase64ToUint8Array publicKey in
         perform (FxSubscribe applicationServerKey) ;;
         await TSubscribe
     end)
    enable_catch.

(** The subscription is known to the model by its JSON text. *)
Definition subscribe_settled (r : Settled string) : M Completion :=
  try_catch
    (match r with
     | Rejected e => throw e
     | Fulfilled subscription =>
         fetch "POST" (serverUrl ++ "/subscribe") (Some subscription) ;;
         await TSubscribeFetch
     end)
    enable_catch.

Definition subscribe_fetch_settled (r : Settled Z) : M Completion :=
  try_catch
    (match r with
     | Rejected e => throw e
     | Fulfilled status =>
         if response_ok status then await TSubscribeJson
         else throw ("Subscription failed: " ++ Json.string_of_Z status)
     end)
    enable_catch.

Definition subscribe_json_settled (r : Settled json) : M Completion :=
  try_catch
    (match r with
     | Rejected e => throw e
     | Fulfilled result =>
         modify (set_notificationsEnabled true) ;;
         modify (set_subscriptionActive true) ;;
         modify (fun s =>
           set_localStorage (<["notifications_enabled" := "true"]> (localStorage s)) s) ;;
         updateNotificationUI ;;
         ret Done
     end)
    enable_catch.

(** The stretches of [enableNotifications] between its [await]s, each
    with the result it resumes on, the task it was waiting as, and the
    tasks it can go on to wait as. *)
Inductive EnableSegment :=
| SegClick
| SegPermission (r : Settled Permission)
| SegVapidFetch (r : Settled Z)
| SegVapidJson (r : Settled json)
| SegSubscribe (r : Settled string)
| SegSubscribeFetch (r : Settled Z)
| SegSubscribeJson (r : Settled json).

Definition enable_segment (seg : EnableSegment) : M Completion :=
  match seg with
  | SegClick => enableNotifications
  | SegPermission r => permission_settled r
  | SegVapidFetch r => vapid_fetch_settled r
  | SegVapidJson r => vapid_json_settled r
  | SegSubscribe r => subscribe_settled r
  | SegSubscribeFetch r => subscribe_fetch_settled r
  | SegSubscribeJson r => subscribe_json_settled r
  end.

Definition resumes_from (seg : EnableSegment) : option Task :=
  match seg with
  | SegClick => None
  | SegPermission _ => Some TPermission
  | SegVapidFetch _ => Some TVapidFetch
  | SegVapidJson _ => Some TVapidJson
  | SegSubscribe _ => Some TSubscribe
  | SegSubscribeFetch _ => Some TSubscribeFetch
  | SegSubscribeJson _ => Some TSubscribeJson
  end.

Definition may_await (seg : EnableSegment) : list Task :=
  match seg with
  | SegClick => [TPermission; TVapidFetch]
  | SegPermission _ => [TVapidFetch]
  | SegVapidFetch _ => [TVapidJson]
  | SegVapidJson _ => [TSubscribe]
  | SegSubscribe _ => [TSubscribeFetch]
  | SegSubscribeFetch _ => [TSubscribeJson]
  | SegSubscribeJson _ => []
  end.

(** What an aborted setup leaves: the cause on display, the button
    usable again, and the store, the waiting tasks, the effects and the
    two flags as they were. *)
Definition aborted_with (cause : string) (before after : State) : Prop :=
  notificationStatusEl (dom after) = NSError cause /\
  enableButtonDisabled (dom after) = false /\
  localStorage after = localStorage before /\
  pending after = pending before /\
  effects after = effects before /\
  notificationsEnabled after = notificationsEnabled before /\
  subscriptionActive after = subscriptionActive before.

(** *** Mutations (lines 349-488) *)

(** What [addReminder] reads from the clock and the user: [new Date()]
    for the check against the past, the answer to the question it may
    ask, [Date.now()] and [new Date().toISOString()]. *)
Record AddEnv := mkAddEnv {
  add_now : Z;
  add_anyway : bool;
  add_Date_now : Z;
  add_created : string
}.

Definition start_sync_if_online : M unit :=
  let* online := gets isOnline in
  if online then syncWithServer NotAwaited ;; ret tt else ret tt.

Definition addReminder (dateTimeValue noteValue repeatValue : string)
    (env : AddEnv) : M unit :=
  let note := trim noteValue in
  if String.eqb dateTimeValue "" then alert "Please select a date and time"
  else if String.eqb note "" then alert "Please enter a reminder note"
  else
    let inPast :=
      match Date_parse dateTimeValue with
      | Some reminderTime => (reminderTime <=? add_now env)%Z
      | None => false
      end in
    let* proceed :=
      (if inPast
       then confirm "This time is in the past. Add anyway?" (add_anyway env)
       else ret true) in
    if negb proceed then ret tt
    else
      let reminder :=
        {| id := add_Date_now env; dateTime := dateTimeValue; note := note;
           repeat := repeatValue; created := add_created env;
           modified := None |} in
      modify (fun s => set_reminders (reminders s ++ [reminder]) s) ;;
      saveLocalReminders ;;
      renderReminders ;;
      start_sync_if_online.

Definition editReminder (target : Z) : M unit :=
  let* found := gets (fun s => List.find (id_is (Some target)) (reminders s)) in
  match found with
  | None => ret tt
  | Some reminder =>
      modify (set_editingId (Some target)) ;;
      modify_dom (set_editFormShown true)
  end.

Definition cancelEdit : M unit :=
  modify (set_editingId None) ;;
  modify_dom (set_editFormShown false).

Definition saveEdit (dateTimeValue noteValue repeatValue : string)
    (modifiedNow : string) : M unit :=
  let note := trim noteValue in
  if String.eqb dateTimeValue "" || String.eqb note ""
  then alert "Please fill in both date/time and note"
  else
    let* target := gets editingId in
    let* current := gets reminders in
    match findIndex (id_is target) current with
    | None => ret tt
    | Some reminderIndex =>
        match current !! reminderIndex with
        | None => ret tt
        | Some old =>
            let updated :=
              {| id := id old; dateTime := dateTimeValue; note := note;
                 repeat := repeatValue; created := created old;
                 modified := Some modifiedNow |} in
            modify (set_reminders (<[reminderIndex := updated]> current)) ;;
            saveLocalReminders ;;
            renderReminders ;;
            cancelEdit ;;
            start_sync_if_online
        end
    end.

Definition deleteReminder (target : Z) (answer : bool) : M unit :=
  let* found := gets (fun s => List.find (id_is (Some target)) (reminders s)) in
  match found with
  | None => ret tt
  | Some reminder =>
      let* yes :=
        confirm ("Delete reminder: " ++
                 String Json.dquote (note reminder ++ String Json.dquote "?"))
                answer in
      if yes then
        modify (fun s =>
          set_reminders
            (List.filter (fun r => negb (id r =? target)%Z) (reminders s)) s) ;;
        saveLocalReminders ;;
        renderReminders ;;
        start_sync_if_online
      else ret tt
  end.

(** *** Retention sweep (lines 625-648) *)

(** [reminder.repeat === 'once' && hoursAgo > 24]; an unparseable
    date gives [NaN], which is not greater than 24. *)
Definition expired (now : Z) (reminder : Reminder) : bool :=
  String.eqb (repeat reminder) "once" &&
  match Date_parse (dateTime reminder) with
  | Some reminderTime => negb (Qle_bool (hoursAgo now reminderTime) 24)
  | None => false
  end.

Definition cleanupPastReminders (now : Z) : M unit :=
  let* beforeCount := gets (fun s => length (reminders s)) in
  modify (fun s =>
    set_reminders (List.filter (fun r => negb (expired now r)) (reminders s)) s) ;;
  let* afterCount := gets (fun s => length (reminders s)) in
  if negb (beforeCount =? afterCount)%nat
  then saveLocalReminders ;; renderReminders
  else ret tt.

(** *** Start-up (lines 23-87) and what follows an awaited call *)

(** The statements of the [DOMContentLoaded] handler after
    [await connectToServer()]. *)
Definition startup_tail : M unit :=
  modify_dom (set_enableButtonListens true) ;;
  updateNotificationUI.

Definition after_connect (c : Caller) : M unit :=
  match c with
  | FromStartup => startup_tail
  | FromRetryTimer | FromOnlineEvent => ret tt
  end.

Definition after_sync (k : SyncCaller) : M unit :=
  match k with
  | AwaitedByConnect c => after_connect c
  | AwaitedByVisibility | NotAwaited => ret tt
  end.

Definition then_ (m : M Completion) (continuation : M unit) : M unit :=
  let* r := m in
  match r with
  | Done => continuation
  | Suspended => ret tt
  end.

Definition run_connect (c : Caller) : M unit :=
  then_ (connectToServer c) (after_connect c).

Definition setup_catch (error : string) : M Completion :=
  showNotificationError "Service Worker registration failed" ;; ret Done.

Definition setupServiceWorker (supported : bool) : M Completion :=
  if supported then
    try_catch
      (perform (FxRegister "./service-worker.js") ;; await TRegister)
      setup_catch
  else
    showNotificationError "Service Workers not supported in this browser" ;;
    ret Done.

Definition register_settled (r : Settled unit) : M Completion :=
  try_catch
    (match r with
     | Rejected e => throw e
     | Fulfilled _ => modify (set_swRegistration true) ;; ret Done
     end)
    setup_catch.

Definition onDOMContentLoaded (serviceWorkerSupported : bool) : M unit :=
  loadLocalReminders ;;
  renderReminders ;;
  then_ (setupServiceWorker serviceWorkerSupported) (run_connect FromStartup).

(** *** The event loop

    One event is one run of a handler, or of the rest of a suspended
    function, up to the next [await] or the end.  An [await] on a value
    that is already there resumes before any other event and is run on
    in the same step. *)
Inductive Event :=
| EvDOMContentLoaded (serviceWorkerSupported : bool)
| EvAddReminder (dateTimeValue noteValue repeatValue : string) (env : AddEnv)
| EvEditReminder (target : Z)
| EvSaveEdit (dateTimeValue noteValue repeatValue modifiedNow : string)
| EvCancelEdit
| EvDeleteReminder (target : Z) (answer : bool)
| EvEnableClick
| EvVisibilityChange (hidden : bool)
| EvOnline
| EvOffline
| EvRetryTimer
| EvSaveTimer
| EvCleanupTimer (now : Z)
| EvRegisterSettled (i : nat) (r : Settled unit)
| EvFetchSettled (i : nat) (r : Settled Z)
| EvJsonSettled (i : nat) (r : Settled json)
| EvPermissionSettled (i : nat) (r : Settled Permission)
| EvSubscribeSettled (i : nat) (r : Settled string).

Definition on_register_settled (r : Settled unit) (t : Task) : option (M unit) :=
  match t with
  | TRegister => Some (then_ (register_settled r) (run_connect FromStartup))
  | _ => None
  end.

Definition on_fetch_settled (r : Settled Z) (t : Task) : option (M unit) :=
  match t with
  | TConnectFetch c => Some (then_ (connect_fetch_settled c r) (after_connect c))
  | TSyncFetch k => Some (then_ (sync_fetch_settled k r) (after_sync k))
  | TVapidFetch => Some (vapid_fetch_settled r ;; ret tt)
  | TSubscribeFetch => Some (subscribe_fetch_settled r ;; ret tt)
  | _ => None
  end.

Definition on_json_settled (r : Settled json) (t : Task) : option (M unit) :=
  match t with
  | TConnectJson c => Some (then_ (connect_json_settled c r) (after_connect c))
  | TSyncJson k => Some (then_ (sync_json_settled k r) (after_sync k))
  | TVapidJson => Some (vapid_json_settled r ;; ret tt)
  | TSubscribeJson => Some (subscribe_json_settled r ;; ret tt)
  | _ => None
  end.

Definition on_permission_settled (r : Settled Permission) (t : Task) : option (M unit) :=
  match t with
  | TPermission => Some (permission_settled r ;; ret tt)
  | _ => None
  end.

Definition on_subscribe_settled (r : Settled string) (t : Task) : option (M unit) :=
  match t with
  | TSubscribe => Some (subscribe_settled r ;; ret tt)
  | _ => None
  end.

(** The [i]-th suspended function resumes if it is waiting for this
    kind of result; otherwise nothing happens. *)
Definition resume (i : nat) (continuation : Task -> option (M unit)) : M unit :=
  fun s =>
    match pending s !! i with
    | None => (Val tt, s)
    | Some t =>
        match continuation t with
        | None => (Val tt, s)
        | Some m => m (set_pending (delete i (pending s)) s)
        end
    end.

Definition handle (e : Event) : M unit :=
  match e with
  | EvDOMContentLoaded supported => onDOMContentLoaded supported
  | EvAddReminder d n r env => addReminder d n r env
  | EvEditReminder target => editReminder target
  | EvSaveEdit d n r m => saveEdit d n r m
  | EvCancelEdit => cancelEdit
  | EvDeleteReminder target answer => deleteReminder target answer
  | EvEnableClick =>
      (* a disabled button, or one without a listener, delivers no click *)
      let* listens := gets (fun s => enableButtonListens (dom s)) in
      let* disabled := gets (fun s => enableButtonDisabled (dom s)) in
      if listens && negb disabled then enableNotifications ;; ret tt else ret tt
  | EvVisibilityChange hidden =>
      let* online := gets isOnline in
      let* busy := gets syncInProgress in
      if negb hidden && online && negb busy
      then syncWithServer AwaitedByVisibility ;; ret tt
      else ret tt
  | EvOnline => run_connect FromOnlineEvent
  | EvOffline =>
      modify (set_isOnline false) ;;
      updateStatus MsgOffline st_offline ;;
      updateNotificationUI
  | EvRetryTimer =>
      let* online := gets isOnline in
      if negb online then run_connect FromRetryTimer else ret tt
  | EvSaveTimer => saveLocalReminders
  | EvCleanupTimer now => cleanupPastReminders now
  | EvRegisterSettled i r => resume i (on_register_settled r)
  | EvFetchSettled i r => resume i (on_fetch_settled r)
  | EvJsonSettled i r => resume i (on_json_settled r)
  | EvPermissionSettled i r => resume i (on_permission_settled r)
  | EvSubscribeSettled i r => resume i (on_subscribe_settled r)
  end.

(** An exception that leaves a handler is recorded, not lost. *)
Definition step (s : State) (e : Event) : State :=
  match handle e s with
  | (Val _, s') => s'
  | (Throw message, s') => set_effects (effects s' ++ [FxUnhandledRejection message]) s'
  end.

Definition run (events : list Event) (s : State) : State :=
  fold_left step events s.

(** The event that puts a task of the setup sequence among the waiting
    ones: the stretch before it, resumed on a result it accepts. *)
Definition enqueued_by (t : Task) (e : Event) (s : State) : Prop :=
  match t with
  | TPermission => e = EvEnableClick
  | TVapidFetch =>
      e = EvEnableClick \/
      exists i, e = EvPermissionSettled i (Fulfilled granted) /\
                pending s !! i = Some TPermission
  | TVapidJson =>
      exists i status, e = EvFetchSettled i (Fulfilled status) /\
                       response_ok status = true /\
                       pending s !! i = Some TVapidFetch
  | TSubscribe =>
      exists i body, e = EvJsonSettled i (Fulfilled body) /\
                     pending s !! i = Some TVapidJson
  | TSubscribeFetch =>
      exists i subscription, e = EvSubscribeSettled i (Fulfilled subscription) /\
                             pending s !! i = Some TSubscribe
  | TSubscribeJson =>
      exists i status, e = EvFetchSettled i (Fulfilled status) /\
                       response_ok status = true /\
                       pending s !! i = Some TSubscribeFetch
  | _ => True
  end.

(** The [Date.now()] an event hands to [addReminder], and those of a
    run, in order. *)
Definition clock_of (e : Event) : list Z :=
  match e with
  | EvAddReminder _ _ _ env => [add_Date_now env]
  | _ => []
  end.

Definition creation_clock (events : list Event) : list Z :=
  flat_map clock_of events.

(** What [loadLocalReminders] leaves in [reminders] when the key holds
    [saved]. *)
Definition loaded (saved : option string) (current : list Reminder) : list Reminder :=
  match saved with
  | Some text =>
      if String.eqb text "" then current
      else match Json.parse text with
           | Some parsed => parsed
           | None => []
           end
  | None => current
  end.

(** The reminders a store holds for a page that starts with none. *)
Definition stored_reminders (storage : gmap string string) : list Reminder :=
  loaded (storage !! "simple_reminders") [].

(** The [syncWithServer] executions that have started and not ended. *)
Definition is_sync_task (t : Task) : bool :=
  match t with
  | TSyncFetch _ | TSyncJson _ => true
  | _ => false
  end.

Definition syncs_in_flight (s : State) : nat :=
  length (List.filter is_sync_task (pending s)).

(** The guard is set exactly while one execution is under way. *)
Definition guard_matches (s : State) : Prop :=
  syncs_in_flight s = if syncInProgress s then 1%nat else 0%nat.

End App.

(** ** The delivery worker (sw.js) *)

Module SW.

(** *** Request caching (lines 42-62) *)

Record Response := mkResponse {
  status : Z;
  body : string
}.

(** The two things the handler asks of the platform, by request URL:
    [caches.match(request)], whose promise yields a response or
    [undefined], and [fetch(request)]. *)
Record Platform := mkPlatform {
  caches_match : string -> Settled (option Response);
  network : string -> Settled Response
}.

Definition promise_then {A B} (p : Settled A) (f : A -> Settled B) : Settled B :=
  match p with
  | Fulfilled a => f a
  | Rejected e => Rejected e
  end.

Definition promise_catch {A} (p : Settled A) (f : string -> A) : Settled A :=
  match p with
  | Fulfilled a => Fulfilled a
  | Rejected e => Fulfilled (f e)
  end.

(** What becomes of a fetch event: the handler returns without a word
    and the browser carries the request out itself, or it answers with
    the promise given to [event.respondWith]. *)
Inductive FetchDecision :=
| NotIntercepted
| RespondWith (response : Settled Response).

Definition bypasses (url : string) : bool :=
  includes "192.168." url && includes ":3001" url.

Definition onfetch (platform : Platform) (url : string) : FetchDecision :=
  if bypasses url then NotIntercepted
  else
    RespondWith
      (promise_catch
         (promise_then (caches_match platform url)
            (fun response =>
               match response with
               | Some cached => Fulfilled cached
               | None => network platform url
               end))
         (fun error => mkResponse 408 "Network error")).

(** [true] when the URL is one of the remote authority,
    [https://192.168.0.147:3001] followed by a path. *)
Definition addressed_to_server (url : string) : bool :=
  String.prefix (serverUrl ++ "/") url.

(** *** Push (lines 64-149) *)

(** [event.data]: [json()] returns a value or throws, [text()] returns
    the payload. *)
Record PushMessageData := mkPushMessageData {
  data_json : Settled json;
  data_text : string
}.

Definition quoted (s : string) : string :=
  String Json.dquote (s ++ String Json.dquote "").

Definition svg_disc (fill glyph : string) : string :=
  "data:image/svg+xml,<svg xmlns=" ++ quoted "http://www.w3.org/2000/svg" ++
  " viewBox=" ++ quoted "0 0 100 100" ++ "><circle cx=" ++ quoted "50" ++
  " cy=" ++ quoted "50" ++ " r=" ++ quoted "40" ++ " fill=" ++ quoted fill ++
  "/><text x=" ++ quoted "50" ++ " y=" ++ quoted "65" ++ " text-anchor=" ++
  quoted "middle" ++ " font-size=" ++ quoted "30" ++ " fill=" ++ quoted "white" ++
  ">" ++ glyph ++ "</text></svg>".

Definition default_title : json := JStr "⏰ Reminder".
Definition default_body : json := JStr "Scheduled reminder from your Pi!".
Definition short_vibration : json := JArr [JNum "200"; JNum "100"; JNum "200"].

(** The object [notificationData] starts as. *)
Definition defaults (origin : string) (now : Z) : gmap string json :=
  <["title" := default_title]> (
  <["body" := default_body]> (
  <["icon" := JStr (svg_disc "%233b82f6" "⏰")]> (
  <["badge" := JStr (svg_disc "%23ef4444" "🔔")]> (
  <["tag" := JStr "reminder-notification"]> (
  <["requireInteraction" := JBool true]> (
  <["vibrate" := short_vibration]> (
  <["data" := JObj [("url", JStr origin);
                    ("timestamp", JNum (Json.string_of_Z now));
                    ("source", JStr "pi-reminder-server")]]> ∅))))))).

Definition index_key (i : nat) : string :=
  NilZero.string_of_uint (Nat.to_uint i).

(** The own enumerable properties a spread copies: those of an object,
    the indices of an array or of a string (here one per byte), none
    of a number, a boolean or [null]. *)
Definition own_props (v : json) : list (string * json) :=
  match v with
  | JObj props => props
  | JArr items => imap (fun i x => (index_key i, x)) items
  | JStr s =>
      imap (fun i c => (index_key i, JStr (String c ""))) (list_ascii_of_string s)
  | JNull | JBool _ | JNum _ => []
  end.

(** [{ ...target, ...source }] *)
Definition spread (target : gmap string json) (source : json) : gmap string json :=
  foldl (fun m kv => <[kv.1 := kv.2]> m) target (own_props source).

Definition isIOS (userAgent : string) : bool :=
  includes "iPad" userAgent || includes "iPhone" userAgent || includes "iPod" userAgent.

Definition action_buttons : json :=
  JArr [JObj [("action", JStr "open"); ("title", JStr "📱 Open App")];
        JObj [("action", JStr "dismiss"); ("title", JStr "✕ Dismiss")]].

(** [notificationData] after the payload has been looked at. *)
Definition with_payload (base : gmap string json) (data : option PushMessageData)
    : gmap string json :=
  match data with
  | None => base
  | Some d =>
      match data_json d with
      | Fulfilled pushData => spread base pushData
      | Rejected _ => <["body" := JStr (data_text d)]> base
      end
  end.

(** ... and after the platform branch. *)
Definition for_platform (userAgent : string) (notificationData : gmap string json)
    : gmap string json :=
  if isIOS userAgent then
    <["requireInteraction" := JBool true]> (
    <["vibrate" := short_vibration]> (
    delete "actions" notificationData))
  else <["actions" := action_buttons]> notificationData.

(** The three properties the platform branch sets. *)
Definition platform_key (k : string) : bool :=
  String.eqb k "actions" || String.eqb k "vibrate" || String.eqb k "requireInteraction".

Inductive WorkerEffect :=
| ShowNotification (title : option json) (options : gmap string json)
| PostMessage (client : nat) (type : string) (notification : gmap string json).

Record PushEvent := mkPushEvent {
  origin : string;                (* self.location.origin *)
  userAgent : string;             (* self.navigator.userAgent || '' *)
  clock : Z;                      (* Date.now() *)
  data : option PushMessageData;  (* event.data *)
  shown : Settled unit;           (* how showNotification settles *)
  clients : list nat              (* the windows matchAll finds *)
}.

Definition notification_of (e : PushEvent) : gmap string json :=
  for_platform (userAgent e) (with_payload (defaults (origin e) (clock e)) (data e)).

Definition onpush (e : PushEvent) : list WorkerEffect :=
  let notificationData := notification_of e in
  ShowNotification (notificationData !! "title") notificationData ::
  match shown e with
  | Fulfilled _ =>
      List.map (fun client => PostMessage client "PUSH_RECEIVED" notificationData)
               (clients e)
  | Rejected _ => []
  end.

End SW.

(** ** A browser to run the model on

    [Date_parse] reads the value of a [datetime-local] input,
    [YYYY-MM-DDTHH:MM], as a device in the UTC time zone does, and
    [atob] decodes base64.  Used where a statement is evaluated on
    concrete input. *)

Module SampleBrowser.

Fixpoint decimal_value (s : string) (acc : Z) : option Z :=
  match s with
  | EmptyString => Some acc
  | String c r =>
      if Json.is_digit c
      then decimal_value r (10 * acc + Z.of_N (N_of_ascii c) - 48)%Z
      else None
  end.

Definition field (from len : nat) (s : string) : option Z :=
  let text := String.substring from len s in
  if (String.length text =? len)%nat then decimal_value text 0 else None.

Definition days_from_civil (y m d : Z) : Z :=
  let y' := if (m <=? 2)%Z then y - 1 else y in
  let era := y' / 400 in
  let yoe := y' - era * 400 in
  let doy := (153 * (m + (if (2 <? m)%Z then -3 else 9)) + 2) / 5 + d - 1 in
  let doe := yoe * 365 + yoe / 4 - yoe / 100 + doy in
  era * 146097 + doe - 719468.

Definition separator (at_ : nat) (c : ascii) (s : string) : bool :=
  match String.get at_ s with
  | Some x => Ascii.eqb x c
  | None => false
  end.

Definition parse_datetime_local (s : string) : option Z :=
  y ← field 0 4 s; m ← field 5 2 s; d ← field 8 2 s;
  hh ← field 11 2 s; mm ← field 14 2 s;
  if (String.length s =? 16)%nat && separator 4 "-" s && separator 7 "-" s &&
     separator 10 "T" s && separator 13 ":" s &&
     (1 <=? m)%Z && (m <=? 12)%Z && (1 <=? d)%Z && (d <=? 31)%Z &&
     (hh <=? 23)%Z && (mm <=? 59)%Z
  then Some (((days_from_civil y m d * 24 + hh) * 60 + mm) * 60000)%Z
  else None.

Definition base64_value (c : ascii) : option N :=
  let n := N_of_ascii c in
  if ((65 <=? n) && (n <=? 90))%N then Some (n - 65)%N
  else if ((97 <=? n) && (n <=? 122))%N then Some (n - 71)%N
  else if ((48 <=? n) && (n <=? 57))%N then Some (n + 4)%N
  else if (n =? 43)%N then Some 62%N
  else if (n =? 47)%N then Some 63%N
  else None.

Fixpoint sextets (s : string) : option (list N) :=
  match s with
  | EmptyString => Some []
  | String c r => v ← base64_value c; vs ← sextets r; Some (v :: vs)
  end.

Fixpoint octets (fuel : nat) (vs : list N) : string :=
  match fuel, vs with
  | S fuel', a :: b :: c :: d :: rest =>
      String (ascii_of_N ((a * 4 + b / 16) mod 256))
        (String (ascii_of_N ((b * 16 + c / 4) mod 256))
           (String (ascii_of_N ((c * 64 + d) mod 256)) (octets fuel' rest)))
  | _, [a; b; c] =>
      String (ascii_of_N ((a * 4 + b / 16) mod 256))
        (String (ascii_of_N ((b * 16 + c / 4) mod 256)) "")
  | _, [a; b] => String (ascii_of_N ((a * 4 + b / 16) mod 256)) ""
  | _, _ => ""
  end.

Definition drop_padding (s : string) : string :=
  let n := String.length s in
  if (n mod 4 =? 0)%nat then
    if String.eqb (String.substring (n - 2) 2 s) "==" then String.substring 0 (n - 2) s
    else if String.eqb (String.substring (n - 1) 1 s) "=" then String.substring 0 (n - 1) s
    else s
  else s.

Definition decode_base64 (s : string) : option string :=
  let t := drop_padding s in
  if (String.length t mod 4 =? 1)%nat then None
  else vs ← sextets t; Some (octets (length vs) vs).

Definition utc : Browser :=
  {| Date_parse := parse_datetime_local; atob := decode_base64 |}.

End SampleBrowser.

(** ** States to evaluate on *)

Module Samples.

(** Page load with a worker, a probe that succeeds: a synchronisation
    is under way and waits for its response. *)
Definition syncing : State :=
  run (H := SampleBrowser.utc)
      [EvDOMContentLoaded true;
       EvRegisterSettled 0 (Fulfilled tt);
       EvFetchSettled 0 (Fulfilled 200);
       EvJsonSettled 0 (Fulfilled (JObj [("message", JStr "ok")]))]
      (initial ∅ granted).

Definition rent : Reminder :=
  mkReminder 1710000000000 "2024-03-10T08:59" "pay rent" "once"
             "2024-03-09T16:00:00.000Z" None.
Definition dentist : Reminder :=
  mkReminder 1710000100000 "2024-03-10T09:00" "dentist" "once"
             "2024-03-09T16:01:40.000Z" None.
Definition pills : Reminder :=
  mkReminder 1700000000000 "2023-01-01T00:00" "Take medicine" "daily"
             "2023-11-14T22:13:20.000Z" None.

Definition three_reminders : State :=
  set_editingId (Some 7) (set_reminders [rent; dentist; pills] (initial ∅ default)).

(** 2024-03-11T09:00 UTC *)
Definition sweep_time : Z := 1710147600000.

End Samples.

(** ** Predicates of the further properties *)

(** Nothing but the blanks [trim] removes. *)
Fixpoint blank (s : string) : bool :=
  match s with
  | String c r => is_space c && blank r
  | EmptyString => true
  end.

Definition first_char (s : string) : option ascii :=
  match s with
  | String c _ => Some c
  | EmptyString => None
  end.

(** No blank at either end. *)
Definition trimmed (s : string) : Prop :=
  (forall c, first_char s = Some c -> is_space c = false) /\
  (forall c, first_char (String.rev s) = Some c -> is_space c = false).

(** The characters a JSON text can begin with: a blank, a bracket, a
    brace, a quote, a minus sign, a digit, or the first letter of
    [true], [false] or [null].  [JSON.parse] throws on a text that
    begins with anything else. *)
Definition may_start_json (c : ascii) : bool :=
  is_space c || Ascii.eqb c Json.dquote ||
  existsb (Ascii.eqb c) (list_ascii_of_string "[{-0123456789tfn").

(** [base64] in [urlBase64ToUint8Array]: the text handed to [atob]. *)
Definition base64_of_url (base64String : string) : string :=
  let padding :=
    repeat_string "=" ((4 - String.length base64String mod 4) mod 4)%nat in
  replace_char "_" "/" (replace_char "-" "+" (base64String ++ padding)).

(** What the store holds under [simple_reminders] when nothing but the
    application has written there: no text, the empty one or the text
    of a reminder list; and the texts that cannot be JSON at all. *)
Definition application_store (storage : gmap string string) : Prop :=
  match storage !! "simple_reminders" with
  | None => True
  | Some text =>
      text = "" \/ (exists rs, text = Json.stringify rs) \/
      (exists c, first_char text = Some c /\ may_start_json c = false)
  end.

(** [subscriptionActive] is set only together with
    [notificationsEnabled], and that one only with the saved flag. *)
Definition flags_consistent (s : State) : Prop :=
  (subscriptionActive s = true -> notificationsEnabled s = true) /\
  (notificationsEnabled s = true ->
   localStorage s !! "notifications_enabled" = Some "true").

(** The four requests app.js makes. *)
Definition server_request (fx : Effect) : Prop :=
  match fx with
  | FxFetch method url body =>
      (method = "GET" /\ url = serverUrl /\ body = None) \/
      (method = "GET" /\ url = serverUrl ++ "/vapid-public-key" /\ body = None) \/
      (method = "POST" /\ url = serverUrl ++ "/subscribe" /\ is_Some body) \/
      (method = "POST" /\ url = serverUrl ++ "/sync-reminders" /\
       exists rs, body = Some (Json.stringify_sync_body rs))
  | _ => True
  end.

(** The status line reads "Syncing with server..." only while a
    synchronisation is under way. *)
Definition banner_honest (s : State) : Prop :=
  forall message, statusEl (dom s) = Some (message, st_syncing) ->
                  message = MsgSyncing /\ syncInProgress s = true.

(** An edit session is open and the form that goes with it is shown,
    or neither. *)
Definition form_matches_session (s : State) : Prop :=
  editFormShown (dom s) = true <-> editingId s <> None.

(** ** Keyboard shortcuts (app.js, lines 606-623) *)

Record KeyboardEvent := mkKeyboardEvent {
  ctrlKey : bool;
  metaKey : bool;
  key : string
}.

(** The values of the two forms when the key goes down, and what the
    clock and the user would answer. *)
Record Forms := mkForms {
  dateTimeField : string;
  noteField : string;
  repeatField : string;
  editDateTimeField : string;
  editNoteField : string;
  editRepeatField : string;
  modifiedNow : string;
  addEnv : AddEnv
}.

Section Keyboard.
Context `{Browser}.

(** The [keydown] listener; the result is whether [preventDefault]
    was called. *)
Definition onkeydown (e : KeyboardEvent) (forms : Forms) : M bool :=
  let* prevented :=
    (if (ctrlKey e || metaKey e) && String.eqb (key e) "Enter" then
       let* shown := gets (fun s => editFormShown (dom s)) in
       (if shown
        then saveEdit (editDateTimeField forms) (editNoteField forms)
                      (editRepeatField forms) (modifiedNow forms)
        else addReminder (dateTimeField forms) (noteField forms)
                         (repeatField forms) (addEnv forms)) ;;
       ret true
     else ret false) in
  let* shown := gets (fun s => editFormShown (dom s)) in
  if String.eqb (key e) "Escape" && shown
  then cancelEdit ;; ret true
  else ret prevented.

End Keyboard.

(** ** The list as shown (app.js, [renderReminders], lines 504-543)

    The label each row gets for the time until or since its reminder.
    A number here is an integer or the [NaN] of an invalid date.
    [Math.round] of a quotient is taken exactly: the nearest integer,
    a half going up; the double division agrees for times less than
    2^37 minutes (some 260 000 years) apart. *)

Module Render.

Inductive Number :=
| Int (z : Z)
| NaN.

(** [date.getTime()], [None] being an invalid date *)
Definition getTime (date : option Z) : Number :=
  match date with
  | Some t => Int t
  | None => NaN
  end.

Definition minus (a b : Number) : Number :=
  match a, b with
  | Int x, Int y => Int (x - y)
  | _, _ => NaN
  end.

(** [a < b]: false when either is [NaN] *)
Definition less (a b : Number) : bool :=
  match a, b with
  | Int x, Int y => (x <? y)%Z
  | _, _ => false
  end.

(** [Math.round(a / b)] for a positive integer [b] *)
Definition round_div (a : Number) (b : Z) : Number :=
  match a with
  | Int x => Int ((2 * x + b) / (2 * b))
  | NaN => NaN
  end.

Definition abs (a : Number) : Number :=
  match a with
  | Int x => Int (Z.abs x)
  | NaN => NaN
  end.

(** A number inside a template literal *)
Definition to_string (a : Number) : string :=
  match a with
  | Int x => Json.string_of_Z x
  | NaN => "NaN"
  end.

Definition isPast (reminderTime now : Number) : bool := less reminderTime now.

Definition timeInfo (reminderTime now : Number) : string :=
  let diffMs := minus reminderTime now in
  let diffMins := round_div diffMs (1000 * 60) in
  if isPast reminderTime now then
    let pastMins := abs diffMins in
    if less pastMins (Int 60) then to_string pastMins ++ " min ago"
    else if less pastMins (Int 1440) then to_string (round_div pastMins 60) ++ " hours ago"
    else to_string (round_div pastMins 1440) ++ " days ago"
  else
    if less diffMins (Int 60) then "in " ++ to_string diffMins ++ " min"
    else if less diffMins (Int 1440) then "in " ++ to_string (round_div diffMins 60) ++ " hours"
    else "in " ++ to_string (round_div diffMins 1440) ++ " days".

End Render.

(** ** The time the form proposes (app.js, lines 334-347)

    A [Date] is its time value, milliseconds since the epoch.  Local
    time is UTC plus [zone] minutes, for a device whose offset does not
    change over the hours involved.  The functions return the time
    value of [now] after the setters; its ISO text cut to the minute
    is what the field is given. *)

Module FormDefaults.

Definition getMinutes (zone t : Z) : Z := ((t + zone * 60000) / 60000) mod 60.
Definition getHours (zone t : Z) : Z := ((t + zone * 60000) / 3600000) mod 24.

(** [date.setHours(h)] and [date.setMinutes(m)]: the other fields stay,
    and a value past the end of the day or the hour carries over. *)
Definition setHours (zone t h : Z) : Z := t + (h - getHours zone t) * 3600000.
Definition setMinutes (zone t m : Z) : Z := t + (m - getMinutes zone t) * 60000.

(** [Math.ceil(m / 5)] *)
Definition ceil_fifth (m : Z) : Z := - ((- m) / 5).

Definition setDefaultDateTime (zone now : Z) : Z :=
  let now1 := setHours zone now (getHours zone now + 1) in
  setMinutes zone now1 (ceil_fifth (getMinutes zone now1) * 5).

Definition setQuickTime (zone now minutes : Z) : Z :=
  setMinutes zone now (getMinutes zone now + minutes).

End FormDefaults.

(** ** The rest of the delivery worker (sw.js) *)

Module SWLife.

Definition CACHE_NAME : string := "simple-reminders-v2".

(** *** Activation (lines 22-40) *)

Inductive ActivateEffect :=
| CachesDelete (cacheName : string)
| ClientsClaim.

Definition fulfilled {A} (p : Settled A) : bool :=
  match p with
  | Fulfilled _ => true
  | Rejected _ => false
  end.

(** [keys] is how [caches.keys()] settles, [deleted] how each
    [caches.delete(name)] does and [claimed] how [clients.claim()]
    does.  The deletions are all started by the [map]; [Promise.all]
    lets [clients.claim()] run when every one of them has been
    fulfilled.  The result is what the promise given to [waitUntil]
    settles to. *)
Definition onactivate (keys : Settled (list string)) (deleted : string -> Settled bool)
    (claimed : Settled unit) : list ActivateEffect * Settled unit :=
  match keys with
  | Rejected e => ([], Rejected e)
  | Fulfilled cacheNames =>
      let old := List.filter (fun cacheName => negb (String.eqb cacheName CACHE_NAME))
                             cacheNames in
      let deletions := List.map CachesDelete old in
      match List.find (fun cacheName => negb (fulfilled (deleted cacheName))) old with
      | Some failed =>
          (deletions,
           match deleted failed with
           | Rejected e => Rejected e
           | Fulfilled _ => Fulfilled tt
           end)
      | None => ((deletions ++ [ClientsClaim])%list, claimed)
      end
  end.

(** The cache storage after the deletions that went through. *)
Definition caches_after {A} (deleted : string -> Settled bool) (storage : gmap string A)
    (effects : list ActivateEffect) : gmap string A :=
  foldl (fun m fx =>
           match fx with
           | CachesDelete cacheName =>
               if fulfilled (deleted cacheName) then delete cacheName m else m
           | ClientsClaim => m
           end) storage effects.

(** *** A click on a notification (lines 151-211) *)

Record WindowClient := mkWindowClient {
  client_id : nat;
  client_url : string;
  has_focus : bool;                 (* 'focus' in client *)
  focused : Settled nat             (* how client.focus() settles: the client it yields *)
}.

Inductive ClickEffect :=
| NotificationClose
| ClientFocus (client : nat)
| OpenWindow (url : string)
| ClientPostMessage (client : nat) (type action : string) (after : Z).

Record ClickEvent := mkClickEvent {
  click_action : string;                          (* event.action *)
  click_origin : string;                          (* self.location.origin *)
  matched : Settled (list WindowClient);          (* clients.matchAll(...) *)
  openWindow : option (Settled (option nat))      (* clients.openWindow, if there is one *)
}.

(** [event.action || 'default'] *)
Definition action_or_default (action : string) : string :=
  if String.eqb action "" then "default" else action.

Definition can_take_focus (origin : string) (client : WindowClient) : bool :=
  includes origin (client_url client) && has_focus client.

Definition onnotificationclick (e : ClickEvent) : list ClickEffect :=
  NotificationClose ::
  if String.eqb (click_action e) "dismiss" then []
  else
    match matched e with
    | Rejected _ => []
    | Fulfilled clientList =>
        match List.find (can_take_focus (click_origin e)) clientList with
        | Some client =>
            ClientFocus (client_id client) ::
            match focused client with
            | Fulfilled c =>
                [ClientPostMessage c "NOTIFICATION_CLICKED"
                   (action_or_default (click_action e)) 0]
            | Rejected _ => []
            end
        | None =>
            match openWindow e with
            | None => []
            | Some opened =>
                OpenWindow "./" ::
                match opened with
                | Fulfilled (Some c) =>
                    [ClientPostMessage c "NOTIFICATION_CLICKED"
                       (action_or_default (click_action e)) 1000]
                | _ => []
                end
            end
        end
    end.

(** *** A changed push subscription (lines 213-243) *)

Record SubscriptionChange := mkSubscriptionChange {
  oldSubscription : option string;   (* its options.applicationServerKey; [None] is null *)
  resubscribed : Settled string      (* pushManager.subscribe: the new subscription's JSON text *)
}.

(** The requests of the handler, or the [TypeError] it throws before
    any of them when there is no old subscription to read the key from.
    What the server answers is only logged. *)
Definition onpushsubscriptionchange (e : SubscriptionChange) : Result (list Effect) :=
  match oldSubscription e with
  | None => Throw "Cannot read properties of null (reading 'options')"
  | Some applicationServerKey =>
      Val (FxSubscribe applicationServerKey ::
           match resubscribed e with
           | Fulfilled newSubscription =>
               [FxFetch "POST" "https://192.168.0.147:3001/subscribe" (Some newSubscription)]
           | Rejected _ => []
           end)
  end.

(** *** Messages the page acts on (app.js, lines 653-667)

    The listener logs every message and looks for these two types. *)
Definition page_recognises (type : string) : bool :=
  String.eqb type "REMINDER_NOTIFICATION_SHOWN" ||
  String.eqb type "REMINDER_NOTIFICATION_CLICKED".

End SWLife.

(** ** The proposed time as text, and read back (app.js, lines 339,
    346 and 367)

    [toISOString] writes the UTC fields of a time; [new Date(text)]
    reads a date-time without an offset, which is what a
    [datetime-local] field holds, as local time. *)

Module IsoDate.

(** The civil date of a day number, days counted from 1970-01-01. *)
Definition civil_from_days (days : Z) : Z * Z * Z :=
  let z := days + 719468 in
  let era := z / 146097 in
  let doe := z - era * 146097 in
  let yoe := (doe - doe / 1460 + doe / 36524 - doe / 146096) / 365 in
  let doy := doe - (365 * yoe + yoe / 4 - yoe / 100) in
  let mp := (5 * doy + 2) / 153 in
  let d := doy - (153 * mp + 2) / 5 + 1 in
  let m := if (mp <? 10)%Z then mp + 3 else mp - 9 in
  (yoe + era * 400 + (if (m <=? 2)%Z then 1 else 0), m, d).

Definition digit (n : Z) : ascii := ascii_of_N (Z.to_N (48 + n mod 10)).

Definition two_digits (n : Z) : string :=
  String (digit (n / 10)) (String (digit n) "").

Definition four_digits (n : Z) : string :=
  String (digit (n / 1000)) (String (digit (n / 100)) (two_digits n)).

(** [date.toISOString().slice(0, 16)], for a year from 0000 to 9999:
    [YYYY-MM-DDTHH:mm] in UTC. *)
Definition toISOString_16 (t : Z) : string :=
  let '(y, m, d) := civil_from_days (t / 86400000) in
  let ms := t mod 86400000 in
  four_digits y ++ "-" ++ two_digits m ++ "-" ++ two_digits d ++
  "T" ++ two_digits (ms / 3600000) ++ ":" ++ two_digits (ms / 60000 mod 60).

(** A browser whose local time is UTC plus [zone] minutes. *)
Definition in_zone (zone : Z) : Browser :=
  {| Date_parse := fun text =>
       t ← SampleBrowser.parse_datetime_local text; Some (t - zone * 60000);
     atob := SampleBrowser.decode_base64 |}.

(** What [setDefaultDateTime] and [setQuickTime] write into the field. *)
Definition default_field_value (zone now : Z) : string :=
  toISOString_16 (FormDefaults.setDefaultDateTime zone now).

Definition quick_field_value (zone now minutes : Z) : string :=
  toISOString_16 (FormDefaults.setQuickTime zone now minutes).

(** A property of every integer of a range, checked by halving. *)
Fixpoint holds_on (depth : nat) (p : Z -> bool) (lo len : Z) : bool :=
  if (len <=? 0)%Z then true
  else match depth with
       | O => (len =? 1)%Z && p lo
       | S depth' =>
           if (len =? 1)%Z then p lo
           else holds_on depth' p lo (len / 2) &&
                holds_on depth' p (lo + len / 2) (len - len / 2)
       end.

(** The date of a day of the 400-year cycle that starts on a 1 March,
    and the day of such a date. *)
Definition cycle_date (doe : Z) : Z * Z * Z :=
  let yoe := (doe - doe / 1460 + doe / 36524 - doe / 146096) / 365 in
  let doy := doe - (365 * yoe + yoe / 4 - yoe / 100) in
  let mp := (5 * doy + 2) / 153 in
  let d := doy - (153 * mp + 2) / 5 + 1 in
  let m := if (mp <? 10)%Z then mp + 3 else mp - 9 in
  (yoe, m, d).

Definition cycle_day (yoe m d : Z) : Z :=
  let doy := (153 * (m + (if (2 <? m)%Z then -3 else 9)) + 2) / 5 + d - 1 in
  yoe * 365 + yoe / 4 - yoe / 100 + doy.

Definition cycle_ok (doe : Z) : bool :=
  let '(yoe, m, d) := cycle_date doe in
  (0 <=? yoe)%Z && (yoe <=? 399)%Z && (1 <=? m)%Z && (m <=? 12)%Z &&
  (1 <=? d)%Z && (d <=? 31)%Z && (cycle_day yoe m d =? doe)%Z &&
  implb ((yoe =? 399)%Z && (m <=? 2)%Z) (146037 <=? doe)%Z.

(** Whether the digits written for [n] read back as [n]. *)
Definition reads_back (print : Z -> string) (n : Z) : bool :=
  match SampleBrowser.decimal_value (print n) 0 with
  | Some v => (v =? n)%Z
  | None => false
  end.

End IsoDate.


(* ===================================================================== *)
(** * Part II: proofs *)
(* ===================================================================== *)

(** ** The reminder text reads back as the reminders written *)

Module JsonFacts.
Import Json.

Lemma append_nil (s : string) : "" ++ s = s.
Proof. reflexivity. Qed.

Lemma append_cons (c : ascii) (a b : string) : String c a ++ b = String c (a ++ b).
Proof. reflexivity. Qed.

Lemma append_assoc (a b c : string) : (a ++ b) ++ c = a ++ b ++ c.
Proof.
  induction a as [|x a IH]; [reflexivity |].
  rewrite !append_cons. now rewrite IH.
Qed.

Lemma length_append (a b : string) :
  String.length (a ++ b) = (String.length a + String.length b)%nat.
Proof.
  induction a as [|x a IH]; [reflexivity |].
  rewrite append_cons. simpl. now rewrite IH.
Qed.

Lemma strip_prefix_app (p s : string) : strip_prefix p (p ++ s) = Some s.
Proof.
  induction p as [|a p IH]; [reflexivity |].
  rewrite append_cons. simpl. now rewrite Ascii.eqb_refl.
Qed.

(** One escaped character reads back as the character. *)
Lemma parse_escape_char (c : ascii) (rest : string) :
  parse_string_body (escape_char c ++ rest) =
  match parse_string_body rest with
  | Some (t, r) => Some (String c t, r)
  | None => None
  end.
Proof.
  destruct c as [[] [] [] [] [] [] [] []]; reflexivity.
Qed.

Lemma parse_string_body_escape (s k : string) :
  parse_string_body (escape s (String dquote k)) = Some (s, k).
Proof.
  induction s as [|c s IH]; cbn [escape].
  - reflexivity.
  - rewrite parse_escape_char. now rewrite IH.
Qed.

Lemma parse_string_quote (s k : string) : parse_string (quote s k) = Some (s, k).
Proof. unfold parse_string, quote. simpl. apply parse_string_body_escape. Qed.

End JsonFacts.

Module JsonNumbers.
Import Json.

Fixpoint all_digits (s : string) : bool :=
  match s with
  | EmptyString => true
  | String c r => is_digit c && all_digits r
  end.

Lemma digits_of_uint (d : Decimal.uint) :
  all_digits (NilEmpty.string_of_uint d) = true.
Proof. induction d; simpl; auto. Qed.

Lemma span_digits_app (ds k : string) (c : ascii) :
  all_digits ds = true -> is_digit c = false ->
  span_digits (ds ++ String c k) = (ds, String c k).
Proof.
  intros Hds Hc. induction ds as [|a ds IH].
  - rewrite JsonFacts.append_nil. simpl. now rewrite Hc.
  - rewrite JsonFacts.append_cons. cbn [all_digits span_digits] in *.
    apply andb_prop in Hds as [Ha Hds].
    now rewrite Ha, (IH Hds).
Qed.

(** The digits of a non-empty numeral start with a digit. *)
Lemma string_of_uint_shape (d : Decimal.uint) :
  exists a r, NilZero.string_of_uint d = String a r /\
              is_digit a = true /\ all_digits r = true.
Proof.
  destruct d; simpl;
    eexists _, _; (split; [reflexivity | split; [reflexivity | ]]);
    try reflexivity; apply digits_of_uint.
Qed.

Lemma to_int_proper (z : Z) : Z.to_int z <> Decimal.Pos Decimal.Nil /\
                              Z.to_int z <> Decimal.Neg Decimal.Nil.
Proof.
  destruct z; simpl; split; try discriminate;
    intros [= E]; now apply DecimalPos.Unsigned.to_uint_nonnil in E.
Qed.

Lemma parse_number_string_of_Z (z : Z) (c : ascii) (k : string) :
  is_digit c = false ->
  parse_number (string_of_Z z ++ String c k) = Some (z, String c k).
Proof.
  intros Hc. unfold parse_number.
  pose proof (to_int_proper z) as [Hp Hn].
  pose proof (NilZero.isi (Z.to_int z) Hp Hn) as Hisi.
  pose proof (DecimalZ.of_to z) as Hof.
  unfold string_of_Z in *.
  destruct (Z.to_int z) as [u|u] eqn:Hz; simpl NilZero.string_of_int in *.
  - destruct (string_of_uint_shape u) as (a & r & Hu & Ha & Hr).
    rewrite Hu in *. rewrite JsonFacts.append_cons.
    assert (Ascii.eqb a "-" = false) as ->.
    { destruct (Ascii.eqb_spec a "-"); [subst; discriminate | reflexivity]. }
    rewrite <- JsonFacts.append_cons.
    rewrite span_digits_app;
      [ | cbn [all_digits]; now rewrite Ha, Hr | exact Hc ].
    rewrite JsonFacts.append_nil, Hisi. cbn [mbind option_bind].
    rewrite Hof, Hz. cbn [NilZero.string_of_int].
    now rewrite Hu, String.eqb_refl.
  - rewrite JsonFacts.append_cons. simpl Ascii.eqb. cbv iota.
    destruct (string_of_uint_shape u) as (a & r & Hu & Ha & Hr).
    rewrite span_digits_app;
      [ | rewrite Hu; cbn [all_digits]; now rewrite Ha, Hr | exact Hc ].
    change ("-" ++ NilZero.string_of_uint u)
      with (String "-" (NilZero.string_of_uint u)).
    rewrite Hisi. cbn [mbind option_bind].
    rewrite Hof, Hz. cbn [NilZero.string_of_int].
    now rewrite String.eqb_refl.
Qed.

End JsonNumbers.

Module JsonRoundTrip.
Import Json JsonFacts.

Lemma parse_number_then_comma (z : Z) (k : string) :
  parse_number (string_of_Z z ++ "," ++ k) = Some (z, "," ++ k).
Proof. exact (JsonNumbers.parse_number_string_of_Z z "," k eq_refl). Qed.

Lemma parse_field_print (name v k : string) :
  parse_field name ("," ++ key name ++ quote v k) = Some (v, k).
Proof.
  unfold parse_field.
  rewrite <- append_assoc, strip_prefix_app. cbn [mbind option_bind].
  apply parse_string_quote.
Qed.

Lemma parse_field_print' (name v k : string) :
  parse_field name (String "," (key name ++ quote v k)) = Some (v, k).
Proof. exact (parse_field_print name v k). Qed.

Lemma parse_reminder_print (r : Reminder) (k : string) :
  parse_reminder (stringify_reminder r k) = Some (r, k).
Proof.
  destruct r as [i dt n rp cr m].
  unfold parse_reminder, stringify_reminder.
  cbn [id dateTime note repeat created modified].
  rewrite <- append_assoc, strip_prefix_app. cbn [mbind option_bind].
  rewrite parse_number_then_comma. cbn [mbind option_bind].
  do 4 (rewrite parse_field_print; cbn [mbind option_bind]).
  destruct m as [m|].
  - rewrite (append_cons "," "" _), append_nil.
    cbn iota. rewrite parse_field_print'. reflexivity.
  - reflexivity.
Qed.

Lemma length_escape (s k : string) : (String.length k <= String.length (escape s k))%nat.
Proof.
  induction s as [|c s IH]; cbn [escape]; [lia |].
  rewrite length_append. lia.
Qed.

Lemma length_quote (s k : string) : (String.length k < String.length (quote s k))%nat.
Proof.
  unfold quote. cbn [String.length].
  pose proof (length_escape s (String dquote k)) as L. cbn [String.length] in L. lia.
Qed.

Lemma length_field (name v x : string) :
  (String.length x < String.length ("," ++ key name ++ quote v x))%nat.
Proof. rewrite !length_append. pose proof (length_quote v x). lia. Qed.

Lemma length_suffix (a x : string) :
  (String.length x <= String.length (a ++ x))%nat.
Proof. rewrite length_append. lia. Qed.

Lemma length_stringify_reminder (r : Reminder) (k : string) :
  (String.length k < String.length (stringify_reminder r k))%nat.
Proof.
  unfold stringify_reminder.
  destruct (modified r);
    repeat match goal with
    | |- context [ "," ++ key ?n ++ quote ?v ?x ] =>
        lazymatch goal with
        | _ : (String.length x < String.length ("," ++ key n ++ quote v x))%nat |- _ => fail
        | _ => pose proof (length_field n v x)
        end
    end;
    match goal with
    | |- (_ < String.length (?a ++ ?b ++ ?c ++ ?d))%nat =>
        pose proof (length_suffix a (b ++ c ++ d));
        pose proof (length_suffix b (c ++ d));
        pose proof (length_suffix c d)
    end;
    cbn [String.length] in *; lia.
Qed.

Lemma length_stringify_items (rs : list Reminder) (k : string) :
  (length rs < String.length (stringify_items rs k))%nat.
Proof.
  induction rs as [|r rs IH]; [cbn; lia |].
  destruct rs as [|r' rs].
  - pose proof (length_stringify_reminder r (String "]" k)) as L.
    cbn [stringify_items String.length length] in *. lia.
  - change (stringify_items (r :: r' :: rs) k)
      with (stringify_reminder r (String "," (stringify_items (r' :: rs) k))).
    pose proof (length_stringify_reminder r
                  (String "," (stringify_items (r' :: rs) k))) as L.
    cbn [String.length length] in *. lia.
Qed.

Lemma parse_items_print (rs : list Reminder) (k : string) (fuel : nat) :
  rs <> [] -> (length rs <= fuel)%nat ->
  parse_items fuel (stringify_items rs k) = Some (rs, k).
Proof.
  revert fuel. induction rs as [|r rs IH]; intros fuel Hne Hfuel; [congruence |].
  destruct fuel as [|fuel]; [simpl in Hfuel; lia |].
  destruct rs as [|r' rs].
  - cbn [stringify_items parse_items].
    rewrite parse_reminder_print. reflexivity.
  - change (stringify_items (r :: r' :: rs) k)
      with (stringify_reminder r (String "," (stringify_items (r' :: rs) k))).
    cbn [parse_items]. rewrite parse_reminder_print. cbn [mbind option_bind].
    rewrite IH; [reflexivity | congruence | simpl in *; lia].
Qed.

(** The text [JSON.stringify] writes for a reminder array is read back
    by [JSON.parse] as the same array. *)
Lemma parse_stringify (rs : list Reminder) : parse (stringify rs) = Some rs.
Proof.
  unfold parse, stringify, stringify_reminders, parse_reminders.
  destruct rs as [|r rs]; [reflexivity |].
  assert (exists x, stringify_items (r :: rs) "" = String "{" x) as [x Hx].
  { destruct rs; cbn [stringify_items]; unfold stringify_reminder;
      rewrite append_cons; eauto. }
  rewrite Hx.
  change (parse_reminders (String "[" (String "{" x)))
    with (parse_items (String.length (String "{" x)) (String "{" x)).
  rewrite <- Hx.
  rewrite parse_items_print; [reflexivity | congruence |].
  pose proof (length_stringify_items (r :: rs) "") as L. lia.
Qed.

Lemma stringify_not_empty (rs : list Reminder) : stringify rs <> "".
Proof. unfold stringify, stringify_reminders. discriminate. Qed.

End JsonRoundTrip.

(** ** The local store and the retention sweep *)

Section StoreProofs.
Context `{Browser}.

Lemma saveLocalReminders_eq (s : State) :
  saveLocalReminders s =
  (Val tt, set_localStorage
             (<["simple_reminders" := Json.stringify (reminders s)]> (localStorage s)) s).
Proof. reflexivity. Qed.

Lemma loadLocalReminders_stored (s : State) (rs : list Reminder) :
  localStorage s !! "simple_reminders" = Some (Json.stringify rs) ->
  loadLocalReminders s = (Val tt, set_reminders rs s).
Proof.
  intros Hs. unfold loadLocalReminders, try_catch, bind, gets. rewrite Hs.
  destruct (String.eqb_spec (Json.stringify rs) "") as [E|_].
  - now apply JsonRoundTrip.stringify_not_empty in E.
  - now rewrite JsonRoundTrip.parse_stringify.
Qed.


Lemma hoursAgo_over_24 (now t : Z) :
  negb (Qle_bool (hoursAgo now t) 24) = true <-> (now - t > 24 * 60 * 60 * 1000)%Z.
Proof.
  rewrite negb_true_iff, <- not_true_iff_false, Qle_bool_iff.
  unfold hoursAgo, Qle, Qdiv, Qmult, Qinv, inject_Z.
  change (1000 * 60 * 60)%Z with 3600000%Z. cbn [Qnum Qden].
  rewrite Pos.mul_1_l. lia.
Qed.

Lemma expired_iff (now : Z) (r : Reminder) :
  expired now r = true <->
  repeat r = "once" /\
  exists t, Date_parse (dateTime r) = Some t /\ (now - t > 24 * 60 * 60 * 1000)%Z.
Proof.
  unfold expired. rewrite andb_true_iff, String.eqb_eq.
  destruct (Date_parse (dateTime r)) as [t|].
  - rewrite hoursAgo_over_24. split.
    + intros [? ?]; eauto.
    + intros [? (t' & [= <-] & ?)]; auto.
  - split; [intros [_ [=]] | intros [_ (t' & [=] & _)]].
Qed.

Lemma cleanupPastReminders_reminders (now : Z) (s : State) :
  reminders (snd (cleanupPastReminders now s)) =
  List.filter (fun r => negb (expired now r)) (reminders s).
Proof.
  unfold cleanupPastReminders, bind, gets, modify.
  destruct s; cbn. case_match; reflexivity.
Qed.

(** C2.  Retention sweep: of the reminders held when the sweep runs, a
    [once] reminder scheduled more than 24 hours before [now] is
    gone afterwards, one scheduled exactly 24 hours before is still
    there, and a reminder with any other repeat rule is still there
    however old it is. *)
Theorem retention_sweep_boundary (now : Z) (s : State) (r : Reminder) :
  In r (reminders s) ->
  let kept := reminders (snd (cleanupPastReminders now s)) in
  (repeat r = "once" ->
   forall t, Date_parse (dateTime r) = Some t ->
             (now - t > 24 * 60 * 60 * 1000)%Z -> ~ In r kept) /\
  (repeat r = "once" ->
   forall t, Date_parse (dateTime r) = Some t ->
             (now - t = 24 * 60 * 60 * 1000)%Z -> In r kept) /\
  (repeat r <> "once" -> In r kept).
Proof.
  intros Hin. cbn zeta. rewrite cleanupPastReminders_reminders.
  repeat split.
  - intros Honce t Ht Hold [_ Hkeep]%filter_In.
    apply negb_true_iff, not_true_iff_false in Hkeep.
    apply Hkeep, expired_iff; eauto.
  - intros Honce t Ht Hedge. apply filter_In. split; [exact Hin |].
    apply negb_true_iff, not_true_iff_false.
    intros (_ & t' & Ht' & Hold)%expired_iff.
    rewrite Ht in Ht'. injection Ht' as <-. lia.
  - intros Hrec. apply filter_In. split; [exact Hin |].
    apply negb_true_iff, not_true_iff_false.
    intros (Honce & _)%expired_iff. contradiction.
Qed.

End StoreProofs.

(** ** Running the handlers symbolically *)

(** Case analysis on a scrutinee that contains no other [match]. *)
Ltac inner_case :=
  match goal with
  | |- context [match ?x with _ => _ end] =>
      lazymatch x with
      | context [match _ with _ => _ end] => fail
      | _ => destruct x eqn:?
      end
  end.

Lemma updateNotificationUI_eq (s : State) :
  updateNotificationUI s =
  (Val tt, set_notificationsEnabled (ui_ready s || notificationsEnabled s)
             (set_dom (ui_dom s) s)).
Proof.
  destruct s as [rs on ed busy sw ne sa ls pm d pe fx].
  unfold updateNotificationUI, ui_dom, ui_ready, bind, gets, modify, modify_dom.
  cbn. repeat case_match; reflexivity.
Qed.

Lemma loadLocalReminders_loaded `{Browser} (s : State) :
  loadLocalReminders s =
  (Val tt, set_reminders (loaded (localStorage s !! "simple_reminders") (reminders s)) s).
Proof.
  destruct s as [rs on ed busy sw ne sa ls pm d pe fx].
  unfold loadLocalReminders, loaded, try_catch, bind, gets, modify, throw, ret. cbn.
  repeat (inner_case; cbn in *; simplify_eq); reflexivity.
Qed.

Arguments updateNotificationUI : simpl never.
Arguments loadLocalReminders : simpl never.

(** Unfold the statements down to the state they build. *)
Ltac unfold_m :=
  cbv beta delta [
    bind ret throw gets modify try_catch try_finally perform await alert confirm fetch
    modify_dom updateStatus showNotificationError
    sync_catch sync_finally syncWithServer sync_fetch_settled sync_json_settled
    connect_catch connectToServer connect_fetch_settled connect_json_settled
    read_property then_ after_sync after_connect startup_tail run_connect
    start_sync_if_online
    enable_catch enable_with_permission enableNotifications permission_settled
    vapid_fetch_settled destructure_publicKey vapid_json_settled subscribe_settled
    subscribe_fetch_settled subscribe_json_settled urlBase64ToUint8Array
    setup_catch setupServiceWorker register_settled onDOMContentLoaded
    editReminder cancelEdit saveLocalReminders renderReminders
    on_fetch_settled on_json_settled on_register_settled on_permission_settled
    on_subscribe_settled
    addReminder saveEdit deleteReminder cleanupPastReminders
    handle resume step ].

Ltac exec_step :=
  first [ rewrite updateNotificationUI_eq
        | rewrite loadLocalReminders_loaded
        | inner_case ];
  cbn in *; simplify_eq.

Ltac exec := unfold_m; cbn; repeat exec_step.

(** ** Mutations addressed to an id that is not there *)

Section AbsentId.
Context `{Browser}.

Lemma find_absent (target : option Z) (l : list Reminder) :
  (forall r, In r l -> Some (id r) <> target) ->
  List.find (id_is target) l = None.
Proof.
  intros Hno. induction l as [|r l IH]; [reflexivity |].
  cbn [List.find]. destruct (id_is target r) eqn:E.
  - destruct target as [i|]; [ | discriminate]. cbn in E.
    apply Z.eqb_eq in E. exfalso. apply (Hno r); [now left | now rewrite E].
  - apply IH. intros r' Hr'. apply Hno. now right.
Qed.

Lemma findIndex_absent (target : option Z) (l : list Reminder) :
  (forall r, In r l -> Some (id r) <> target) ->
  findIndex (id_is target) l = None.
Proof.
  intros Hno. induction l as [|r l IH]; [reflexivity |].
  cbn [findIndex]. destruct (id_is target r) eqn:E.
  - destruct target as [i|]; [ | discriminate]. cbn in E.
    apply Z.eqb_eq in E. exfalso. apply (Hno r); [now left | now rewrite E].
  - rewrite IH; [reflexivity |]. intros r' Hr'. apply Hno. now right.
Qed.

(** C10.  An id that no stored reminder carries: [deleteReminder] and
    [editReminder] return at once with the whole state as it was (no
    confirmation prompt, no write to the store, no request, no edit in
    progress); and when [editingId] matches no stored reminder,
    [saveEdit] changes nothing but, when a field is empty, the alert it
    shows. *)
Theorem absent_id_changes_nothing (s : State) :
  (forall (target : Z) (answer : bool),
     (forall r, In r (reminders s) -> id r <> target) ->
     deleteReminder target answer s = (Val tt, s) /\
     editReminder target s = (Val tt, s)) /\
  (forall dateTimeValue noteValue repeatValue modifiedNow : string,
     (forall r, In r (reminders s) -> Some (id r) <> editingId s) ->
     let s' := snd (saveEdit dateTimeValue noteValue repeatValue modifiedNow s) in
     reminders s' = reminders s /\
     localStorage s' = localStorage s /\
     pending s' = pending s /\
     set_effects (effects s) s' = s /\
     (effects s' = effects s \/
      effects s' = (effects s ++ [FxAlert "Please fill in both date/time and note"])%list)).
Proof.
  split.
  - intros target answer Hno.
    assert (List.find (id_is (Some target)) (reminders s) = None) as Hfind.
    { apply find_absent. intros r Hr [= E]. now apply (Hno r). }
    unfold deleteReminder, editReminder, bind, gets. now rewrite Hfind.
  - intros d n rp m Hno. cbn zeta.
    pose proof (findIndex_absent _ _ Hno) as Hidx.
    unfold saveEdit, bind, gets, alert, perform, modify.
    destruct (String.eqb d "" || String.eqb (trim n) "").
    + destruct s; cbn. auto 10.
    + rewrite Hidx. destruct s; cbn. auto 10.
Qed.

End AbsentId.

(** ** One synchronisation at a time *)

Section SingleFlight.
Context `{Browser}.

Lemma syncs_delete (tasks : list Task) (i : nat) (t : Task) :
  tasks !! i = Some t ->
  length (List.filter is_sync_task tasks) =
  ((if is_sync_task t then 1 else 0) +
   length (List.filter is_sync_task (delete i tasks)))%nat.
Proof.
  revert i. induction tasks as [|x tasks IH]; intros [|i] Hi; try discriminate.
  - simpl in Hi. injection Hi as ->. simpl.
    destruct (is_sync_task t); reflexivity.
  - simpl in Hi. specialize (IH i Hi). simpl.
    revert IH. destruct (is_sync_task x), (is_sync_task t); simpl; lia.
Qed.

Lemma guard_matches_initial storage perm : guard_matches (initial storage perm).
Proof. reflexivity. Qed.

Ltac count :=
  unfold guard_matches, syncs_in_flight in *; cbn in *;
  repeat match goal with
  | Hi : ?l !! ?i = Some ?t |- _ => rewrite (syncs_delete l i t Hi) in *
  end;
  rewrite ?List.filter_app, ?length_app; cbn in *;
  repeat match goal with
  | Hc : context [if ?b then _ else _] |- _ => destruct b
  | |- context [if ?b then _ else _] => destruct b
  end;
  try lia.

Lemma guard_matches_step (s : State) (e : Event) :
  guard_matches s -> guard_matches (step s e).
Proof.
  intros Hinv.
  destruct s as [rs on ed busy sw ne sa ls pm d pe fx].
  destruct e; exec; count.
Qed.

Lemma guard_matches_run (events : list Event) (s : State) :
  guard_matches s -> guard_matches (run events s).
Proof.
  revert s. induction events as [|e events IH]; intros s Hs; [exact Hs |].
  apply IH, guard_matches_step, Hs.
Qed.

Lemma syncWithServer_guarded (k : SyncCaller) (s : State) :
  syncInProgress s = true -> syncWithServer k s = (Val Done, s).
Proof.
  intros Hbusy. unfold syncWithServer, bind, gets, ret.
  rewrite Hbusy. now rewrite orb_true_r.
Qed.

(** C1.  Whatever events arrive, in whatever order, after the page is
    loaded: at most one [syncWithServer] execution is under way, and
    while one is (the guard is set, which is then exactly the case) a
    further call returns at once with the whole state as it was: no
    request, the reminders, the stored copy and [isOnline] untouched. *)
Theorem at_most_one_sync_in_flight
    (events : list Event) (storage : gmap string string) (perm : Permission)
    (k : SyncCaller) :
  let s := run events (initial storage perm) in
  (syncs_in_flight s <= 1)%nat /\
  (syncInProgress s = true <-> syncs_in_flight s = 1%nat) /\
  (syncInProgress s = true -> syncWithServer k s = (Val Done, s)).
Proof.
  cbn zeta.
  pose proof (guard_matches_run events _ (guard_matches_initial storage perm)) as Hinv.
  unfold guard_matches in Hinv. rewrite Hinv.
  split; [ | split ].
  - destruct (syncInProgress _); lia.
  - destruct (syncInProgress _); split; (discriminate || reflexivity || lia).
  - apply syncWithServer_guarded.
Qed.

End SingleFlight.

(** ** A failed synchronisation *)

Section SyncFailure.
Context `{Browser}.

Lemma syncWithServer_keeps_store (k : SyncCaller) (s : State) :
  reminders (snd (syncWithServer k s)) = reminders s /\
  localStorage (snd (syncWithServer k s)) = localStorage s.
Proof.
  destruct s as [rs on ed busy sw ne sa ls pm d pe fx].
  exec; auto.
Qed.

Lemma sync_fetch_failure_returns (k : SyncCaller) (r : Settled Z) (s : State) :
  (forall status, r = Fulfilled status -> response_ok status = false) ->
  fst (sync_fetch_settled k r s) = Val Done.
Proof.
  intros Hfail. destruct s as [rs on ed busy sw ne sa ls pm d pe fx].
  destruct r as [status|e]; [specialize (Hfail status eq_refl) | ];
    exec; congruence.
Qed.

Lemma sync_failure_step
    (s : State) (i : nat) (k : SyncCaller) (r : Settled Z) :
  pending s !! i = Some (TSyncFetch k) ->
  (forall status, r = Fulfilled status -> response_ok status = false) ->
  let s' := step s (EvFetchSettled i r) in
  handle (EvFetchSettled i r) s = (Val tt, s') /\
  isOnline s' = false /\
  syncInProgress s' = false /\
  reminders s' = reminders s /\
  localStorage s' = localStorage s /\
  pending s' = delete i (pending s) /\
  effects s' = effects s.
Proof.
  intros Hi Hfail. cbn zeta.
  destruct s as [rs on ed busy sw ne sa ls pm d pe fx]. cbn in Hi.
  unfold step, handle, resume. cbn [pending]. rewrite Hi.
  destruct r as [status|e]; [specialize (Hfail status eq_refl) | clear Hfail];
    destruct k as [[]| |]; exec; repeat split; congruence.
Qed.

(** C4.  A [syncWithServer] execution whose request is rejected or
    answered with a status outside 200-299: when that result arrives,
    the function and the handler that resumed it end normally (nothing
    is thrown to the caller or to the event loop), [isOnline] is false
    and the guard is released, the reminders and the stored copy are
    what they were, no task is left waiting and no request or other
    effect is issued (so nothing is retried).  The call that started
    the execution left the reminders and the store alone too. *)
Theorem sync_failure_is_contained
    (s : State) (i : nat) (k : SyncCaller) (r : Settled Z) :
  pending s !! i = Some (TSyncFetch k) ->
  (forall status, r = Fulfilled status -> response_ok status = false) ->
  let s' := step s (EvFetchSettled i r) in
  handle (EvFetchSettled i r) s = (Val tt, s') /\
  (forall s0, fst (sync_fetch_settled k r s0) = Val Done) /\
  isOnline s' = false /\
  syncInProgress s' = false /\
  reminders s' = reminders s /\
  localStorage s' = localStorage s /\
  pending s' = delete i (pending s) /\
  effects s' = effects s /\
  (forall s0 k0,
     reminders (snd (syncWithServer k0 s0)) = reminders s0 /\
     localStorage (snd (syncWithServer k0 s0)) = localStorage s0).
Proof.
  intros Hi Hfail. cbn zeta.
  destruct (sync_failure_step s i k r Hi Hfail)
    as (Hval & Hon & Hbusy & Hrs & Hls & Hpe & Hfx).
  split; [exact Hval |].
  split; [intros s0; now apply sync_fetch_failure_returns |].
  repeat split; auto; intros; apply syncWithServer_keeps_store.
Qed.

End SyncFailure.

(** ** Connectivity *)

Section Connectivity.
Context `{Browser}.

(** C5, where the code departs from it.  A probe whose body is the
    JSON value [null], from page load on: the response is 200 and
    parses, and the application is offline afterwards with no
    synchronisation request sent. *)
Example probe_with_null_body_ends_offline :
  let s := run [EvDOMContentLoaded true;
                EvRegisterSettled 0 (Fulfilled tt);
                EvFetchSettled 0 (Fulfilled 200);
                EvJsonSettled 0 (Fulfilled JNull)]
               (initial ∅ default) in
  isOnline s = false /\
  syncInProgress s = false /\
  pending s = [] /\
  effects s = [FxRegister "./service-worker.js"; FxFetch "GET" serverUrl None].
Proof. cbn zeta. repeat split; reflexivity. Qed.

End Connectivity.

Section ConnectivityMachine.
Context `{Browser}.

Lemma run_snoc (events : list Event) (e : Event) (s : State) :
  run (events ++ [e]) s = step (run events s) e.
Proof. unfold run. now rewrite fold_left_app. Qed.

(** Only a probe whose body parsed turns [isOnline] on. *)
Lemma online_only_by_probe (s : State) (e : Event) :
  isOnline (step s e) = true ->
  isOnline s = true \/
  exists i v c, e = EvJsonSettled i (Fulfilled v) /\
                pending s !! i = Some (TConnectJson c) /\ v <> JNull.
Proof.
  destruct s as [rs on ed busy sw ne sa ls pm d pe fx].
  destruct e; exec; auto; try discriminate.
  all: intros _; right; eexists _, _, _; repeat split; eauto; discriminate.
Qed.

Lemma probe_success_step (s : State) (i : nat) (c : Caller) (v : json) :
  pending s !! i = Some (TConnectJson c) -> v <> JNull ->
  let s' := step s (EvJsonSettled i (Fulfilled v)) in
  isOnline s' = true /\ syncInProgress s' = true /\
  (syncInProgress s = false ->
   effects s' = (effects s ++
     [FxFetch "POST" (serverUrl ++ "/sync-reminders")
              (Some (Json.stringify_sync_body (reminders s)))])%list).
Proof.
  intros Hi Hv. cbn zeta.
  destruct s as [rs on ed busy sw ne sa ls pm d pe fx]. cbn in Hi.
  unfold step, handle, resume. cbn [pending]. rewrite Hi.
  destruct v; try congruence; destruct c; exec;
    repeat split; auto; discriminate.
Qed.

Lemma probe_failure_step (s : State) (i : nat) (c : Caller) :
  (forall r, pending s !! i = Some (TConnectFetch c) ->
     (forall status, r = Fulfilled status -> response_ok status = false) ->
     isOnline (step s (EvFetchSettled i r)) = false) /\
  (forall e, pending s !! i = Some (TConnectJson c) ->
     isOnline (step s (EvJsonSettled i (Rejected e))) = false).
Proof.
  destruct s as [rs on ed busy sw ne sa ls pm d pe fx]. split.
  - intros r Hi Hfail. cbn in Hi.
    unfold step, handle, resume. cbn [pending]. rewrite Hi.
    destruct r as [status|e].
    + specialize (Hfail status eq_refl). destruct c; exec; auto; congruence.
    + destruct c; exec; auto.
  - intros e Hi. cbn in Hi.
    unfold step, handle, resume. cbn [pending]. rewrite Hi.
    destruct c; exec; auto.
Qed.


End ConnectivityMachine.

(** ** Notification setup *)

Section EnableSetup.
Context `{Browser}.

Lemma enable_segment_outcome (seg : EnableSegment) (s : State) :
  let '(r, s') := enable_segment seg s in
  match r with
  | Val Suspended =>
      localStorage s' = localStorage s /\
      exists t, In t (may_await seg) /\ pending s' = (pending s ++ [t])%list
  | Val Done =>
      (exists cause, aborted_with cause s s') \/
      (exists v, seg = SegSubscribeJson (Fulfilled v) /\
                 localStorage s' = <["notifications_enabled" := "true"]> (localStorage s))
  | Throw _ => False
  end.
Proof.
  destruct s as [rs on ed busy sw ne sa ls pm d pe fx].
  unfold aborted_with.
  destruct seg as [|r|r|r|r|r|r]; try destruct r; unfold enable_segment; exec;
    first [ right; eexists; split; reflexivity
          | left; eexists; repeat split; reflexivity
          | split; [reflexivity | eexists; split; [ | reflexivity]; cbn; tauto] ].
Qed.

Lemma In_delete (i : nat) (t : Task) (l : list Task) :
  In t (delete i l) -> In t l.
Proof.
  revert i. induction l as [|x l IH]; intros [|i]; simpl; auto.
  intros [->|Hin]; eauto.
Qed.

Lemma In_snoc (t t' : Task) (l : list Task) :
  In t (l ++ [t']) -> In t l \/ t = t'.
Proof. rewrite in_app_iff. simpl. intuition. Qed.

(** A task of the sequence comes to wait only through the stretch
    before it. *)
Lemma enable_task_enqueued (s : State) (e : Event) (t : Task) :
  In t (pending (step s e)) -> In t (pending s) \/ enqueued_by t e s.
Proof.
  destruct s as [rs on ed busy sw ne sa ls pm d pe fx].
  destruct e; exec; intros Hin;
    repeat match goal with
    | Hin : In _ (_ ++ [_]) |- _ => apply In_snoc in Hin as [Hin | ->]
    | Hin : In _ (delete _ _) |- _ => apply In_delete in Hin
    end;
    auto; right; cbn; eauto 10.
  match goal with a : Permission |- _ => destruct a; try discriminate end.
  eauto.
Qed.

(** The flag is written by the last stretch alone. *)
Lemma flag_written_by_last_stretch (s : State) (e : Event) :
  localStorage (step s e) !! "notifications_enabled" <>
  localStorage s !! "notifications_enabled" ->
  exists i v, e = EvJsonSettled i (Fulfilled v) /\
              pending s !! i = Some TSubscribeJson.
Proof.
  destruct s as [rs on ed busy sw ne sa ls pm d pe fx].
  destruct e; exec; intros Hne; eauto;
    try (exfalso; apply Hne; reflexivity);
    exfalso; apply Hne; now rewrite lookup_insert_ne.
Qed.

(** C3.  The setup sequence.  Without a registration it aborts with
    "Service Worker not available", whatever the permission and the
    connectivity are; with one and a permission that is denied, or a
    prompt answered with anything but granted, it aborts with
    "Notification permission denied", whatever the connectivity is;
    with both in order and [isOnline] false it aborts with "Server not
    connected. Please wait for connection.".  Every stretch of the
    sequence, on whatever result it resumes, either stops at one of the
    next [await]s with [localStorage] untouched, or aborts with a
    cause shown and [localStorage] untouched, or is the last stretch
    resuming on a parsed registration response, the only one that
    writes [notifications_enabled]; none throws.  Among all events the
    key changes only when that last stretch resumes, and a task of the
    sequence comes to wait only through the stretch before it, resumed
    on a result it accepts. *)
Theorem setup_aborts_keep_flag_unset (s : State) :
  (swRegistration s = false ->
   enableNotifications s = (Val Done, snd (enableNotifications s)) /\
   aborted_with "Service Worker not available" s (snd (enableNotifications s))) /\
  (swRegistration s = true -> permission s = denied ->
   aborted_with "Notification permission denied" s (snd (enableNotifications s))) /\
  (swRegistration s = true -> permission s = default ->
   enableNotifications s =
   (Val Suspended,
    set_pending (pending s ++ [TPermission])
      (set_effects (effects s ++ [FxRequestPermission])
         (set_dom (set_enableButtonDisabled true (dom s)) s)))) /\
  (forall answer, answer <> granted ->
   aborted_with "Notification permission denied" s
     (snd (permission_settled (Fulfilled answer) s))) /\
  (swRegistration s = true -> permission s = granted -> isOnline s = false ->
   aborted_with "Server not connected. Please wait for connection." s
     (snd (enableNotifications s))) /\
  (isOnline s = false ->
   aborted_with "Server not connected. Please wait for connection." s
     (snd (permission_settled (Fulfilled granted) s))) /\
  (forall seg : EnableSegment,
     match enable_segment seg s with
     | (Val Suspended, s') =>
         localStorage s' = localStorage s /\
         exists t, In t (may_await seg) /\ pending s' = (pending s ++ [t])%list
     | (Val Done, s') =>
         (exists cause, aborted_with cause s s') \/
         (exists v, seg = SegSubscribeJson (Fulfilled v) /\
                    localStorage s' =
                    <["notifications_enabled" := "true"]> (localStorage s))
     | (Throw _, _) => False
     end) /\
  (forall e : Event,
     localStorage (step s e) !! "notifications_enabled" <>
     localStorage s !! "notifications_enabled" ->
     exists i v, e = EvJsonSettled i (Fulfilled v) /\
                 pending s !! i = Some TSubscribeJson) /\
  (forall (e : Event) (t : Task),
     In t (pending (step s e)) -> In t (pending s) \/ enqueued_by t e s).
Proof.
  unfold aborted_with.
  split; [ | split; [ | split; [ | split; [ | split; [ | split; [ | split; [ | split]]]]]]].
  - intros Hsw. destruct s as [rs on ed busy sw ne sa ls pm d pe fx].
    cbn in Hsw. subst. exec. auto 10.
  - intros Hsw Hp. destruct s as [rs on ed busy sw ne sa ls pm d pe fx].
    cbn in Hsw, Hp. subst. exec. auto 10.
  - intros Hsw Hp. destruct s as [rs on ed busy sw ne sa ls pm d pe fx].
    cbn in Hsw, Hp. subst. exec. reflexivity.
  - intros answer Hp. destruct s as [rs on ed busy sw ne sa ls pm d pe fx].
    destruct answer; try congruence; exec; auto 10.
  - intros Hsw Hp Hon. destruct s as [rs on ed busy sw ne sa ls pm d pe fx].
    cbn in Hsw, Hp, Hon. subst. exec. auto 10.
  - intros Hon. destruct s as [rs on ed busy sw ne sa ls pm d pe fx].
    cbn in Hon. subst. exec. auto 10.
  - intros seg. pose proof (enable_segment_outcome seg s) as Hseg.
    destruct (enable_segment seg s) as [r s']. destruct r as [[]|]; exact Hseg.
  - apply flag_written_by_last_stretch.
  - apply enable_task_enqueued.
Qed.

End EnableSetup.

(** ** Reminder ids *)

Section ReminderIds.
Context `{Browser}.

Lemma sublist_map {A B} (f : A -> B) (l1 l2 : list A) :
  sublist l1 l2 -> sublist (List.map f l1) (List.map f l2).
Proof. induction 1; simpl; constructor; auto. Qed.

Lemma sublist_List_filter {A} (p : A -> bool) (l : list A) :
  sublist (List.filter p l) l.
Proof.
  induction l as [|x l IH]; simpl; [constructor |].
  destruct (p x); constructor; exact IH.
Qed.

Lemma filter_same_length {A} (p : A -> bool) (l : list A) :
  length (List.filter p l) = length l -> List.filter p l = l.
Proof.
  induction l as [|x l IH]; simpl; [reflexivity |].
  destruct (p x); simpl; intros Hlen.
  - f_equal. apply IH. lia.
  - pose proof (sublist_length _ _ (sublist_List_filter p l)). lia.
Qed.

Lemma Forall_sublist {A} (P : A -> Prop) (l1 l2 : list A) :
  sublist l1 l2 -> Forall P l2 -> Forall P l1.
Proof.
  induction 1; intros Hall; [constructor | | ];
    apply Forall_cons_1 in Hall as [? ?]; auto.
Qed.

Lemma StronglySorted_sublist {A} (R : A -> A -> Prop) (l1 l2 : list A) :
  sublist l1 l2 -> StronglySorted R l2 -> StronglySorted R l1.
Proof.
  induction 1; intros Hs; [constructor | | ];
    apply StronglySorted_inv in Hs as [Hs Hall]; auto.
  constructor; [auto | eapply Forall_sublist; eauto].
Qed.

Lemma map_id_insert (l : list Reminder) (i : nat) (old new : Reminder) :
  l !! i = Some old -> id new = id old ->
  List.map id (<[i := new]> l) = List.map id l.
Proof.
  revert i. induction l as [|x l IH]; intros [|i] Hi Hid; try discriminate; simpl in *.
  - injection Hi as ->. now rewrite Hid.
  - f_equal. now apply IH.
Qed.

(** How one event changes the reminders and their stored copy. *)
Lemma step_store (s : State) (e : Event) :
  let s' := step s e in
  (reminders s' = reminders s /\
   localStorage s' !! "simple_reminders" = localStorage s !! "simple_reminders") \/
  (localStorage s' !! "simple_reminders" = Some (Json.stringify (reminders s')) /\
   sublist (List.map id (reminders s')) (List.map id (reminders s) ++ clock_of e)%list) \/
  (localStorage s' !! "simple_reminders" = localStorage s !! "simple_reminders" /\
   reminders s' = loaded (localStorage s !! "simple_reminders") (reminders s)).
Proof.
  cbn zeta. destruct s as [rs on ed busy sw ne sa ls pm d pe fx].
  destruct e.
  all: exec.
  all: try (left; split; [reflexivity | first [reflexivity | now rewrite lookup_insert_ne]]).
  all: try (right; right; split; reflexivity).
  all: try (right; left; split; [apply lookup_insert_eq | ]).
  all: rewrite ?app_nil_r, ?map_app.
  all: try reflexivity.
  all: try (apply sublist_map, sublist_List_filter).
  all: try (erewrite map_id_insert by eauto; reflexivity).
  left. split; [ | reflexivity].
  apply filter_same_length. symmetry. apply Nat.eqb_eq.
  now apply negb_false_iff.
Qed.

Lemma loaded_fixed (saved : option string) (rs : list Reminder) :
  loaded saved [] = rs -> loaded saved rs = rs.
Proof.
  unfold loaded. destruct saved as [text|]; [ | now intros <-].
  destruct (String.eqb text ""); [now intros <- | auto].
Qed.

Lemma creation_clock_snoc (events : list Event) (e : Event) :
  creation_clock (events ++ [e]) = (creation_clock events ++ clock_of e)%list.
Proof.
  unfold creation_clock. rewrite flat_map_app. simpl. now rewrite app_nil_r.
Qed.

(** The ids in memory come, in order, from the ids the store held at
    page load and the clock readings of the creations since; and
    memory and store agree, or nothing has been loaded or saved yet. *)
Lemma ids_invariant (events : list Event) (storage : gmap string string)
    (perm : Permission) :
  let s := run events (initial storage perm) in
  sublist (List.map id (reminders s))
          (List.map id (stored_reminders storage) ++ creation_clock events)%list /\
  (stored_reminders (localStorage s) = reminders s \/
   (reminders s = [] /\
    localStorage s !! "simple_reminders" = storage !! "simple_reminders")).
Proof.
  cbn zeta. induction events as [|e events IH] using rev_ind.
  - split; [apply sublist_nil_l | right; split; reflexivity].
  - rewrite run_snoc, creation_clock_snoc.
    destruct IH as [Hsub Hstore].
    set (s := run events (initial storage perm)) in *.
    destruct (step_store s e) as [[Hr Hk] | [[Hk Hs] | [Hk Hr]]].
    + rewrite Hr. split.
      * rewrite app_assoc. now apply sublist_inserts_r.
      * unfold stored_reminders in *. rewrite Hk. exact Hstore.
    + split.
      * etransitivity; [exact Hs |]. rewrite app_assoc.
        apply sublist_app; [exact Hsub | reflexivity].
      * left. unfold stored_reminders, loaded. rewrite Hk.
        destruct (String.eqb_spec (Json.stringify (reminders (step s e))) "") as [E|_].
        -- now apply JsonRoundTrip.stringify_not_empty in E.
        -- now rewrite JsonRoundTrip.parse_stringify.
    + destruct Hstore as [Hst | [Hnil Hst]]; unfold stored_reminders in *.
      * pose proof (loaded_fixed _ _ Hst) as Hfix.
        rewrite Hfix in Hr. rewrite Hr. split.
        -- rewrite app_assoc. now apply sublist_inserts_r.
        -- left. rewrite Hk. exact Hst.
      * rewrite Hnil, Hst in Hr. split.
        -- rewrite Hr. now apply sublist_inserts_r.
        -- left. rewrite Hk, Hst. symmetry. exact Hr.
Qed.

Lemma StronglySorted_lt_NoDup (l : list Z) : StronglySorted Z.lt l -> List.NoDup l.
Proof.
  induction 1 as [|x l Hs IH Hall]; constructor; [ | exact IH].
  intros Hin. rewrite List.Forall_forall in Hall. specialize (Hall x Hin). lia.
Qed.

Lemma addReminder_appends (s : State) (d n rp : string) (env : AddEnv) :
  reminders (snd (addReminder d n rp env s)) = reminders s \/
  exists r, id r = add_Date_now env /\
            reminders (snd (addReminder d n rp env s)) = (reminders s ++ [r])%list.
Proof.
  destruct s as [rs on ed busy sw ne sa ls pm dm pe fx].
  exec;
    first [ left; reflexivity
          | right; eexists; split; [ | reflexivity]; reflexivity ].
Qed.

Lemma saveEdit_keeps_ids (s : State) (d n rp m : string) :
  List.map id (reminders (snd (saveEdit d n rp m s))) = List.map id (reminders s).
Proof.
  destruct s as [rs on ed busy sw ne sa ls pm dm pe fx].
  exec; try reflexivity; erewrite map_id_insert by eauto; reflexivity.
Qed.


End ReminderIds.


(** ** The delivery worker *)

Module SWProofs.
Import SW.

Lemma prefix_is_app (p s : string) :
  String.prefix p s = true -> exists rest, s = p ++ rest.
Proof.
  revert s. induction p as [|a p IH]; intros s Hp.
  - exists s. reflexivity.
  - destruct s as [|b s]; [discriminate |]. simpl in Hp.
    destruct (ascii_dec a b) as [->|]; [ | discriminate].
    destruct (IH s Hp) as [rest ->]. exists rest. reflexivity.
Qed.

Lemma prefix_app (n a b : string) :
  String.prefix n a = true -> String.prefix n (a ++ b) = true.
Proof.
  revert a. induction n as [|x n IH]; intros a Hn.
  - destruct a; [destruct b |]; reflexivity.
  - destruct a as [|y a]; [discriminate |]. simpl in *.
    destruct (ascii_dec x y); [auto | discriminate].
Qed.

Lemma includes_app (n a b : string) :
  includes n a = true -> includes n (a ++ b) = true.
Proof.
  induction a as [|y a IH]; intros Hn.
  - simpl in Hn. rewrite orb_false_r in Hn.
    destruct n; [ | discriminate]. destruct b; reflexivity.
  - cbn [includes] in Hn. apply orb_true_iff in Hn as [Hp | Hi].
    + change (String y a ++ b) with (String y (a ++ b)) in *.
      cbn [includes]. apply orb_true_iff. left.
      exact (prefix_app n (String y a) b Hp).
    + change (String y a ++ b) with (String y (a ++ b)).
      cbn [includes]. apply orb_true_iff. right. auto.
Qed.

(** Every URL of the remote authority takes the bypass. *)
Lemma server_urls_bypass (url : string) :
  addressed_to_server url = true -> bypasses url = true.
Proof.
  unfold addressed_to_server, bypasses. intros Hp.
  apply prefix_is_app in Hp as [rest ->].
  rewrite !includes_app by reflexivity. reflexivity.
Qed.

(** C8, as the code has it.  A request whose URL contains both
    [192.168.] and [:3001], which every URL of the remote authority
    does, is not intercepted.  Any other request is answered with the
    cached response when the cache has one, else with what the network
    returns, else, when the network fails, with the made-up response of
    status 408; the promise handed to [respondWith] is never rejected. *)
Theorem fetch_rule (platform : Platform) (url : string) :
  (addressed_to_server url = true -> onfetch platform url = NotIntercepted) /\
  (bypasses url = true -> onfetch platform url = NotIntercepted) /\
  (bypasses url = false ->
   (forall cached,
      caches_match platform url = Fulfilled (Some cached) ->
      onfetch platform url = RespondWith (Fulfilled cached)) /\
   (forall live,
      caches_match platform url = Fulfilled None ->
      network platform url = Fulfilled live ->
      onfetch platform url = RespondWith (Fulfilled live)) /\
   (forall e,
      caches_match platform url = Fulfilled None ->
      network platform url = Rejected e ->
      onfetch platform url = RespondWith (Fulfilled (mkResponse 408 "Network error"))) /\
   (exists response, onfetch platform url = RespondWith (Fulfilled response))).
Proof.
  unfold onfetch. split; [ | split].
  - intros Hs. now rewrite (server_urls_bypass url Hs).
  - now intros ->.
  - intros ->. repeat split.
    + now intros cached ->.
    + now intros live -> ->.
    + now intros e -> ->.
    + destruct (caches_match platform url) as [[cached|]|e]; cbn; eauto.
      destruct (network platform url); cbn; eauto.
Qed.

(** Two requests that are not for the remote authority and that the
    cache holds: a page served from another host of the local network
    on port 3001, and a page whose query names the server.  Neither is
    answered from the cache. *)
Lemma cached_pages_not_served_from_cache :
  let page := mkResponse 200 "<!DOCTYPE html>" in
  let platform :=
    mkPlatform (fun _ => Fulfilled (Some page)) (fun _ => Rejected "Failed to fetch") in
  let lan := "https://192.168.0.20:3001/index.html" in
  let query := "https://reminders.example/index.html?server=192.168.0.147:3001" in
  (addressed_to_server lan = false /\
   caches_match platform lan = Fulfilled (Some page) /\
   onfetch platform lan = NotIntercepted /\
   onfetch platform lan <> RespondWith (Fulfilled page)) /\
  (addressed_to_server query = false /\
   caches_match platform query = Fulfilled (Some page) /\
   onfetch platform query = NotIntercepted /\
   onfetch platform query <> RespondWith (Fulfilled page)).
Proof. cbn zeta. repeat split; try reflexivity; discriminate. Qed.

Lemma for_platform_lookup (ua k : string) (m : gmap string json) :
  platform_key k = false -> for_platform ua m !! k = m !! k.
Proof.
  unfold platform_key, for_platform. intros Hk.
  apply orb_false_iff in Hk as [Hk Hr]. apply orb_false_iff in Hk as [Ha Hv].
  apply String.eqb_neq in Ha, Hv, Hr.
  destruct (isIOS ua).
  - rewrite lookup_insert_ne by congruence.
    rewrite lookup_insert_ne by congruence.
    now rewrite lookup_delete_ne by congruence.
  - now rewrite lookup_insert_ne by congruence.
Qed.

Lemma defaults_title_body (o : string) (now : Z) :
  defaults o now !! "title" = Some default_title /\
  defaults o now !! "body" = Some default_body.
Proof. unfold defaults. split; by simplify_map_eq. Qed.

(** C6.  The push handler always shows one notification, first, under
    the title its data carries.  Without a payload, and with the
    payload [{}], the data is the defaults.  A payload that parses is
    spread over the defaults, and apart from the three properties the
    platform branch sets afterwards the notification shown is that
    spread; with [{"body":"Take medicine"}] the title is the default
    and the body is the payload's.  A payload that does not parse
    becomes the body, the title staying the default. *)
Theorem push_payload_over_defaults (e : PushEvent) :
  let base := defaults (origin e) (clock e) in
  let shownData := notification_of e in
  (exists messages,
     onpush e = ShowNotification (shownData !! "title") shownData :: messages /\
     forall fx, In fx messages -> exists c t n, fx = PostMessage c t n) /\
  (data e = None ->
   with_payload base (data e) = base /\
   shownData !! "title" = Some default_title /\
   shownData !! "body" = Some default_body) /\
  (forall d pushData,
     data e = Some d -> data_json d = Fulfilled pushData ->
     with_payload base (data e) = spread base pushData /\
     forall k, platform_key k = false -> shownData !! k = spread base pushData !! k) /\
  (forall d,
     data e = Some d -> data_json d = Fulfilled (JObj []) ->
     with_payload base (data e) = base /\
     shownData !! "title" = Some default_title /\
     shownData !! "body" = Some default_body) /\
  (forall d,
     data e = Some d ->
     data_json d = Fulfilled (JObj [("body", JStr "Take medicine")]) ->
     shownData !! "title" = Some default_title /\
     shownData !! "body" = Some (JStr "Take medicine")) /\
  (forall d error,
     data e = Some d -> data_json d = Rejected error ->
     shownData !! "title" = Some default_title /\
     shownData !! "body" = Some (JStr (data_text d))).
Proof.
  cbn zeta. unfold notification_of.
  destruct (defaults_title_body (origin e) (clock e)) as [Ht Hb].
  split; [ | split; [ | split; [ | split; [ | split]]]].
  - unfold onpush, notification_of. eexists. split; [reflexivity |].
    intros fx Hin. destruct (shown e); [ | destruct Hin].
    apply in_map_iff in Hin as (c & <- & _). eauto.
  - intros Hd. rewrite !for_platform_lookup by reflexivity.
    rewrite Hd. cbn. auto.
  - intros d v Hd Hv. rewrite Hd. cbn. rewrite Hv. split; [reflexivity |].
    intros k Hk. now rewrite for_platform_lookup.
  - intros d Hd Hv. rewrite !for_platform_lookup by reflexivity.
    rewrite Hd. cbn. rewrite Hv. cbn. auto.
  - intros d Hd Hv. rewrite !for_platform_lookup by reflexivity.
    rewrite Hd. cbn. rewrite Hv. cbn. split.
    + now rewrite lookup_insert_ne.
    + now rewrite lookup_insert_eq.
  - intros d err Hd Hv. rewrite !for_platform_lookup by reflexivity.
    rewrite Hd. cbn. rewrite Hv. split.
    + now rewrite lookup_insert_ne.
    + now rewrite lookup_insert_eq.
Qed.

End SWProofs.

(** ** Further properties of app.js *)

(** *** What [trim] leaves *)

Module TrimFacts.
Import JsonFacts.

Lemma rev_app_append (s k : string) : String.rev_app s k = String.rev s ++ k.
Proof.
  unfold String.rev. revert k.
  induction s as [|c s IH]; intros k; cbn [String.rev_app]; [reflexivity |].
  rewrite (IH (String c k)), (IH (String c "")).
  now rewrite append_assoc.
Qed.

Lemma rev_cons (c : ascii) (s : string) :
  String.rev (String c s) = String.rev s ++ String c "".
Proof. unfold String.rev at 1. cbn [String.rev_app]. apply rev_app_append. Qed.

Lemma append_nil_r (s : string) : s ++ "" = s.
Proof. induction s as [|c s IH]; [reflexivity |]. rewrite append_cons. now rewrite IH. Qed.

Lemma rev_append (a b : string) : String.rev (a ++ b) = String.rev b ++ String.rev a.
Proof.
  induction a as [|c a IH].
  - rewrite append_nil. change (String.rev "") with "". now rewrite append_nil_r.
  - rewrite append_cons, !rev_cons, IH. now rewrite append_assoc.
Qed.

Lemma rev_involutive (s : string) : String.rev (String.rev s) = s.
Proof.
  induction s as [|c s IH]; [reflexivity |].
  rewrite rev_cons, rev_append, IH. reflexivity.
Qed.

(** [trim_start] drops a run of blanks and leaves a text that does not
    begin with one. *)
Lemma trim_start_split (s : string) :
  exists p, s = p ++ trim_start s /\ blank p = true /\
            forall c, first_char (trim_start s) = Some c -> is_space c = false.
Proof.
  induction s as [|c s (p & Hs & Hp & Hf)].
  - exists "". split; [reflexivity | split; [reflexivity | discriminate]].
  - cbn [trim_start]. destruct (is_space c) eqn:E.
    + exists (String c p). rewrite append_cons, <- Hs.
      split; [reflexivity | split; [ | exact Hf]].
      cbn [blank]. now rewrite E, Hp.
    + exists "". split; [reflexivity | split; [reflexivity | ]].
      now intros c' [= <-].
Qed.

Lemma trim_start_fixed (s : string) :
  (forall c, first_char s = Some c -> is_space c = false) -> trim_start s = s.
Proof.
  destruct s as [|c s]; [reflexivity |]. intros Hf. cbn [trim_start].
  now rewrite (Hf c eq_refl).
Qed.

Lemma trim_start_blank (s : string) : blank s = true -> trim_start s = "".
Proof.
  induction s as [|c s IH]; [reflexivity |]. cbn [blank trim_start].
  intros [-> Hs]%andb_prop. auto.
Qed.

Lemma first_char_app (a b : string) (c : ascii) :
  first_char a = Some c -> first_char (a ++ b) = Some c.
Proof. destruct a; [discriminate |]. now rewrite append_cons. Qed.

Lemma trim_trimmed (s : string) : trimmed (trim s).
Proof.
  unfold trimmed, trim.
  destruct (trim_start_split s) as (p & _ & _ & Hf).
  destruct (trim_start_split (String.rev (trim_start s))) as (q & Ha & _ & Hg).
  rewrite rev_involutive. split; [ | exact Hg].
  intros c Hc. apply Hf.
  rewrite <- (rev_involutive (trim_start s)), Ha, rev_append.
  now apply first_char_app.
Qed.

Lemma trimmed_fixed (s : string) : trimmed s -> trim s = s.
Proof.
  intros [Hf Hl]. unfold trim.
  rewrite (trim_start_fixed s Hf), (trim_start_fixed _ Hl).
  apply rev_involutive.
Qed.

Lemma trim_blank (s : string) : blank s = true -> trim s = "".
Proof. intros Hs. unfold trim. now rewrite (trim_start_blank s Hs). Qed.

End TrimFacts.

(** *** The mutations, one call at a time *)

Section Operations.
Context `{Browser}.



(** The first reminder that carries an id, where [find] and
    [findIndex] stop. *)
Lemma find_present (target : Z) (l : list Reminder) :
  (exists r, In r l /\ id r = target) ->
  exists i first,
    List.find (id_is (Some target)) l = Some first /\
    findIndex (id_is (Some target)) l = Some i /\
    l !! i = Some first /\ id first = target /\
    forall j r, (j < i)%nat -> l !! j = Some r -> id r <> target.
Proof.
  induction l as [|x l IH]; intros (r & Hin & Hid); [destruct Hin |].
  cbn [List.find findIndex]. destruct (id_is (Some target) x) eqn:E.
  - exists 0%nat, x. cbn in E. apply Z.eqb_eq in E.
    repeat split; auto. intros j r' Hj. lia.
  - destruct Hin as [-> | Hin].
    { cbn in E. apply Z.eqb_neq in E. contradiction. }
    destruct IH as (i & first & Hf & Hi & Hl & Hfid & Hbefore); [eauto |].
    exists (S i), first. rewrite Hf, Hi. repeat split; auto.
    intros [|j] r' Hj Hr'.
    + cbn in Hr'. injection Hr' as <-. cbn in E. now apply Z.eqb_neq in E.
    + cbn in Hr'. apply (Hbefore j); [lia | exact Hr'].
Qed.


(** X19.  An edit session on a reminder that is in the list:
    [editReminder] records the id and shows the form, and that is all;
    [cancelEdit] right after gives back the state there was before
    (when no session was open); and [saveEdit] with the date or the
    trimmed note empty shows its alert and leaves the session open
    and everything else alone. *)
Theorem edit_then_cancel_changes_nothing (s : State) (target : Z) :
  (exists r, In r (reminders s) /\ id r = target) ->
  editReminder target s =
    (Val tt, set_dom (set_editFormShown true (dom s)) (set_editingId (Some target) s)) /\
  (editingId s = None -> editFormShown (dom s) = false ->
   snd (cancelEdit (snd (editReminder target s))) = s) /\
  (forall d n rp m, d = "" \/ trim n = "" ->
   saveEdit d n rp m (snd (editReminder target s)) =
   (Val tt, set_effects
              (effects s ++ [FxAlert "Please fill in both date/time and note"])
              (snd (editReminder target s)))).
Proof.
  intros Hin.
  destruct (find_present target (reminders s) Hin) as (i & old & Hf & _).
  assert (editReminder target s =
    (Val tt, set_dom (set_editFormShown true (dom s)) (set_editingId (Some target) s))) as He.
  { unfold editReminder, bind, gets. now rewrite Hf. }
  split; [exact He |]. rewrite He. cbn [snd]. split.
  - destruct s as [rs on ed busy sw ne sa ls pm dm pe fx]. cbn.
    intros -> Hform. destruct dm; cbn in *. now subst.
  - intros d n rp m Hempty. unfold saveEdit.
    assert (String.eqb d "" || String.eqb (trim n) "" = true) as ->.
    { destruct Hempty as [-> | ->]; [reflexivity | apply orb_true_r]. }
    reflexivity.
Qed.


(** *** The local store *)

Lemma parse_needs_bracket (c : ascii) (rest : string) :
  may_start_json c = false -> Json.parse (String c rest) = None.
Proof.
  intros Hc. unfold Json.parse, Json.parse_reminders.
  destruct (Ascii.eqb_spec c "[") as [-> | Hne]; [discriminate Hc |].
  destruct c as [[] [] [] [] [] [] [] []]; try reflexivity; congruence.
Qed.

(** X9.  [loadLocalReminders] never throws and assigns nothing but
    [reminders]: the store, the flags, the waiting tasks and the
    effects are as before.  With no saved text, or an empty one, the
    whole state is as before.  With a text that cannot be JSON the
    list is reset to empty (and the text stays in the store); with the
    text [saveLocalReminders] wrote for a list, the list is that one. *)
Theorem load_never_throws (s : State) :
  let s' := snd (loadLocalReminders s) in
  fst (loadLocalReminders s) = Val tt /\
  s' = set_reminders (reminders s') s /\
  (localStorage s !! "simple_reminders" = None -> s' = s) /\
  (localStorage s !! "simple_reminders" = Some "" -> s' = s) /\
  (forall c rest,
     localStorage s !! "simple_reminders" = Some (String c rest) ->
     may_start_json c = false -> reminders s' = []) /\
  (forall rs,
     localStorage s !! "simple_reminders" = Some (Json.stringify rs) ->
     reminders s' = rs).
Proof.
  cbn zeta. rewrite loadLocalReminders_loaded. cbn [fst snd].
  split; [reflexivity |]. split; [now destruct s |].
  split; [intros ->; now destruct s |].
  split; [intros ->; now destruct s |].
  split.
  - intros c rest -> Hc. destruct s; cbn. now rewrite parse_needs_bracket.
  - intros rs ->. destruct s; cbn.
    destruct (String.eqb_spec (Json.stringify rs) "") as [E|_].
    + now apply JsonRoundTrip.stringify_not_empty in E.
    + now rewrite JsonRoundTrip.parse_stringify.
Qed.

Lemma filter_all {A} (p : A -> bool) (l : list A) :
  Forall (fun x => p x = true) l -> List.filter p l = l.
Proof.
  induction 1 as [|x l Hx _ IH]; [reflexivity |].
  cbn. now rewrite Hx, IH.
Qed.

Lemma filter_some_out {A} (p : A -> bool) (l : list A) :
  Exists (fun x => p x = false) l -> (length (List.filter p l) < length l)%nat.
Proof.
  induction 1 as [x l Hx | x l _ IH]; cbn.
  - rewrite Hx. pose proof (sublist_length _ _ (sublist_List_filter p l)). lia.
  - destruct (p x); cbn; [lia |].
    pose proof (sublist_length _ _ (sublist_List_filter p l)). lia.
Qed.

Lemma filter_filter_same {A} (p : A -> bool) (l : list A) :
  List.filter p (List.filter p l) = List.filter p l.
Proof.
  apply filter_all, List.Forall_forall. now intros x [_ Hx]%filter_In.
Qed.


(** *** The notification display and the key conversion *)


Lemma length_map_string (f : ascii -> ascii) (x : string) :
  String.length (map_string f x) = String.length x.
Proof. induction x as [|c x IH]; cbn; [reflexivity | now rewrite IH]. Qed.

Lemma length_repeat_string (c : ascii) (n : nat) :
  String.length (repeat_string (String c "") n) = n.
Proof.
  induction n as [|n IH]; [reflexivity |].
  cbn [repeat_string]. rewrite JsonFacts.append_cons, JsonFacts.append_nil.
  cbn. now rewrite IH.
Qed.

Lemma map_string_chars (f : ascii -> ascii) (x : string) (c : ascii) :
  In c (list_ascii_of_string (map_string f x)) ->
  exists c0, In c0 (list_ascii_of_string x) /\ c = f c0.
Proof.
  induction x as [|a x IH]; cbn; [tauto |].
  intros [<- | Hin]; [eauto |]. destruct (IH Hin) as (c0 & ? & ?). eauto.
Qed.

Lemma map_string_id (f : ascii -> ascii) (x : string) :
  (forall c, In c (list_ascii_of_string x) -> f c = c) -> map_string f x = x.
Proof.
  induction x as [|a x IH]; cbn; [reflexivity |].
  intros Hf. rewrite (Hf a) by now left. f_equal. apply IH. auto.
Qed.


End Operations.

(** *** What holds after every event *)

Ltac ready :=
  unfold ui_ready in *; cbn in *;
  repeat match goal with
  | H : _ || _ = true |- _ => apply orb_true_iff in H as [H|H]
  | H : _ && _ = true |- _ => apply andb_true_iff in H as [? ?]
  | H : bool_decide _ = true |- _ => apply bool_decide_eq_true in H
  end.

Section Invariants.
Context `{Browser}.

Lemma flags_step (s : State) (e : Event) :
  flags_consistent s -> flags_consistent (step s e).
Proof.
  unfold flags_consistent.
  destruct s as [rs on ed busy sw ne sa ls pm d pe fx]. cbn.
  intros [Ha Hb].
  destruct e; exec; (split; intros Hx); ready;
    rewrite ?lookup_insert_eq, ?lookup_insert_ne by discriminate;
    rewrite ?andb_false_r, ?orb_true_r; cbn; auto;
    try (rewrite (Ha Hx), ?orb_true_r; reflexivity).
Qed.

Lemma flags_run (events : list Event) (s : State) :
  flags_consistent s -> flags_consistent (run events s).
Proof.
  revert s. induction events as [|e events IH]; intros s Hs; [exact Hs |].
  apply IH, flags_step, Hs.
Qed.

Lemma flags_monotone (s : State) (e : Event) :
  (notificationsEnabled s = true -> notificationsEnabled (step s e) = true) /\
  (subscriptionActive s = true -> subscriptionActive (step s e) = true) /\
  (swRegistration s = true -> swRegistration (step s e) = true) /\
  (localStorage s !! "notifications_enabled" = Some "true" ->
   localStorage (step s e) !! "notifications_enabled" = Some "true").
Proof.
  destruct s as [rs on ed busy sw ne sa ls pm d pe fx]. cbn.
  repeat split; intros Hx; destruct e; exec;
    rewrite ?lookup_insert_eq, ?lookup_insert_ne by discriminate;
    rewrite ?orb_true_r; auto.
Qed.


(** X10.  What one event can do to [localStorage]: only the keys
    [simple_reminders] and [notifications_enabled] are ever written;
    no key is ever removed; [notifications_enabled], when it changes,
    becomes ["true"]; and [simple_reminders], when it changes, becomes
    the text of the reminders the application holds when the handler
    ends. *)
Theorem store_holds_two_keys (s : State) (e : Event) :
  (forall k, k <> "simple_reminders" -> k <> "notifications_enabled" ->
             localStorage (step s e) !! k = localStorage s !! k) /\
  (forall k, is_Some (localStorage s !! k) -> is_Some (localStorage (step s e) !! k)) /\
  (localStorage (step s e) !! "notifications_enabled" =
     localStorage s !! "notifications_enabled" \/
   localStorage (step s e) !! "notifications_enabled" = Some "true") /\
  (localStorage (step s e) !! "simple_reminders" =
     localStorage s !! "simple_reminders" \/
   localStorage (step s e) !! "simple_reminders" =
     Some (Json.stringify (reminders (step s e)))).
Proof.
  destruct s as [rs on ed busy sw ne sa ls pm d pe fx]. cbn.
  split; [ | split; [ | split]].
  - destruct e; exec; intros name Hk1 Hk2;
      rewrite ?lookup_insert_ne by congruence; reflexivity.
  - destruct e; exec; intros name Hk; auto;
      match goal with
      | |- is_Some (<[?k' := _]> _ !! _) =>
          destruct (decide (name = k')) as [->|];
          [rewrite lookup_insert_eq; eauto | rewrite lookup_insert_ne by congruence; auto]
      end.
  - destruct e; exec;
      rewrite ?lookup_insert_eq, ?lookup_insert_ne by discriminate; auto.
  - destruct e; exec;
      rewrite ?lookup_insert_eq, ?lookup_insert_ne by discriminate; auto.
Qed.

(** X11.  The reminders are the client's alone.  No answer from the
    network (a worker registration, a response, a parsed body, a
    permission, a subscription, whatever it carries and whether it
    was waited for or not), no connectivity or visibility event, no
    timer of the connection and no click on the enable button changes
    the list in memory or its stored copy; neither does opening or
    cancelling an edit. *)
Theorem reminders_change_only_locally (s : State) :
  let kept := fun s' : State =>
    reminders s' = reminders s /\
    localStorage s' !! "simple_reminders" = localStorage s !! "simple_reminders" in
  (forall i r, kept (step s (EvRegisterSettled i r))) /\
  (forall i r, kept (step s (EvFetchSettled i r))) /\
  (forall i r, kept (step s (EvJsonSettled i r))) /\
  (forall i r, kept (step s (EvPermissionSettled i r))) /\
  (forall i r, kept (step s (EvSubscribeSettled i r))) /\
  kept (step s EvOnline) /\ kept (step s EvOffline) /\ kept (step s EvRetryTimer) /\
  (forall hidden, kept (step s (EvVisibilityChange hidden))) /\
  kept (step s EvEnableClick) /\
  (forall target, kept (step s (EvEditReminder target))) /\
  kept (step s EvCancelEdit).
Proof.
  cbn zeta. destruct s as [rs on ed busy sw ne sa ls pm d pe fx].
  repeat split; intros; exec;
    first [reflexivity | now rewrite lookup_insert_ne].
Qed.

Lemma statusEl_ui_dom (s : State) : statusEl (ui_dom s) = statusEl (dom s).
Proof. unfold ui_dom. repeat case_match; reflexivity. Qed.

Lemma listens_ui_dom (s : State) :
  enableButtonListens (ui_dom s) = enableButtonListens (dom s).
Proof. unfold ui_dom. repeat case_match; reflexivity. Qed.

Lemma editFormShown_ui_dom (s : State) :
  editFormShown (ui_dom s) = editFormShown (dom s).
Proof. unfold ui_dom. repeat case_match; reflexivity. Qed.

Lemma banner_step (s : State) (e : Event) :
  banner_honest s -> banner_honest (step s e).
Proof.
  unfold banner_honest.
  destruct s as [rs on ed busy sw ne sa ls pm d pe fx]. cbn. intros Hs.
  destruct e; exec; intros m Hm;
    rewrite ?statusEl_ui_dom in Hm; cbn in Hm;
    rewrite ?statusEl_ui_dom in Hm; cbn in Hm;
    simplify_eq; auto.
Qed.

Lemma banner_run (events : list Event) (s : State) :
  banner_honest s -> banner_honest (run events s).
Proof.
  revert s. induction events as [|e events IH]; intros s Hs; [exact Hs |].
  apply IH, banner_step, Hs.
Qed.

(** X14.  In every run from page load, when the status line has the
    class [syncing] it reads "Syncing with server..." and a
    synchronisation is under way, exactly one: the banner never stays
    behind once the synchronisation has ended, however it ended. *)
Theorem syncing_banner_means_syncing
    (events : list Event) (storage : gmap string string) (perm : Permission)
    (message : StatusMessage) :
  let s := run events (initial storage perm) in
  statusEl (dom s) = Some (message, st_syncing) ->
  message = MsgSyncing /\ syncInProgress s = true /\ syncs_in_flight s = 1%nat.
Proof.
  cbn zeta. intros Hst.
  assert (banner_honest (initial storage perm)) as Hinit.
  { intros m [=]. }
  destruct (banner_run events _ Hinit message Hst) as [Hm Hb].
  split; [exact Hm |]. split; [exact Hb |].
  pose proof (guard_matches_run events _ (guard_matches_initial storage perm)) as Hg.
  unfold guard_matches in Hg. now rewrite Hb in Hg.
Qed.

Lemma form_matches_session_step (s : State) (e : Event) :
  form_matches_session s -> form_matches_session (step s e).
Proof.
  unfold form_matches_session.
  destruct s as [rs on ed busy sw ne sa ls pm d pe fx]. cbn. intros Hs.
  destruct e; exec;
    rewrite ?editFormShown_ui_dom; cbn; rewrite ?editFormShown_ui_dom; cbn;
    first [ exact Hs | split; [discriminate | congruence] | split; congruence ].
Qed.

Lemma form_matches_session_run (events : list Event) (s : State) :
  form_matches_session s -> form_matches_session (run events s).
Proof.
  revert s. induction events as [|e events IH]; intros s Hs; [exact Hs |].
  apply IH, form_matches_session_step, Hs.
Qed.


End Invariants.

(** *** Requests and their answers *)

Module SyncBody.
Import Json JsonFacts.

Lemma escape_cont (s k : string) : escape s k = escape s "" ++ k.
Proof.
  induction s as [|c s IH]; cbn [escape]; [reflexivity |].
  now rewrite IH, append_assoc.
Qed.

Lemma quote_cont (s k : string) : quote s k = quote s "" ++ k.
Proof.
  unfold quote. rewrite (escape_cont s (String dquote k)), (escape_cont s (String dquote "")).
  rewrite append_cons, append_assoc. reflexivity.
Qed.

Lemma stringify_reminder_cont (r : Reminder) (k : string) :
  stringify_reminder r k = stringify_reminder r "" ++ k.
Proof.
  unfold stringify_reminder.
  change (String "}" k) with ("}" ++ k).
  destruct (modified r);
    repeat match goal with
    | |- context [quote ?s ?x] =>
        lazymatch x with
        | EmptyString => fail
        | _ => rewrite (quote_cont s x)
        end
    end;
    rewrite !append_assoc; reflexivity.
Qed.

Lemma stringify_items_cont (rs : list Reminder) (k : string) :
  stringify_items rs k = stringify_items rs "" ++ k.
Proof.
  induction rs as [|r rs IH]; [reflexivity |].
  destruct rs as [|r' rs].
  - cbn [stringify_items].
    rewrite (stringify_reminder_cont r (String "]" k)),
            (stringify_reminder_cont r (String "]" "")).
    rewrite append_assoc. reflexivity.
  - change (stringify_items (r :: r' :: rs) k)
      with (stringify_reminder r (String "," (stringify_items (r' :: rs) k))).
    change (stringify_items (r :: r' :: rs) "")
      with (stringify_reminder r (String "," (stringify_items (r' :: rs) ""))).
    rewrite IH.
    rewrite (stringify_reminder_cont r (String "," (_ ++ k))),
            (stringify_reminder_cont r (String "," (stringify_items (r' :: rs) ""))).
    rewrite append_assoc. reflexivity.
Qed.

(** The body of the sync request is the object with the one property
    [reminders], whose value is the text of the array. *)
Lemma stringify_sync_body_eq (rs : list Reminder) :
  stringify_sync_body rs = "{" ++ key "reminders" ++ stringify rs ++ "}".
Proof.
  unfold stringify_sync_body, stringify, stringify_reminders.
  rewrite (stringify_items_cont rs "}"). reflexivity.
Qed.

End SyncBody.

Section Network.
Context `{Browser}.

Lemma lookup_last_task (l : list Task) (t : Task) : (l ++ [t])%list !! length l = Some t.
Proof. now rewrite list_lookup_middle. Qed.

Lemma delete_last_task (l : list Task) (t : Task) : delete (length l) (l ++ [t])%list = l.
Proof. rewrite delete_middle. apply app_nil_r. Qed.

(** X13.  A call of [syncWithServer] while online and with no
    synchronisation under way claims the guard, shows the syncing
    banner and issues one [POST /sync-reminders], whose body is the
    object with the single property [reminders] holding the text of
    the whole list as it is at that moment, text that reads back as
    that list; the call then waits for the response.  Called while
    offline it does nothing at all. *)
Theorem sync_request_carries_the_list (k : SyncCaller) (s : State) :
  (isOnline s = false -> syncWithServer k s = (Val Done, s)) /\
  (isOnline s = true -> syncInProgress s = false ->
   let body := Json.stringify_sync_body (reminders s) in
   syncWithServer k s =
   (Val Suspended,
    set_pending (pending s ++ [TSyncFetch k])
      (set_effects
         (effects s ++ [FxFetch "POST" (serverUrl ++ "/sync-reminders") (Some body)])
         (set_dom (set_statusEl (Some (MsgSyncing, st_syncing)) (dom s))
            (set_syncInProgress true s)))) /\
   body = "{" ++ Json.key "reminders" ++ Json.stringify (reminders s) ++ "}" /\
   Json.parse (Json.stringify (reminders s)) = Some (reminders s)).
Proof.
  split.
  - intros Hoff. unfold syncWithServer, bind, gets, ret. now rewrite Hoff.
  - intros Hon Hidle. cbn zeta.
    split; [ | split; [apply SyncBody.stringify_sync_body_eq
                      | apply JsonRoundTrip.parse_stringify]].
    destruct s as [rs on ed busy sw ne sa ls pm d pe fx]. cbn in Hon, Hidle.
    subst. reflexivity.
Qed.

(** X12.  The end of a synchronisation whose response was 2xx, when
    the body has been read or has failed to parse: the handler ends
    normally, the guard is released, and the reminders, the store and
    the effects are as before (what the server answered is not
    merged).  With a body other than [null] the status line reads
    "Online - Synced successfully" and [isOnline] is left as it is;
    with the body [null], or one that does not parse, the status line
    reads "Sync failed - Working offline" and [isOnline] is false. *)
Theorem sync_answer_releases_the_guard
    (s : State) (i : nat) (k : SyncCaller) (r : Settled json) :
  pending s !! i = Some (TSyncJson k) ->
  let s' := step s (EvJsonSettled i r) in
  handle (EvJsonSettled i r) s = (Val tt, s') /\
  syncInProgress s' = false /\
  reminders s' = reminders s /\ localStorage s' = localStorage s /\
  effects s' = effects s /\ pending s' = delete i (pending s) /\
  (forall v, r = Fulfilled v -> v <> JNull ->
     isOnline s' = isOnline s /\ statusEl (dom s') = Some (MsgSynced, st_online)) /\
  (r = Fulfilled JNull \/ (exists e, r = Rejected e) ->
     isOnline s' = false /\ statusEl (dom s') = Some (MsgSyncFailed, st_offline)).
Proof.
  intros Hi. cbn zeta.
  destruct s as [rs on ed busy sw ne sa ls pm d pe fx]. cbn in Hi.
  unfold step, handle, resume. cbn [pending]. rewrite Hi.
  destruct r as [[]|e]; destruct k as [[]| |]; exec;
    unfold ui_dom; cbn;
    repeat match goal with
    | |- context [if ?b then _ else _] => destruct b; cbn
    end;
    do 6 (split; [reflexivity | ]);
    (split;
     [ intros v' [= <-] Hv; try congruence; split; reflexivity
     | intros [[=] | [e' [=]]]; split; reflexivity ]).
Qed.

Lemma requests_step (s : State) (e : Event) :
  Forall server_request (effects s) -> Forall server_request (effects (step s e)).
Proof.
  destruct s as [rs on ed busy sw ne sa ls pm d pe fx]. cbn. intros Hfx.
  destruct e; exec;
    repeat (apply Forall_app; split); auto;
    repeat (apply Forall_cons; split); try apply Forall_nil;
    cbn; first [exact I | naive_solver].
Qed.

Lemma requests_run (events : list Event) (s : State) :
  Forall server_request (effects s) -> Forall server_request (effects (run events s)).
Proof.
  revert s. induction events as [|e events IH]; intros s Hs; [exact Hs |].
  apply IH, requests_step, Hs.
Qed.

Lemma server_request_bypasses (method url : string) (body : option string) (suffix : string) :
  server_request (FxFetch method url body) -> SW.bypasses (url ++ suffix) = true.
Proof.
  unfold SW.bypasses.
  intros [(_ & -> & _) | [(_ & -> & _) | [(_ & -> & _) | (_ & -> & _)]]];
    rewrite !SWProofs.includes_app by reflexivity; reflexivity.
Qed.

(** X15.  Every request the page makes, in any run from page load, is
    one of four: the probe [GET] of the server address, [GET
    /vapid-public-key], [POST /subscribe] with a body, or [POST
    /sync-reminders] with the text of a reminder list.  The worker's
    fetch handler lets each of them through to the network, also when
    the browser has completed the address with a path or a query:
    none is ever answered from the cache or with the made-up 408. *)
Theorem page_requests_pass_the_worker
    (events : list Event) (storage : gmap string string) (perm : Permission)
    (method url : string) (body : option string) :
  In (FxFetch method url body) (effects (run events (initial storage perm))) ->
  server_request (FxFetch method url body) /\
  forall platform suffix, SW.onfetch platform (url ++ suffix) = SW.NotIntercepted.
Proof.
  intros Hin.
  assert (Forall server_request (effects (run events (initial storage perm)))) as Hall.
  { apply requests_run. constructor. }
  rewrite List.Forall_forall in Hall. specialize (Hall _ Hin).
  split; [exact Hall |]. intros platform suffix. unfold SW.onfetch.
  now rewrite (server_request_bypasses method url body suffix Hall).
Qed.

(** *** Page load *)

(** X2.  Page load up to the probe, with a store only the application
    has written to and whatever becomes of the worker
    registration: the reminders are what the store held, the store is
    untouched, the status line reads "Connecting...", exactly one
    probe has been sent and is awaited (after the registration
    request, when workers are supported), and [swRegistration] is set
    exactly when the registration was fulfilled; when it was rejected
    or workers are not supported the matching error is on display.
    The enable button has no listener yet, so a click on it does
    nothing. *)
Theorem page_load_reaches_the_probe
    (storage : gmap string string) (perm : Permission)
    (supported : bool) (r : Settled unit) :
  application_store storage ->
  let registered :=
    supported && match r with Fulfilled _ => true | Rejected _ => false end in
  let s :=
    run (EvDOMContentLoaded supported ::
         if supported then [EvRegisterSettled 0 r] else [])
        (initial storage perm) in
  reminders s = stored_reminders storage /\
  localStorage s = storage /\
  swRegistration s = registered /\
  pending s = [TConnectFetch FromStartup] /\
  effects s =
    ((if supported then [FxRegister "./service-worker.js"] else []) ++
     [FxFetch "GET" serverUrl None])%list /\
  isOnline s = false /\ syncInProgress s = false /\
  statusEl (dom s) = Some (MsgConnecting, st_offline) /\
  notificationStatusEl (dom s) =
    (if registered then NSHidden
     else if supported then NSError "Service Worker registration failed"
     else NSError "Service Workers not supported in this browser") /\
  enableButtonListens (dom s) = false /\
  step s EvEnableClick = s.
Proof.
  intros _. cbn zeta. destruct supported; [destruct r | ]; unfold run; cbn [fold_left];
    exec; repeat split; reflexivity.
Qed.

(** A result that arrives when nothing is waiting changes nothing. *)
Lemma settled_on_idle (s : State) (i : nat) :
  pending s = [] ->
  (forall r, step s (EvFetchSettled i r) = s) /\
  (forall r, step s (EvJsonSettled i r) = s).
Proof.
  intros Hp. unfold step, handle, resume. rewrite Hp.
  split; intros r; reflexivity.
Qed.

(** The stretches of the load handler, one answer each: the store and
    the reminders stay as they are, and either the next answer is
    awaited or the handler has run to its end and the button listens. *)
Lemma startup_stretch (s : State) (t : Task) (e : Event) :
  (t = TConnectFetch FromStartup /\ (exists r, e = EvFetchSettled 0 r) \/
   t = TConnectJson FromStartup /\ (exists r, e = EvJsonSettled 0 r) \/
   t = TSyncFetch (AwaitedByConnect FromStartup) /\ (exists r, e = EvFetchSettled 0 r) \/
   t = TSyncJson (AwaitedByConnect FromStartup) /\ (exists r, e = EvJsonSettled 0 r)) ->
  pending s = [t] ->
  (syncInProgress s = true <-> is_sync_task t = true) ->
  let s' := step s e in
  reminders s' = reminders s /\ localStorage s' = localStorage s /\
  (pending s' = [] /\ syncInProgress s' = false /\
   enableButtonListens (dom s') = true /\ effects s' = effects s \/
   exists t',
     pending s' = [t'] /\ (syncInProgress s' = true <-> is_sync_task t' = true) /\
     enableButtonListens (dom s') = enableButtonListens (dom s) /\
     (t = TConnectFetch FromStartup /\ t' = TConnectJson FromStartup /\
      effects s' = effects s \/
      t = TConnectJson FromStartup /\ t' = TSyncFetch (AwaitedByConnect FromStartup) /\
      effects s' =
        (effects s ++
         [FxFetch "POST" (serverUrl ++ "/sync-reminders")
            (Some (Json.stringify_sync_body (reminders s)))])%list \/
      t = TSyncFetch (AwaitedByConnect FromStartup) /\
      t' = TSyncJson (AwaitedByConnect FromStartup) /\ effects s' = effects s)).
Proof.
  intros Hte Hp Hbusy. cbn zeta.
  destruct s as [rs on ed busy sw ne sa ls pm d pe fx]. cbn in Hp, Hbusy. subst pe.
  destruct Hte as [(-> & r & ->) | [(-> & r & ->) | [(-> & r & ->) | (-> & r & ->)]]];
    cbn in Hbusy; destruct busy;
    try (destruct Hbusy as [Hb _]; specialize (Hb eq_refl); discriminate);
    try (destruct Hbusy as [_ Hb]; specialize (Hb eq_refl); discriminate).
  all: destruct r; exec.
  all: split; [reflexivity | split; [reflexivity | ]].
  all: rewrite ?listens_ui_dom; cbn; rewrite ?listens_ui_dom; cbn.
  all: first [ left; repeat split; reflexivity
             | right; eexists; split; [reflexivity | ];
               split; [cbn; tauto | split; [reflexivity | ]]; tauto ].
Qed.

Lemma startup_chain (s : State) (r2 r4 : Settled Z) (r3 r5 : Settled json) :
  pending s = [TConnectFetch FromStartup] -> syncInProgress s = false ->
  let s' :=
    run [EvFetchSettled 0 r2; EvJsonSettled 0 r3; EvFetchSettled 0 r4; EvJsonSettled 0 r5]
        s in
  pending s' = [] /\ syncInProgress s' = false /\
  enableButtonListens (dom s') = true /\
  reminders s' = reminders s /\ localStorage s' = localStorage s /\
  (effects s' = effects s \/
   effects s' =
     (effects s ++
      [FxFetch "POST" (serverUrl ++ "/sync-reminders")
         (Some (Json.stringify_sync_body (reminders s)))])%list).
Proof.
  intros Hp Hbusy. cbn zeta. unfold run. cbn [fold_left].
  assert (forall st r, pending st = [] -> step st (EvFetchSettled 0 r) = st) as idleF.
  { intros st r Hst. now apply (settled_on_idle st 0 Hst). }
  assert (forall st r, pending st = [] -> step st (EvJsonSettled 0 r) = st) as idleJ.
  { intros st r Hst. now apply (settled_on_idle st 0 Hst). }
  (* the probe's response *)
  destruct (startup_stretch s _ (EvFetchSettled 0 r2)
              ltac:(left; split; [reflexivity | eauto]) Hp
              ltac:(rewrite Hbusy; cbn; split; discriminate))
    as (Hr1 & Hl1 & [(Hp1 & Hb1 & Hli1 & Hfx1) | (t1 & Hp1 & Hb1 & _ & Hcase1)]).
  { rewrite (idleJ _ r3 Hp1), (idleF _ r4 Hp1), (idleJ _ r5 Hp1). auto 10. }
  destruct Hcase1 as [(_ & -> & Hfx1) | [([=] & _) | ([=] & _)]].
  (* its body *)
  set (s1 := step s (EvFetchSettled 0 r2)) in *.
  destruct (startup_stretch s1 _ (EvJsonSettled 0 r3)
              ltac:(right; left; split; [reflexivity | eauto]) Hp1 Hb1)
    as (Hr2 & Hl2 & [(Hp2 & Hb2 & Hli2 & Hfx2) | (t2 & Hp2 & Hb2 & _ & Hcase2)]).
  { rewrite (idleF _ r4 Hp2), (idleJ _ r5 Hp2).
    rewrite Hr2, Hl2, Hfx2, Hr1, Hl1, Hfx1. auto 10. }
  destruct Hcase2 as [([=] & _) | [(_ & -> & Hfx2) | ([=] & _)]].
  (* the synchronisation's response *)
  set (s2 := step s1 (EvJsonSettled 0 r3)) in *.
  destruct (startup_stretch s2 _ (EvFetchSettled 0 r4)
              ltac:(right; right; left; split; [reflexivity | eauto]) Hp2 Hb2)
    as (Hr3 & Hl3 & [(Hp3 & Hb3 & Hli3 & Hfx3) | (t3 & Hp3 & Hb3 & _ & Hcase3)]).
  { rewrite (idleJ _ r5 Hp3).
    rewrite Hr3, Hl3, Hfx3, Hr2, Hl2, Hfx2, Hr1, Hl1, Hfx1. auto 10. }
  destruct Hcase3 as [([=] & _) | [([=] & _) | (_ & -> & Hfx3)]].
  (* its body *)
  set (s3 := step s2 (EvFetchSettled 0 r4)) in *.
  destruct (startup_stretch s3 _ (EvJsonSettled 0 r5)
              ltac:(right; right; right; split; [reflexivity | eauto]) Hp3 Hb3)
    as (Hr4 & Hl4 & [(Hp4 & Hb4 & Hli4 & Hfx4) | (t4 & _ & _ & _ & Hcase4)]).
  { rewrite Hr4, Hl4, Hfx4, Hr3, Hl3, Hfx3, Hr2, Hl2, Hfx2, Hr1, Hl1, Hfx1. auto 10. }
  destruct Hcase4 as [([=] & _) | [([=] & _) | ([=] & _)]].
Qed.


(** *** Notification setup from click to flag *)

Lemma setup_click_step (s : State) :
  enableButtonListens (dom s) = true -> enableButtonDisabled (dom s) = false ->
  swRegistration s = true -> permission s = granted -> isOnline s = true ->
  step s EvEnableClick =
  set_pending (pending s ++ [TVapidFetch])
    (set_effects (effects s ++ [FxFetch "GET" (serverUrl ++ "/vapid-public-key") None])
       (set_dom (set_enableButtonDisabled true (dom s)) s)).
Proof.
  destruct s as [rs on ed busy sw ne sa ls pm d pe fx].
  destruct d as [st shown nst dis lis form]. cbn.
  intros -> -> -> -> ->. reflexivity.
Qed.

Lemma setup_resume_step (s : State) (i : nat) :
  (forall status, pending s !! i = Some TVapidFetch -> response_ok status = true ->
     step s (EvFetchSettled i (Fulfilled status)) =
     set_pending (delete i (pending s) ++ [TVapidJson]) s) /\
  (forall props publicKey rawData,
     pending s !! i = Some TVapidJson ->
     get_prop "publicKey" props = Some (JStr publicKey) ->
     atob (base64_of_url publicKey) = Some rawData ->
     step s (EvJsonSettled i (Fulfilled (JObj props))) =
     set_pending (delete i (pending s) ++ [TSubscribe])
       (set_effects (effects s ++ [FxSubscribe rawData]) s)) /\
  (forall subscription, pending s !! i = Some TSubscribe ->
     step s (EvSubscribeSettled i (Fulfilled subscription)) =
     set_pending (delete i (pending s) ++ [TSubscribeFetch])
       (set_effects
          (effects s ++ [FxFetch "POST" (serverUrl ++ "/subscribe") (Some subscription)])
          s)) /\
  (forall status, pending s !! i = Some TSubscribeFetch -> response_ok status = true ->
     step s (EvFetchSettled i (Fulfilled status)) =
     set_pending (delete i (pending s) ++ [TSubscribeJson]) s) /\
  (forall result, pending s !! i = Some TSubscribeJson ->
     step s (EvJsonSettled i (Fulfilled result)) =
     snd (updateNotificationUI
            (set_localStorage (<["notifications_enabled" := "true"]> (localStorage s))
               (set_subscriptionActive true
                  (set_notificationsEnabled true
                     (set_pending (delete i (pending s)) s)))))).
Proof.
  destruct s as [rs on ed busy sw ne sa ls pm d pe fx]. cbn [pending].
  split; [ | split; [ | split; [ | split]]].
  - intros status Hi Hok. unfold step, handle, resume. cbn [pending]. rewrite Hi.
    exec. reflexivity.
  - intros props publicKey raw Hi Hk Ha. unfold step, handle, resume. cbn [pending].
    rewrite Hi. unfold base64_of_url in Ha. cbn in Ha.
    unfold_m. cbn. rewrite Hk. cbn. rewrite Ha. reflexivity.
  - intros sub Hi. unfold step, handle, resume. cbn [pending]. rewrite Hi.
    reflexivity.
  - intros status Hi Hok. unfold step, handle, resume. cbn [pending]. rewrite Hi.
    exec. reflexivity.
  - intros result Hi. unfold step, handle, resume. cbn [pending]. rewrite Hi.
    unfold_m. cbn. rewrite !updateNotificationUI_eq. reflexivity.
Qed.



End Network.

(** *** Keyboard shortcuts *)

Section KeyboardProofs.
Context `{Browser}.

Lemma saveEdit_returns (d n rp m : string) (s : State) :
  fst (saveEdit d n rp m s) = Val tt.
Proof.
  destruct s as [rs on ed busy sw ne sa ls pm dm pe fx]. exec; reflexivity.
Qed.

Lemma addReminder_returns (d n rp : string) (env : AddEnv) (s : State) :
  fst (addReminder d n rp env s) = Val tt.
Proof.
  destruct s as [rs on ed busy sw ne sa ls pm dm pe fx]. exec; reflexivity.
Qed.

Lemma onkeydown_cases (k : KeyboardEvent) (forms : Forms) (s : State) :
  form_matches_session s ->
  let chord := (ctrlKey k || metaKey k) && String.eqb (key k) "Enter" in
  (chord = true -> editingId s <> None ->
   onkeydown k forms s =
   (Val true,
    snd (saveEdit (editDateTimeField forms) (editNoteField forms)
                  (editRepeatField forms) (modifiedNow forms) s))) /\
  (chord = true -> editingId s = None ->
   onkeydown k forms s =
   (Val true,
    snd (addReminder (dateTimeField forms) (noteField forms)
                     (repeatField forms) (addEnv forms) s))) /\
  (key k = "Escape" -> editingId s <> None ->
   onkeydown k forms s = (Val true, snd (cancelEdit s))) /\
  (key k = "Escape" -> editingId s = None -> onkeydown k forms s = (Val false, s)) /\
  (chord = false -> key k <> "Escape" -> onkeydown k forms s = (Val false, s)).
Proof.
  intros Hinv. cbn zeta. unfold form_matches_session in Hinv.
  split; [ | split; [ | split; [ | split]]].
  - intros Hc Hed. unfold onkeydown. rewrite Hc.
    assert (editFormShown (dom s) = true) as Hshown by now apply Hinv.
    assert (String.eqb (key k) "Escape" = false) as Hesc.
    { apply andb_prop in Hc as [_ Hc]. apply String.eqb_eq in Hc. now rewrite Hc. }
    unfold bind at 1. unfold bind at 1. unfold gets at 1. rewrite Hshown.
    unfold bind at 1.
    pose proof (saveEdit_returns (editDateTimeField forms) (editNoteField forms)
                  (editRepeatField forms) (modifiedNow forms) s) as Hr.
    destruct (saveEdit _ _ _ _ s) as [r s'] eqn:Es. cbn in Hr. subst r.
    unfold ret at 1. unfold bind, gets. rewrite Hesc. reflexivity.
  - intros Hc Hed. unfold onkeydown. rewrite Hc.
    assert (editFormShown (dom s) = false) as Hshown.
    { destruct (editFormShown (dom s)) eqn:E; [ | reflexivity].
      exfalso. now apply Hinv. }
    assert (String.eqb (key k) "Escape" = false) as Hesc.
    { apply andb_prop in Hc as [_ Hc]. apply String.eqb_eq in Hc. now rewrite Hc. }
    unfold bind at 1. unfold bind at 1. unfold gets at 1. rewrite Hshown.
    unfold bind at 1.
    pose proof (addReminder_returns (dateTimeField forms) (noteField forms)
                  (repeatField forms) (addEnv forms) s) as Hr.
    destruct (addReminder _ _ _ _ s) as [r s'] eqn:Es. cbn in Hr. subst r.
    unfold ret at 1. unfold bind, gets. rewrite Hesc. reflexivity.
  - intros Hk Hed. unfold onkeydown. rewrite Hk.
    assert (editFormShown (dom s) = true) as Hshown by now apply Hinv.
    cbn [String.eqb Ascii.eqb andb]. rewrite andb_false_r.
    unfold bind at 1. unfold ret at 1. unfold bind at 1. unfold gets at 1.
    rewrite Hshown. cbn [andb].
    destruct s as [rs on ed busy sw ne sa ls pm dm pe fx]. reflexivity.
  - intros Hk Hed. unfold onkeydown. rewrite Hk.
    assert (editFormShown (dom s) = false) as Hshown.
    { destruct (editFormShown (dom s)) eqn:E; [ | reflexivity].
      exfalso. now apply Hinv. }
    cbn [String.eqb Ascii.eqb andb]. rewrite andb_false_r.
    unfold bind, ret, gets. now rewrite Hshown.
  - intros Hc Hk. unfold onkeydown. rewrite Hc.
    apply String.eqb_neq in Hk. rewrite Hk.
    reflexivity.
Qed.

(** X29.  In every run from page load the edit form is shown exactly
    while an edit session is open.  So the keyboard shortcuts follow
    the session: Ctrl+Enter or Cmd+Enter saves the edit when a session
    is open and adds a reminder otherwise, never both; Escape cancels
    an open session and does nothing, not even [preventDefault], when
    none is open; any other key changes nothing. *)
Theorem keyboard_follows_the_edit_session
    (events : list Event) (storage : gmap string string) (perm : Permission)
    (k : KeyboardEvent) (forms : Forms) :
  let s := run events (initial storage perm) in
  let chord := (ctrlKey k || metaKey k) && String.eqb (key k) "Enter" in
  (editFormShown (dom s) = true <-> editingId s <> None) /\
  (chord = true -> editingId s <> None ->
   onkeydown k forms s =
   (Val true,
    snd (saveEdit (editDateTimeField forms) (editNoteField forms)
                  (editRepeatField forms) (modifiedNow forms) s))) /\
  (chord = true -> editingId s = None ->
   onkeydown k forms s =
   (Val true,
    snd (addReminder (dateTimeField forms) (noteField forms)
                     (repeatField forms) (addEnv forms) s))) /\
  (key k = "Escape" -> editingId s <> None ->
   onkeydown k forms s = (Val true, snd (cancelEdit s))) /\
  (key k = "Escape" -> editingId s = None -> onkeydown k forms s = (Val false, s)) /\
  (chord = false -> key k <> "Escape" -> onkeydown k forms s = (Val false, s)).
Proof.
  cbn zeta.
  assert (form_matches_session (run events (initial storage perm))) as Hinv.
  { apply form_matches_session_run. split; cbn; [discriminate | congruence]. }
  split; [exact Hinv |]. exact (onkeydown_cases k forms _ Hinv).
Qed.

End KeyboardProofs.

(** ** Further properties of the display and of sw.js *)


Module RenderProofs.
Import Render.

Lemma round_div_bounds (x b : Z) :
  0 < b -> 2 * b * ((2 * x + b) / (2 * b)) <= 2 * x + b < 2 * b * ((2 * x + b) / (2 * b)) + 2 * b.
Proof.
  intros Hb.
  pose proof (Z.div_mod (2 * x + b) (2 * b) ltac:(lia)) as Hd.
  pose proof (Z.mod_pos_bound (2 * x + b) (2 * b) ltac:(lia)) as Hm.
  lia.
Qed.

Lemma timeInfo_past (t now : Z) :
  t < now ->
  let late := now - t in
  exists n,
    (late <= 3570000 /\ 0 <= n < 60 /\
     timeInfo (Int t) (Int now) = Json.string_of_Z n ++ " min ago") \/
    (3570000 < late <= 86370000 /\ 1 <= n <= 24 /\
     timeInfo (Int t) (Int now) = Json.string_of_Z n ++ " hours ago") \/
    (86370000 < late /\ 1 <= n /\
     timeInfo (Int t) (Int now) = Json.string_of_Z n ++ " days ago").
Proof.
  intros Hlt. cbn zeta. unfold timeInfo, isPast, less, minus, round_div, abs.
  apply Z.ltb_lt in Hlt as Hb. rewrite Hb.
  change (1000 * 60) with 60000. change (2 * 60000) with 120000.
  pose proof (round_div_bounds (t - now) 60000 ltac:(lia)) as Hq.
  change (2 * 60000) with 120000 in Hq.
  set (q := (2 * (t - now) + 60000) / 120000) in *.
  assert (q <= 0) as Hq0 by lia.
  rewrite (Z.abs_neq q Hq0).
  destruct (Z.ltb_spec (- q) 60) as [H60 | H60].
  - exists (- q). left. split; [lia | split; [lia | reflexivity]].
  - pose proof (round_div_bounds (- q) 60 ltac:(lia)) as Hh.
    pose proof (round_div_bounds (- q) 1440 ltac:(lia)) as Hd.
    change (2 * 60) with 120 in *. change (2 * 1440) with 2880 in *.
    destruct (Z.ltb_spec (- q) 1440) as [H1440 | H1440].
    + exists ((2 * - q + 60) / 120). right. left.
      split; [lia | split; [lia | reflexivity]].
    + exists ((2 * - q + 1440) / 2880). right. right.
      split; [lia | split; [lia | reflexivity]].
Qed.

Lemma timeInfo_ahead (t now : Z) :
  now <= t ->
  let ahead := t - now in
  exists n,
    (ahead < 3570000 /\ 0 <= n < 60 /\
     timeInfo (Int t) (Int now) = "in " ++ Json.string_of_Z n ++ " min") \/
    (3570000 <= ahead < 86370000 /\ 1 <= n <= 24 /\
     timeInfo (Int t) (Int now) = "in " ++ Json.string_of_Z n ++ " hours") \/
    (86370000 <= ahead /\ 1 <= n /\
     timeInfo (Int t) (Int now) = "in " ++ Json.string_of_Z n ++ " days").
Proof.
  intros Hle. cbn zeta. unfold timeInfo, isPast, less, minus, round_div, abs.
  apply Z.ltb_ge in Hle as Hb. rewrite Hb.
  change (1000 * 60) with 60000. change (2 * 60000) with 120000.
  pose proof (round_div_bounds (t - now) 60000 ltac:(lia)) as Hq.
  change (2 * 60000) with 120000 in Hq.
  set (q := (2 * (t - now) + 60000) / 120000) in *.
  destruct (Z.ltb_spec q 60) as [H60 | H60].
  - exists q. left. split; [lia | split; [lia | reflexivity]].
  - pose proof (round_div_bounds q 60 ltac:(lia)) as Hh.
    pose proof (round_div_bounds q 1440 ltac:(lia)) as Hd.
    change (2 * 60) with 120 in *. change (2 * 1440) with 2880 in *.
    destruct (Z.ltb_spec q 1440) as [H1440 | H1440].
    + exists ((2 * q + 60) / 120). right. left.
      split; [lia | split; [lia | reflexivity]].
    + exists ((2 * q + 1440) / 2880). right. right.
      split; [lia | split; [lia | reflexivity]].
Qed.

(** X23.  The label of a row.  For a reminder in the past it counts
    minutes (0 to 59) when the reminder is at most 59.5 minutes late,
    hours (1 to 24, so "24 hours ago" is shown and "0 hours ago"
    never) up to 1439.5 minutes, and days (1 or more) beyond; for one
    ahead it counts minutes below 59.5 minutes, hours (1 to 24) below
    1439.5 minutes and days from there on.  The unit is always in the
    plural.  A reminder whose date cannot be read is not past and is
    labelled "in NaN days". *)
Theorem time_label_ranges (now : Z) :
  (forall t, t < now ->
     isPast (Int t) (Int now) = true /\
     exists n,
       (now - t <= 3570000 /\ 0 <= n < 60 /\
        timeInfo (Int t) (Int now) = Json.string_of_Z n ++ " min ago") \/
       (3570000 < now - t <= 86370000 /\ 1 <= n <= 24 /\
        timeInfo (Int t) (Int now) = Json.string_of_Z n ++ " hours ago") \/
       (86370000 < now - t /\ 1 <= n /\
        timeInfo (Int t) (Int now) = Json.string_of_Z n ++ " days ago")) /\
  (forall t, now <= t ->
     isPast (Int t) (Int now) = false /\
     exists n,
       (t - now < 3570000 /\ 0 <= n < 60 /\
        timeInfo (Int t) (Int now) = "in " ++ Json.string_of_Z n ++ " min") \/
       (3570000 <= t - now < 86370000 /\ 1 <= n <= 24 /\
        timeInfo (Int t) (Int now) = "in " ++ Json.string_of_Z n ++ " hours") \/
       (86370000 <= t - now /\ 1 <= n /\
        timeInfo (Int t) (Int now) = "in " ++ Json.string_of_Z n ++ " days")) /\
  isPast (getTime None) (Int now) = false /\
  timeInfo (getTime None) (Int now) = "in NaN days".
Proof.
  split; [ | split; [ | split; reflexivity]].
  - intros t Hlt. split; [now apply Z.ltb_lt | exact (timeInfo_past t now Hlt)].
  - intros t Hle. split; [now apply Z.ltb_ge | exact (timeInfo_ahead t now Hle)].
Qed.

End RenderProofs.

Module FormDefaultsProofs.
Import FormDefaults.

Lemma ceil_fifth_bounds (m : Z) :
  m <= ceil_fifth m * 5 < m + 5 /\ (ceil_fifth m * 5) mod 5 = 0.
Proof.
  unfold ceil_fifth.
  pose proof (Z.div_mod (- m) 5 ltac:(lia)) as Hd.
  pose proof (Z.mod_pos_bound (- m) 5 ltac:(lia)) as Hm.
  split; [lia |]. apply Z.mod_mul. lia.
Qed.

Lemma getMinutes_shift (zone t k : Z) :
  getMinutes zone (t + k * 60000) = (getMinutes zone t + k) mod 60.
Proof.
  unfold getMinutes.
  replace (t + k * 60000 + zone * 60000) with (t + zone * 60000 + k * 60000) by lia.
  rewrite Z.div_add by lia.
  rewrite Zplus_mod_idemp_l. reflexivity.
Qed.

(** X24.  The time the form proposes.  [setDefaultDateTime] moves the
    clock one hour on and then up to the next minute that is a
    multiple of five in local time (up, not to the nearest): the
    proposal lies at least one hour and less than one hour and five
    minutes ahead, on a five-minute mark, with the seconds of the
    clock still in it; when the clock is on a five-minute mark it is
    exactly one hour ahead.  [setQuickTime] moves the clock on by the
    minutes asked for, and not otherwise. *)
Theorem proposed_time_window (zone now : Z) :
  let proposed := setDefaultDateTime zone now in
  now + 3600000 <= proposed < now + 3900000 /\
  getMinutes zone proposed mod 5 = 0 /\
  proposed mod 60000 = now mod 60000 /\
  (getMinutes zone now mod 5 = 0 -> proposed = now + 3600000) /\
  (forall minutes, setQuickTime zone now minutes = now + minutes * 60000).
Proof.
  cbn zeta. unfold setDefaultDateTime, setQuickTime, setHours, setMinutes.
  replace (now + (getHours zone now + 1 - getHours zone now) * 3600000)
    with (now + 60 * 60000) by lia.
  rewrite (getMinutes_shift zone now 60).
  set (m := getMinutes zone now).
  assert (0 <= m < 60) as Hm by (apply Z.mod_pos_bound; lia).
  replace ((m + 60) mod 60) with m.
  2:{ replace (m + 60) with (m + 1 * 60) by lia. rewrite Z.mod_add by lia.
      symmetry. apply Z.mod_small. lia. }
  destruct (ceil_fifth_bounds m) as [Hc H5].
  set (c := ceil_fifth m * 5) in *.
  split; [lia |]. split; [ | split; [ | split]].
  - replace (now + 60 * 60000 + (c - m) * 60000) with (now + (60 + c - m) * 60000) by lia.
    rewrite getMinutes_shift. fold m.
    replace (m + (60 + c - m)) with (c + 1 * 60) by lia.
    rewrite Z.mod_add by lia.
    assert (c mod 60 = c \/ c mod 60 = 0) as [-> | ->]; [ | exact H5 | reflexivity].
    destruct (Z.eq_dec c 60) as [-> | Hne]; [now right | left].
    apply Z.mod_small. lia.
  - replace (now + 60 * 60000 + (c - m) * 60000) with (now + (60 + c - m) * 60000) by lia.
    apply Z.mod_add. lia.
  - intros Hm5.
    assert (c = m) as ->; [ | lia].
    pose proof (Z.div_mod m 5 ltac:(lia)) as Hd. rewrite Hm5 in Hd.
    pose proof (Z.div_mod c 5 ltac:(lia)) as Hd'. rewrite H5 in Hd'. lia.
  - intros minutes. lia.
Qed.

End FormDefaultsProofs.

Module SWLifeProofs.
Import SW SWLife.

(** *** Activation *)

Lemma caches_after_deletions {A} (deleted : string -> Settled bool)
    (storage : gmap string A) (names : list string)
    (tail : list ActivateEffect) (k : string) :
  (forall fx, In fx tail -> fx = ClientsClaim) ->
  (In k names -> fulfilled (deleted k) = true ->
   caches_after deleted storage (List.map CachesDelete names ++ tail) !! k = None) /\
  (~ In k names ->
   caches_after deleted storage (List.map CachesDelete names ++ tail) !! k = storage !! k) /\
  (fulfilled (deleted k) = false ->
   caches_after deleted storage (List.map CachesDelete names ++ tail) !! k = storage !! k).
Proof.
  intros Htail. unfold caches_after. rewrite foldl_app.
  assert (forall m : gmap string A,
            foldl (fun m fx => match fx with
                               | CachesDelete cacheName =>
                                   if fulfilled (deleted cacheName)
                                   then delete cacheName m else m
                               | ClientsClaim => m
                               end) m tail = m) as ->.
  { induction tail as [|fx tail IH]; intros m; [reflexivity |].
    cbn. rewrite (Htail fx) by now left. apply IH. intros fx' Hin. apply Htail. now right. }
  revert storage. induction names as [|n names IH]; intros storage; cbn [List.map foldl].
  - split; [intros [] | split; reflexivity].
  - destruct (IH (if fulfilled (deleted n) then delete n storage else storage))
      as (IHin & IHout & IHkept).
    destruct (decide (k = n)) as [-> | Hne].
    + split; [intros _ Hok | split; [intros Hnot; exfalso; apply Hnot; now left | intros Hno]].
      * destruct (in_dec string_dec n names) as [Hin | Hnot]; [now apply IHin |].
        rewrite IHout by exact Hnot. rewrite Hok. apply lookup_delete_eq.
      * rewrite IHkept by exact Hno. now rewrite Hno.
    + assert ((if fulfilled (deleted n) then delete n storage else storage) !! k =
              storage !! k) as Hsame.
      { destruct (fulfilled (deleted n)); [ | reflexivity].
        now rewrite lookup_delete_ne by congruence. }
      split; [ | split].
      * intros [-> | Hin]; [congruence | now apply IHin].
      * intros Hnot. rewrite IHout by (intros Hin; apply Hnot; now right). exact Hsame.
      * intros Hno. rewrite IHkept by exact Hno. exact Hsame.
Qed.

(** X25.  Activation, once the cache names are known: a deletion is
    started for exactly the caches with a name other than
    [simple-reminders-v2], and each cache whose deletion is fulfilled
    is gone; the current cache is never touched, and neither is
    anything that was not listed.  The clients are claimed exactly
    when every deletion is fulfilled, and then the promise given to
    [waitUntil] settles as the claim does; when a deletion is
    rejected no client is claimed and that promise is rejected. *)
Theorem activation_keeps_only_the_current_cache
    (names : list string) (deleted : string -> Settled bool) (claimed : Settled unit)
    {A} (storage : gmap string A) :
  let '(effects, outcome) := onactivate (Fulfilled names) deleted claimed in
  (forall name, In (CachesDelete name) effects <-> In name names /\ name <> CACHE_NAME) /\
  (In ClientsClaim effects <->
   forall name, In name names -> name <> CACHE_NAME -> fulfilled (deleted name) = true) /\
  (In ClientsClaim effects -> outcome = claimed) /\
  (~ In ClientsClaim effects -> exists error, outcome = Rejected error) /\
  caches_after deleted storage effects !! CACHE_NAME = storage !! CACHE_NAME /\
  (forall name, In name names -> name <> CACHE_NAME -> fulfilled (deleted name) = true ->
                caches_after deleted storage effects !! name = None) /\
  (forall name, ~ In name names ->
                caches_after deleted storage effects !! name = storage !! name).
Proof.
  unfold onactivate.
  set (old := List.filter (fun cacheName => negb (String.eqb cacheName CACHE_NAME)) names).
  assert (forall name, In name old <-> In name names /\ name <> CACHE_NAME) as Hold.
  { intros name. unfold old. rewrite filter_In, negb_true_iff, String.eqb_neq. tauto. }
  assert (forall tail, (forall fx, In fx tail -> fx = ClientsClaim) ->
    (forall name, In (CachesDelete name) (List.map CachesDelete old ++ tail) <->
                  In name names /\ name <> CACHE_NAME)) as Hdel.
  { intros tail Htail name. rewrite in_app_iff, in_map_iff, <- Hold. split.
    - intros [(x & [= ->] & Hx) | Hin]; [exact Hx |].
      specialize (Htail _ Hin). discriminate.
    - intros Hin. left. eauto. }
  assert (forall tail, (forall fx, In fx tail -> fx = ClientsClaim) ->
    caches_after deleted storage (List.map CachesDelete old ++ tail) !! CACHE_NAME =
      storage !! CACHE_NAME /\
    (forall name, In name names -> name <> CACHE_NAME -> fulfilled (deleted name) = true ->
       caches_after deleted storage (List.map CachesDelete old ++ tail) !! name = None) /\
    (forall name, ~ In name names ->
       caches_after deleted storage (List.map CachesDelete old ++ tail) !! name =
       storage !! name))
    as Hst.
  { intros tail Htail. repeat split.
    - destruct (caches_after_deletions deleted storage old tail CACHE_NAME Htail)
        as (_ & Hout & _).
      apply Hout. rewrite Hold. tauto.
    - intros name Hin Hne Hok.
      destruct (caches_after_deletions deleted storage old tail name Htail)
        as (Hgone & _ & _).
      apply Hgone; [ | exact Hok]. rewrite Hold. tauto.
    - intros name Hnot.
      destruct (caches_after_deletions deleted storage old tail name Htail)
        as (_ & Hout & _).
      apply Hout. rewrite Hold. tauto. }
  destruct (List.find (fun cacheName => negb (fulfilled (deleted cacheName))) old)
    as [failed|] eqn:Ef.
  - apply find_some in Ef as [Hin Hfail]. apply negb_true_iff in Hfail.
    specialize (Hdel [] ltac:(intros ? [])). specialize (Hst [] ltac:(intros ? [])).
    rewrite app_nil_r in Hdel, Hst.
    split; [exact Hdel |].
    assert (~ In ClientsClaim (List.map CachesDelete old)) as Hno.
    { rewrite in_map_iff. intros (x & [=] & _). }
    split; [ | split; [ | split; [ | exact Hst]]].
    + split; [contradiction |]. intros Hall. apply Hold in Hin as [Hin Hne].
      rewrite (Hall failed Hin Hne) in Hfail. discriminate.
    + contradiction.
    + intros _. destruct (deleted failed) as [v | error]; [discriminate Hfail | eauto].
  - specialize (Hdel [ClientsClaim] ltac:(intros ? [<- | []]; reflexivity)).
    specialize (Hst [ClientsClaim] ltac:(intros ? [<- | []]; reflexivity)).
    split; [exact Hdel |].
    assert (In ClientsClaim (List.map CachesDelete old ++ [ClientsClaim])) as Hyes.
    { apply in_app_iff. right. now left. }
    split; [ | split; [ | split; [ | exact Hst]]].
    + split; [ | auto]. intros _ name Hin Hne.
      pose proof (find_none _ _ Ef name (proj2 (Hold name) (conj Hin Hne))) as Hf.
      now apply negb_false_iff in Hf.
    + reflexivity.
    + contradiction.
Qed.

(** *** Clicks *)

Lemma find_first {A} (p : A -> bool) (l : list A) (x : A) :
  List.find p l = Some x ->
  exists before after,
    l = (before ++ x :: after)%list /\ p x = true /\
    Forall (fun y => p y = false) before.
Proof.
  induction l as [|y l IH]; [discriminate |]. cbn [List.find].
  destruct (p y) eqn:E.
  - intros [= ->]. exists [], l. repeat split; [exact E | constructor].
  - intros Hf. destruct (IH Hf) as (before & after & -> & Hx & Hb).
    exists (y :: before), after. repeat split; [exact Hx | now constructor].
Qed.

Lemma find_nothing {A} (p : A -> bool) (l : list A) :
  List.find p l = None -> Forall (fun y => p y = false) l.
Proof.
  induction l as [|y l IH]; [constructor |]. cbn [List.find].
  destruct (p y) eqn:E; [discriminate |]. intros Hf. constructor; auto.
Qed.

Lemma action_or_default_not_empty (action : string) : action_or_default action <> "".
Proof.
  unfold action_or_default. destruct (String.eqb_spec action ""); [discriminate | assumption].
Qed.

(** X27.  A click on a notification closes it first, whatever the
    action.  The action [dismiss] does nothing more.  Otherwise at
    most one window is focused or opened, never both: the first
    window, in the order [matchAll] lists them, whose URL contains the
    worker's origin and that can take focus is focused; a new window
    on [./] is opened only when no listed window qualifies.  Every
    message posted is of type [NOTIFICATION_CLICKED], carries the
    action or [default] for the empty one, and is of a type the page's
    listener does not act on. *)
Theorem click_focuses_or_opens (e : ClickEvent) :
  exists rest,
    onnotificationclick e = NotificationClose :: rest /\
    (click_action e = "dismiss" -> rest = []) /\
    (forall c, In (ClientFocus c) rest ->
       (forall url, ~ In (OpenWindow url) rest) /\
       exists before client after,
         matched e = Fulfilled (before ++ client :: after)%list /\
         client_id client = c /\
         can_take_focus (click_origin e) client = true /\
         Forall (fun x => can_take_focus (click_origin e) x = false) before) /\
    (forall url, In (OpenWindow url) rest ->
       url = "./" /\
       exists clientList,
         matched e = Fulfilled clientList /\
         Forall (fun x => can_take_focus (click_origin e) x = false) clientList) /\
    (length (List.filter
               (fun fx => match fx with
                          | ClientFocus _ | OpenWindow _ => true
                          | _ => false
                          end) rest) <= 1)%nat /\
    (forall c type action after,
       In (ClientPostMessage c type action after) rest ->
       type = "NOTIFICATION_CLICKED" /\
       action = action_or_default (click_action e) /\ action <> "" /\
       page_recognises type = false).
Proof.
  unfold onnotificationclick. eexists. split; [reflexivity |].
  pose proof (action_or_default_not_empty (click_action e)) as Hact.
  destruct (String.eqb_spec (click_action e) "dismiss") as [Hd | Hd].
  { repeat split; try (intros; contradiction); try (cbn; lia).
    all: intros; match goal with H : In _ [] |- _ => destruct H end. }
  split; [contradiction |].
  destruct (matched e) as [clientList | err].
  2:{ repeat split; try (cbn; lia).
      all: intros; match goal with H : In _ [] |- _ => destruct H end. }
  destruct (List.find (can_take_focus (click_origin e)) clientList) as [client|] eqn:Ef.
  - apply find_first in Ef as (before & after & -> & Hc & Hb).
    split; [ | split; [ | split]].
    + intros c Hin. split.
      * intros url [[=] | Hu]. destruct (focused client); [destruct Hu as [[=] | []] | destruct Hu].
      * destruct Hin as [[= <-] | Hin]; [eauto 10 |].
        destruct (focused client); [destruct Hin as [[=] | []] | destruct Hin].
    + intros url [[=] | Hu].
      destruct (focused client); [destruct Hu as [[=] | []] | destruct Hu].
    + destruct (focused client); cbn; lia.
    + intros c type action delay [[=] | Hin].
      destruct (focused client); [ | destruct Hin].
      destruct Hin as [[= <- <- <- <-] | []]. auto.
  - apply find_nothing in Ef.
    destruct (openWindow e) as [opened|].
    2:{ repeat split; try (cbn; lia).
        all: intros; match goal with H : In _ [] |- _ => destruct H end. }
    split; [ | split; [ | split]].
    + intros c [[=] | Hin]. destruct opened as [[w|]|]; cbn in Hin; intuition discriminate.
    + intros url [[= <-] | Hin]; [eauto |].
      destruct opened as [[w|]|]; cbn in Hin; intuition discriminate.
    + destruct opened as [[w|]|]; cbn; lia.
    + intros c type action delay [[=] | Hin].
      destruct opened as [[w|]|]; cbn in Hin; try contradiction.
      destruct Hin as [[= <- <- <- <-] | []]. auto.
Qed.

(** *** A changed subscription *)

(** X28.  A changed push subscription.  With no old subscription the
    handler throws before it asks for anything.  With one, it
    re-subscribes with the old application server key, and when that
    succeeds it makes one request, the very [POST] to [/subscribe] of
    the server that the page's own setup makes for the same
    subscription; when it fails nothing is requested.  The request is
    one of the four the page makes, so the fetch rule lets it
    through. *)
Theorem resubscription_reports_like_the_page `{Browser}
    (e : SubscriptionChange) (s : State) :
  (oldSubscription e = None ->
   exists message, onpushsubscriptionchange e = Throw message) /\
  (forall applicationServerKey,
     oldSubscription e = Some applicationServerKey ->
     exists requests,
       onpushsubscriptionchange e = Val (FxSubscribe applicationServerKey :: requests) /\
       (forall newSubscription,
          resubscribed e = Fulfilled newSubscription ->
          requests =
            [FxFetch "POST" (serverUrl ++ "/subscribe") (Some newSubscription)] /\
          effects (snd (subscribe_settled (Fulfilled newSubscription) s)) =
            (effects s ++ requests)%list) /\
       (forall error, resubscribed e = Rejected error -> requests = []) /\
       Forall server_request requests).
Proof.
  unfold onpushsubscriptionchange. split.
  - intros ->. eauto.
  - intros key ->. eexists. split; [reflexivity |].
    destruct (resubscribed e) as [sub | err].
    + split; [ | split; [discriminate | ]].
      * intros ? [= <-]. split; [reflexivity |]. destruct s; reflexivity.
      * constructor; [ | constructor]. cbn. right. right. left. eauto.
    + split; [discriminate | split; [reflexivity | constructor]].
Qed.

(** *** Push: the payload, the platform and the windows *)

Lemma spread_object_lookup (m : gmap string json) (props : list (string * json))
    (k : string) :
  spread m (JObj props) !! k =
  match get_prop k props with
  | Some v => Some v
  | None => m !! k
  end.
Proof.
  unfold spread. cbn [own_props].
  revert m. induction props as [|[k0 v0] props IH]; intros m; [reflexivity |].
  cbn [foldl get_prop fst snd]. rewrite IH.
  destruct (get_prop k props); [reflexivity |].
  destruct (String.eqb_spec k0 k) as [-> | Hne].
  - apply lookup_insert_eq.
  - now rewrite lookup_insert_ne.
Qed.

Lemma spread_keeps (m : gmap string json) (v : json) (k : string) :
  is_Some (m !! k) -> is_Some (spread m v !! k).
Proof.
  unfold spread. generalize (own_props v). intros props. revert m.
  induction props as [|[k0 v0] props IH]; intros m Hk; [exact Hk |].
  cbn [foldl]. apply IH. cbn.
  destruct (decide (k0 = k)) as [-> | Hne].
  - rewrite lookup_insert_eq. eauto.
  - now rewrite lookup_insert_ne.
Qed.

Lemma defaults_no_actions (o : string) (now : Z) : defaults o now !! "actions" = None.
Proof. unfold defaults. by simplify_map_eq. Qed.

(** X26.  The push handler's platform branch and its messages.  On an
    iOS user agent the notification has no [actions], the short
    vibration and [requireInteraction: true], whatever the payload
    said; elsewhere [actions] are the two buttons, whatever the
    payload said, and the other two are the payload's or the
    defaults'.  Every default property is still present in what is
    shown.  An object payload decides each property it names (the
    last occurrence of a name counts) and leaves the others at their
    defaults; a payload that is [null], a boolean or a number changes
    nothing.  When the notification has been shown each open window
    is posted one [PUSH_RECEIVED] message carrying what was shown, in
    the order the windows were found; when showing fails none is.  No
    message is of a type the page's listener acts on. *)
Theorem push_platform_and_windows (e : PushEvent) :
  let base := defaults (origin e) (clock e) in
  let merged := with_payload base (data e) in
  let shownData := notification_of e in
  (isIOS (userAgent e) = true ->
   shownData !! "actions" = None /\
   shownData !! "vibrate" = Some short_vibration /\
   shownData !! "requireInteraction" = Some (JBool true)) /\
  (isIOS (userAgent e) = false ->
   shownData !! "actions" = Some action_buttons /\
   shownData !! "vibrate" = merged !! "vibrate" /\
   shownData !! "requireInteraction" = merged !! "requireInteraction") /\
  (forall k, is_Some (base !! k) -> is_Some (shownData !! k)) /\
  (forall d props k,
     data e = Some d -> data_json d = Fulfilled (JObj props) ->
     merged !! k = match get_prop k props with
                   | Some v => Some v
                   | None => base !! k
                   end) /\
  (forall d v,
     data e = Some d -> data_json d = Fulfilled v ->
     v = JNull \/ (exists b, v = JBool b) \/ (exists n, v = JNum n) ->
     merged = base) /\
  (forall error, shown e = Rejected error ->
     onpush e = [ShowNotification (shownData !! "title") shownData]) /\
  (forall ok, shown e = Fulfilled ok ->
     onpush e =
     ShowNotification (shownData !! "title") shownData ::
     List.map (fun client => PostMessage client "PUSH_RECEIVED" shownData) (clients e)) /\
  (forall client type notification,
     In (PostMessage client type notification) (onpush e) ->
     page_recognises type = false).
Proof.
  cbn zeta. unfold notification_of.
  split; [ | split; [ | split; [ | split; [ | split; [ | split; [ | split]]]]]].
  - intros Hios. unfold for_platform. rewrite Hios.
    repeat split; by simplify_map_eq.
  - intros Hios. unfold for_platform. rewrite Hios.
    repeat split; by simplify_map_eq.
  - intros k Hk.
    assert (k <> "actions") as Hka.
    { intros ->. rewrite defaults_no_actions in Hk. now destruct Hk. }
    assert (is_Some (with_payload (defaults (origin e) (clock e)) (data e) !! k)) as Hm.
    { unfold with_payload. destruct (data e) as [d|]; [ | exact Hk].
      destruct (data_json d).
      - now apply spread_keeps.
      - destruct (decide ("body" = k)) as [<- | Hne].
        + rewrite lookup_insert_eq. eauto.
        + now rewrite lookup_insert_ne. }
    unfold for_platform. destruct (isIOS (userAgent e)).
    + destruct (decide ("requireInteraction" = k)) as [<- | H1];
        [rewrite lookup_insert_eq; eauto | rewrite lookup_insert_ne by exact H1].
      destruct (decide ("vibrate" = k)) as [<- | H2];
        [rewrite lookup_insert_eq; eauto | rewrite lookup_insert_ne by exact H2].
      now rewrite lookup_delete_ne by congruence.
    + now rewrite lookup_insert_ne by congruence.
  - intros d props k Hd Hj. unfold with_payload. rewrite Hd, Hj.
    apply spread_object_lookup.
  - intros d v Hd Hj Hv. unfold with_payload. rewrite Hd, Hj.
    destruct Hv as [-> | [[b ->] | [n ->]]]; reflexivity.
  - intros err Hs. unfold onpush, notification_of. now rewrite Hs.
  - intros ok Hs. unfold onpush, notification_of. now rewrite Hs.
  - intros c t n. unfold onpush. intros [[=] | Hin].
    destruct (shown e); [ | destruct Hin].
    apply in_map_iff in Hin as (c' & [= <- <- <-] & _). reflexivity.
Qed.

End SWLifeProofs.
(** *** The proposal as text *)

Module IsoDateProofs.
Import IsoDate SampleBrowser FormDefaults.

Lemma holds_on_sound (depth : nat) (p : Z -> bool) (lo len : Z) :
  holds_on depth p lo len = true ->
  forall z, lo <= z < lo + len -> p z = true.
Proof.
  revert lo len. induction depth as [|depth IH]; intros lo len Hh z Hz; cbn in Hh.
  - destruct (Z.leb_spec len 0); [lia |].
    apply andb_prop in Hh as [H1 Hp]. apply Z.eqb_eq in H1.
    now replace z with lo by lia.
  - destruct (Z.leb_spec len 0); [lia |].
    destruct (Z.eqb_spec len 1).
    + now replace z with lo by lia.
    + apply andb_prop in Hh as [Hl Hr].
      destruct (Z_lt_le_dec z (lo + len / 2)).
      * apply (IH _ _ Hl). lia.
      * apply (IH _ _ Hr). lia.
Qed.

Lemma cycle_checked : holds_on 18 cycle_ok 0 146097 = true.
Proof. vm_compute. reflexivity. Qed.

Lemma two_digits_checked : holds_on 8 (reads_back two_digits) 0 100 = true.
Proof. vm_compute. reflexivity. Qed.

Lemma four_digits_checked : holds_on 15 (reads_back four_digits) 0 10000 = true.
Proof. vm_compute. reflexivity. Qed.

Lemma two_digits_value (n : Z) :
  0 <= n <= 99 -> decimal_value (two_digits n) 0 = Some n.
Proof.
  intros Hn. pose proof (holds_on_sound _ _ _ _ two_digits_checked n ltac:(lia)) as Hc.
  unfold reads_back in Hc. destruct (decimal_value (two_digits n) 0); [ | discriminate].
  apply Z.eqb_eq in Hc. now subst.
Qed.

Lemma four_digits_value (n : Z) :
  0 <= n <= 9999 -> decimal_value (four_digits n) 0 = Some n.
Proof.
  intros Hn. pose proof (holds_on_sound _ _ _ _ four_digits_checked n ltac:(lia)) as Hc.
  unfold reads_back in Hc. destruct (decimal_value (four_digits n) 0); [ | discriminate].
  apply Z.eqb_eq in Hc. now subst.
Qed.

Lemma civil_round_trip (days : Z) :
  0 <= days < 2932897 ->
  let '(y, m, d) := civil_from_days days in
  days_from_civil y m d = days /\ 0 <= y <= 9999 /\ 1 <= m <= 12 /\ 1 <= d <= 31.
Proof.
  intros Hd. unfold civil_from_days.
  set (z := days + 719468).
  set (era := z / 146097).
  set (doe := z - era * 146097).
  assert (0 <= doe < 146097 /\ 4 <= era <= 24 /\ (era = 24 -> doe < 146037)) as (Hdoe & Hera & Hlast).
  { subst doe era z. pose proof (Z.div_mod (days + 719468) 146097 ltac:(lia)).
    pose proof (Z.mod_pos_bound (days + 719468) 146097 ltac:(lia)).
    assert (4 <= (days + 719468) / 146097 < 25).
    { split; [apply Z.div_le_lower_bound | apply Z.div_lt_upper_bound]; lia. }
    lia. }
  pose proof (holds_on_sound _ _ _ _ cycle_checked doe ltac:(lia)) as Hc.
  unfold cycle_ok, cycle_date in Hc. cbv zeta in Hc |- *.
  set (yoe := (doe - doe / 1460 + doe / 36524 - doe / 146096) / 365) in *.
  set (doy := doe - (365 * yoe + yoe / 4 - yoe / 100)) in *.
  set (mp := (5 * doy + 2) / 153) in *.
  set (d := doy - (153 * mp + 2) / 5 + 1) in *.
  set (m := if (mp <? 10)%Z then mp + 3 else mp - 9) in *.
  repeat (apply andb_prop in Hc as [Hc ?]).
  repeat match goal with
         | H : (_ <=? _)%Z = true |- _ => apply Z.leb_le in H
         | H : (_ =? _)%Z = true |- _ => apply Z.eqb_eq in H
         end.
  match goal with H : implb _ _ = true |- _ => rename H into Himp end.
  match goal with H : cycle_day yoe m d = doe |- _ => rename H into Hday end.
  unfold cycle_day in Hday. cbv zeta in Hday.
  assert (days_from_civil (yoe + era * 400 + (if (m <=? 2)%Z then 1 else 0)) m d = days) as Hback.
  { unfold days_from_civil. cbv zeta.
    assert ((if (m <=? 2)%Z
             then yoe + era * 400 + (if (m <=? 2)%Z then 1 else 0) - 1
             else yoe + era * 400 + (if (m <=? 2)%Z then 1 else 0)) = yoe + era * 400) as ->.
    { destruct (m <=? 2)%Z; lia. }
    assert ((yoe + era * 400) / 400 = era) as ->.
    { rewrite Z.div_add by lia. rewrite Z.div_small by lia. lia. }
    replace (yoe + era * 400 - era * 400) with yoe by lia.
    rewrite Hday. subst doe z. lia. }
  split; [exact Hback |].
  split; [ | lia].
  destruct (Z.leb_spec m 2) as [Hm | Hm]; [ | lia].
  destruct (Z.eqb_spec yoe 399) as [Hy | Hy]; [ | lia].
  cbn in Himp. apply Z.leb_le in Himp. lia.
Qed.

Lemma fields_of_text (y m d hh mm : Z) :
  let s := four_digits y ++ "-" ++ two_digits m ++ "-" ++ two_digits d ++
           "T" ++ two_digits hh ++ ":" ++ two_digits mm in
  field 0 4 s = decimal_value (four_digits y) 0 /\
  field 5 2 s = decimal_value (two_digits m) 0 /\
  field 8 2 s = decimal_value (two_digits d) 0 /\
  field 11 2 s = decimal_value (two_digits hh) 0 /\
  field 14 2 s = decimal_value (two_digits mm) 0 /\
  (String.length s =? 16)%nat && separator 4 "-" s && separator 7 "-" s &&
  separator 10 "T" s && separator 13 ":" s = true.
Proof. repeat split; reflexivity. Qed.

Lemma time_of_day (t : Z) :
  let ms := t mod 86400000 in
  0 <= ms / 3600000 <= 23 /\ 0 <= ms / 60000 mod 60 <= 59 /\
  ((t / 86400000 * 24 + ms / 3600000) * 60 + ms / 60000 mod 60) * 60000 = t - t mod 60000.
Proof.
  cbv zeta. Z.div_mod_to_equations. lia.
Qed.

Lemma toISOString_read_back (t : Z) :
  0 <= t < 253402300800000 ->
  parse_datetime_local (toISOString_16 t) = Some (t - t mod 60000).
Proof.
  intros Ht. unfold toISOString_16.
  assert (0 <= t / 86400000 < 2932897) as Hdays.
  { split; [apply Z.div_pos | apply Z.div_lt_upper_bound]; lia. }
  pose proof (civil_round_trip _ Hdays) as Hc.
  destruct (civil_from_days (t / 86400000)) as [[y m] d].
  destruct Hc as (Hback & Hy & Hm & Hd).
  destruct (time_of_day t) as (Hhh & Hmm & Htime).
  cbv zeta in Hhh, Hmm, Htime.
  set (hh := t mod 86400000 / 3600000) in *.
  set (mm := t mod 86400000 / 60000 mod 60) in *.
  destruct (fields_of_text y m d hh mm) as (F1 & F2 & F3 & F4 & F5 & Fs).
  cbv zeta in F1, F2, F3, F4, F5, Fs.
  unfold parse_datetime_local.
  rewrite F1, F2, F3, F4, F5, Fs.
  rewrite four_digits_value by lia. rewrite !two_digits_value by lia.
  cbn [mbind option_bind].
  rewrite (proj2 (Z.leb_le 1 m)), (proj2 (Z.leb_le m 12)), (proj2 (Z.leb_le 1 d)),
    (proj2 (Z.leb_le d 31)), (proj2 (Z.leb_le hh 23)), (proj2 (Z.leb_le mm 59)) by lia.
  cbn [andb]. rewrite Hback. f_equal. exact Htime.
Qed.

Lemma setDefaultDateTime_window (zone now : Z) :
  now + 3600000 <= setDefaultDateTime zone now < now + 3900000.
Proof.
  unfold setDefaultDateTime, setHours, setMinutes.
  replace (now + (getHours zone now + 1 - getHours zone now) * 3600000)
    with (now + 60 * 60000) by lia.
  rewrite (FormDefaultsProofs.getMinutes_shift zone now 60).
  set (m := getMinutes zone now).
  assert (0 <= m < 60) as Hm by (apply Z.mod_pos_bound; lia).
  replace ((m + 60) mod 60) with m.
  2:{ replace (m + 60) with (m + 1 * 60) by lia. rewrite Z.mod_add by lia.
      symmetry. apply Z.mod_small. lia. }
  destruct (FormDefaultsProofs.ceil_fifth_bounds m) as [Hc _]. lia.
Qed.

Lemma toISOString_16_not_empty (t : Z) : String.eqb (toISOString_16 t) "" = false.
Proof.
  unfold toISOString_16. destruct (civil_from_days (t / 86400000)) as [[y m] d].
  reflexivity.
Qed.

Lemma read_in_zone (zone t : Z) :
  0 <= t < 253402300800000 ->
  @Date_parse (in_zone zone) (toISOString_16 t) = Some (t - t mod 60000 - zone * 60000).
Proof.
  intros Ht. unfold in_zone. cbn [Date_parse].
  rewrite (toISOString_read_back t Ht). reflexivity.
Qed.


End IsoDateProofs.


(** ** The statements at work on concrete runs *)

#[local] Existing Instance SampleBrowser.utc.


Lemma at_most_one_sync_in_flight_witness :
  syncs_in_flight Samples.syncing = 1%nat /\
  syncWithServer NotAwaited Samples.syncing =
  (Val Done, Samples.syncing).
Proof.
  destruct (at_most_one_sync_in_flight
              [EvDOMContentLoaded true;
               EvRegisterSettled 0 (Fulfilled tt);
               EvFetchSettled 0 (Fulfilled 200);
               EvJsonSettled 0 (Fulfilled (JObj [("message", JStr "ok")]))]
              ∅ granted NotAwaited) as (_ & Hiff & Hnoop).
  split.
  - apply Hiff. reflexivity.
  - apply Hnoop. reflexivity.
Defined.

Lemma retention_sweep_boundary_witness :
  let kept := reminders (snd (cleanupPastReminders
                                Samples.sweep_time Samples.three_reminders)) in
  ~ In Samples.rent kept /\ In Samples.dentist kept /\ In Samples.pills kept.
Proof.
  cbn zeta. split; [ | split].
  - destruct (retention_sweep_boundary Samples.sweep_time
                Samples.three_reminders Samples.rent) as (Hold & _ & _).
    + simpl. auto.
    + apply (Hold eq_refl 1710061140000%Z); [reflexivity | reflexivity].
  - destruct (retention_sweep_boundary Samples.sweep_time
                Samples.three_reminders Samples.dentist) as (_ & Hedge & _).
    + simpl. auto.
    + apply (Hedge eq_refl 1710061200000%Z); reflexivity.
  - destruct (retention_sweep_boundary Samples.sweep_time
                Samples.three_reminders Samples.pills) as (_ & _ & Hrec).
    + simpl. auto.
    + apply Hrec. discriminate.
Defined.

Lemma setup_aborts_keep_flag_unset_witness :
  aborted_with "Service Worker not available" (initial ∅ granted)
    (snd (enableNotifications (initial ∅ granted))) /\
  aborted_with "Server not connected. Please wait for connection."
    (set_swRegistration true (initial ∅ granted))
    (snd (enableNotifications
            (set_swRegistration true (initial ∅ granted)))).
Proof.
  split.
  - destruct (setup_aborts_keep_flag_unset (initial ∅ granted))
      as (Hsw & _).
    apply Hsw. reflexivity.
  - destruct (setup_aborts_keep_flag_unset
                (set_swRegistration true (initial ∅ granted)))
      as (_ & _ & _ & _ & Hoff & _).
    apply Hoff; reflexivity.
Defined.

Lemma sync_failure_is_contained_witness :
  let s' := step Samples.syncing
                 (EvFetchSettled 0 (Fulfilled 503)) in
  isOnline s' = false /\
  reminders s' = reminders Samples.syncing /\
  localStorage s' = localStorage Samples.syncing /\
  effects s' = effects Samples.syncing.
Proof.
  cbn zeta.
  destruct (sync_failure_is_contained Samples.syncing 0
              (AwaitedByConnect FromStartup) (Fulfilled 503))
    as (_ & _ & Hon & _ & Hrs & Hls & _ & Hfx & _).
  - reflexivity.
  - intros status [= <-]. reflexivity.
  - auto.
Defined.

Lemma push_payload_over_defaults_witness :
  let e := SW.mkPushEvent "https://reminders.example" "Mozilla/5.0 (X11; Linux x86_64)"
             1710061200000
             (Some (SW.mkPushMessageData
                      (Fulfilled (JObj [("body", JStr "Take medicine")]))
                      "{}"))
             (Fulfilled tt) [] in
  SW.notification_of e !! "title" = Some SW.default_title /\
  SW.notification_of e !! "body" = Some (JStr "Take medicine").
Proof.
  cbn zeta.
  match goal with |- context [SW.notification_of ?e] =>
    destruct (SWProofs.push_payload_over_defaults e) as (_ & _ & _ & _ & Hbody & _)
  end.
  apply (Hbody _ eq_refl eq_refl).
Defined.

Lemma fetch_rule_witness :
  SW.onfetch (SW.mkPlatform (fun _ => Fulfilled None) (fun _ => Rejected "Failed to fetch"))
             "https://192.168.0.147:3001/sync-reminders" = SW.NotIntercepted /\
  SW.onfetch (SW.mkPlatform (fun _ => Fulfilled None) (fun _ => Rejected "Failed to fetch"))
             "https://reminders.example/app.js" =
  SW.RespondWith (Fulfilled (SW.mkResponse 408 "Network error")).
Proof.
  split.
  - apply (SWProofs.fetch_rule _ "https://192.168.0.147:3001/sync-reminders").
    reflexivity.
  - destruct (SWProofs.fetch_rule
                (SW.mkPlatform (fun _ => Fulfilled None) (fun _ => Rejected "Failed to fetch"))
                "https://reminders.example/app.js") as (_ & _ & Hother).
    destruct (Hother eq_refl) as (_ & _ & Hfail & _).
    apply (Hfail "Failed to fetch"); reflexivity.
Defined.


Lemma absent_id_changes_nothing_witness :
  deleteReminder 5 true Samples.three_reminders =
  (Val tt, Samples.three_reminders) /\
  reminders (snd (saveEdit "2024-04-01T10:00" "new text" "daily"
                    "2024-03-10T09:00:00.000Z" Samples.three_reminders)) =
  reminders Samples.three_reminders.
Proof.
  destruct (absent_id_changes_nothing Samples.three_reminders)
    as (Hdel & Hsave).
  split.
  - apply Hdel. simpl. intros r [<- | [<- | [<- | []]]]; discriminate.
  - apply Hsave. simpl. intros r [<- | [<- | [<- | []]]]; discriminate.
Defined.

(** Two scenarios of the specification, run from page load. *)

(** A reminder created while offline is stored locally and nothing is
    requested; when a later probe succeeds, one request to
    [/sync-reminders] carries the whole local set. *)
Example offline_creation_then_reconnect :
  let call_bob :=
    EvAddReminder "2024-03-10T10:00" "call Bob" "once"
      {| add_now := 1710061200000; add_anyway := true;
         add_Date_now := 1710061200000;
         add_created := "2024-03-10T09:00:00.000Z" |} in
  let offline :=
    run [EvDOMContentLoaded true;
         EvRegisterSettled 0 (Fulfilled tt);
         EvFetchSettled 0 (Rejected "Failed to fetch");
         call_bob]
        (initial ∅ granted) in
  let online :=
    run [EvRetryTimer;
         EvFetchSettled 0 (Fulfilled 200);
         EvJsonSettled 0 (Fulfilled (JObj [("message", JStr "ok")]))]
        offline in
  isOnline offline = false /\
  List.map note (reminders offline) = ["call Bob"] /\
  localStorage offline !! "simple_reminders" = Some (Json.stringify (reminders offline)) /\
  effects offline = [FxRegister "./service-worker.js"; FxFetch "GET" serverUrl None] /\
  isOnline online = true /\
  effects online =
    (effects offline ++
     [FxFetch "GET" serverUrl None;
      FxFetch "POST" (serverUrl ++ "/sync-reminders")
        (Some (Json.stringify_sync_body (reminders offline)))])%list.
Proof. vm_compute. repeat split; reflexivity. Qed.

(** A reminder deleted while offline is gone at once, from memory and
    from the store, and no request is made. *)
Example offline_deletion :
  let before := set_reminders [Samples.rent; Samples.pills] (initial ∅ default) in
  let after := step before (EvDeleteReminder (id Samples.rent) true) in
  reminders after = [Samples.pills] /\
  localStorage after !! "simple_reminders" = Some (Json.stringify [Samples.pills]) /\
  pending after = [] /\
  effects after =
    [FxConfirm ("Delete reminder: " ++
                String Json.dquote ("pay rent" ++ String Json.dquote "?"))].
Proof. vm_compute. repeat split; reflexivity. Qed.

(** The further properties at work on concrete runs. *)



Lemma load_never_throws_witness :
  let s := set_reminders [Samples.rent]
             (initial (<["simple_reminders" := "<html>"]> ∅) default) in
  reminders (snd (loadLocalReminders s)) = [] /\
  localStorage (snd (loadLocalReminders s)) !! "simple_reminders" = Some "<html>".
Proof.
  cbn zeta.
  destruct (load_never_throws
              (set_reminders [Samples.rent]
                 (initial (<["simple_reminders" := "<html>"]> ∅) default)))
    as (_ & Hframe & _ & _ & Hcorrupt & _).
  split.
  - apply (Hcorrupt "<"%char "html>"); reflexivity.
  - rewrite Hframe. reflexivity.
Defined.

Lemma sync_answer_releases_the_guard_witness :
  let s := step Samples.syncing (EvFetchSettled 0 (Fulfilled 200)) in
  let s' := step s (EvJsonSettled 0 (Fulfilled JNull)) in
  syncInProgress s' = false /\ isOnline s' = false /\
  statusEl (dom s') = Some (MsgSyncFailed, st_offline).
Proof.
  cbn zeta.
  destruct (sync_answer_releases_the_guard
              (step Samples.syncing (EvFetchSettled 0 (Fulfilled 200))) 0
              (AwaitedByConnect FromStartup) (Fulfilled JNull))
    as (_ & Hbusy & _ & _ & _ & _ & _ & Hnull); [reflexivity |].
  destruct Hnull as [Hon Hst]; [now left |].
  split; [exact Hbusy | split; [exact Hon | exact Hst]].
Defined.

Lemma sync_request_carries_the_list_witness :
  let s := set_isOnline true Samples.three_reminders in
  effects (snd (syncWithServer NotAwaited s)) =
    [FxFetch "POST" (serverUrl ++ "/sync-reminders")
       (Some (Json.stringify_sync_body [Samples.rent; Samples.dentist; Samples.pills]))] /\
  syncWithServer NotAwaited Samples.three_reminders = (Val Done, Samples.three_reminders).
Proof.
  cbn zeta. split.
  - destruct (sync_request_carries_the_list NotAwaited
                (set_isOnline true Samples.three_reminders)) as (_ & Hon).
    destruct (Hon eq_refl eq_refl) as (Hcall & _).
    rewrite Hcall. reflexivity.
  - destruct (sync_request_carries_the_list NotAwaited Samples.three_reminders)
      as (Hoff & _).
    apply Hoff. reflexivity.
Defined.

Lemma syncing_banner_means_syncing_witness :
  syncInProgress Samples.syncing = true /\ syncs_in_flight Samples.syncing = 1%nat.
Proof.
  destruct (syncing_banner_means_syncing
              [EvDOMContentLoaded true;
               EvRegisterSettled 0 (Fulfilled tt);
               EvFetchSettled 0 (Fulfilled 200);
               EvJsonSettled 0 (Fulfilled (JObj [("message", JStr "ok")]))]
              ∅ granted MsgSyncing) as (_ & Hbusy & Hone); [reflexivity |].
  split; [exact Hbusy | exact Hone].
Defined.

Lemma page_requests_pass_the_worker_witness :
  SW.onfetch (SW.mkPlatform (fun _ => Fulfilled None) (fun _ => Rejected "Failed to fetch"))
             (serverUrl ++ "/") = SW.NotIntercepted /\
  SW.onfetch (SW.mkPlatform (fun _ => Fulfilled None) (fun _ => Rejected "Failed to fetch"))
             ((serverUrl ++ "/sync-reminders") ++ "") = SW.NotIntercepted.
Proof.
  split.
  - destruct (page_requests_pass_the_worker
                [EvDOMContentLoaded true;
                 EvRegisterSettled 0 (Fulfilled tt);
                 EvFetchSettled 0 (Fulfilled 200);
                 EvJsonSettled 0 (Fulfilled (JObj [("message", JStr "ok")]))]
                ∅ granted "GET" serverUrl None) as (_ & Hpass).
    + vm_compute. right. left. reflexivity.
    + apply Hpass.
  - destruct (page_requests_pass_the_worker
                [EvDOMContentLoaded true;
                 EvRegisterSettled 0 (Fulfilled tt);
                 EvFetchSettled 0 (Fulfilled 200);
                 EvJsonSettled 0 (Fulfilled (JObj [("message", JStr "ok")]))]
                ∅ granted "POST" (serverUrl ++ "/sync-reminders")
                (Some (Json.stringify_sync_body []))) as (_ & Hpass).
    + vm_compute. right. right. left. reflexivity.
    + apply Hpass.
Defined.




Lemma edit_then_cancel_changes_nothing_witness :
  let s := set_editingId None Samples.three_reminders in
  editingId (snd (editReminder (id Samples.pills) s)) = Some (id Samples.pills) /\
  snd (cancelEdit (snd (editReminder (id Samples.pills) s))) = s.
Proof.
  cbn zeta.
  destruct (edit_then_cancel_changes_nothing
              (set_editingId None Samples.three_reminders) (id Samples.pills))
    as (Hedit & Hcancel & _).
  - exists Samples.pills. split; [right; right; left; reflexivity | reflexivity].
  - split; [rewrite Hedit; reflexivity | apply Hcancel; reflexivity].
Defined.



Lemma time_label_ranges_witness :
  Render.isPast (Render.Int 0) (Render.Int 3600000) = true /\
  Render.isPast (Render.Int 3600000) (Render.Int 0) = false.
Proof.
  destruct (RenderProofs.time_label_ranges 3600000) as (Hpast & _).
  destruct (RenderProofs.time_label_ranges 0) as (_ & Hahead & _).
  split.
  - apply (Hpast 0). lia.
  - apply (Hahead 3600000). lia.
Defined.

Lemma resubscription_reports_like_the_page_witness :
  SWLife.onpushsubscriptionchange
    (SWLife.mkSubscriptionChange (Some "key") (Fulfilled "{}")) =
  Val [FxSubscribe "key"; FxFetch "POST" (serverUrl ++ "/subscribe") (Some "{}")].
Proof.
  destruct (SWLifeProofs.resubscription_reports_like_the_page
              (SWLife.mkSubscriptionChange (Some "key") (Fulfilled "{}"))
              (initial ∅ granted)) as (_ & Hold).
  destruct (Hold "key" eq_refl) as (requests & Hcall & Hok & _).
  destruct (Hok "{}" eq_refl) as (-> & _).
  exact Hcall.
Defined.

Lemma keyboard_follows_the_edit_session_witness :
  let forms :=
    mkForms "2030-01-01T10:00" "call Bob" "once" "" "" "once" "2024-03-10T09:00:00.000Z"
      {| add_now := 1710061200000; add_anyway := true;
         add_Date_now := 1710061200000;
         add_created := "2024-03-10T09:00:00.000Z" |} in
  onkeydown (mkKeyboardEvent false false "Escape") forms (initial ∅ default) =
    (Val false, initial ∅ default) /\
  fst (onkeydown (mkKeyboardEvent true false "Enter") forms (initial ∅ default)) =
    Val true.
Proof.
  cbn zeta. split.
  - match goal with |- onkeydown ?k ?forms _ = _ =>
      destruct (keyboard_follows_the_edit_session [] ∅ default k forms)
        as (_ & _ & _ & _ & Hidle & _)
    end.
    apply Hidle; reflexivity.
  - match goal with |- fst (onkeydown ?k ?forms _) = _ =>
      destruct (keyboard_follows_the_edit_session [] ∅ default k forms)
        as (_ & _ & Hadd & _)
    end.
    cbn in Hadd. rewrite Hadd; reflexivity.
Defined.

Lemma page_load_reaches_the_probe_witness :
  let s :=
    run [EvDOMContentLoaded true; EvRegisterSettled 0 (Rejected "SecurityError")]
        (initial (<["simple_reminders" := Json.stringify [Samples.rent]]> ∅) default) in
  reminders s = [Samples.rent] /\ swRegistration s = false /\
  pending s = [TConnectFetch FromStartup] /\
  notificationStatusEl (dom s) = NSError "Service Worker registration failed".
Proof.
  cbn zeta.
  assert (application_store (<["simple_reminders" := Json.stringify [Samples.rent]]> ∅))
    as Hstore.
  { unfold application_store. rewrite lookup_insert_eq. right. left. eexists. reflexivity. }
  pose proof (page_load_reaches_the_probe
                (<["simple_reminders" := Json.stringify [Samples.rent]]> ∅) default
                true (Rejected "SecurityError") Hstore) as Hload.
  cbn zeta in Hload.
  destruct Hload as (Hr & _ & Hsw & Hp & _ & _ & _ & _ & Hst & _).
  split; [ | split; [exact Hsw | split; [exact Hp | exact Hst]]].
  refine (eq_trans Hr _). vm_compute. reflexivity.
Defined.



